(** * Query normalisation, filter compilation and row flattening of the
      GA4 reporting tool ([get_ga4_data] in [ga4_mcp_server.py]).

    The development is a shallow embedding of the Python source.  Python
    values that reach the tool are JSON-shaped, so they are modelled by the
    inductive type [pyval]; dictionaries are association lists because Python
    dictionaries keep insertion order and the code iterates over them.
    Strings are [string]s whose characters stand for the code points 0..255.

    What is left outside the embedding, and how:
    - floating point numbers and characters above code point 255 (a JSON
      text that denotes one decodes to [Unmodelled], and [pyval] has no
      float constructor);
    - interpreter resource limits (recursion depth, integer digit limits);
    - the protobuf runtime behind the message constructors, the property
      manager, the token storage and the analytics backend: they are
      parameters ([ProtoRuntime], [Collaborators]);
    - the debug lines printed on stderr. *)

From Stdlib Require Import List String Ascii ZArith Bool Lia Arith.
Import ListNotations.
Local Open Scope string_scope.
Local Open Scope list_scope.
Local Open Scope nat_scope.

Infix "+++" := String.append (at level 60, right associativity).

Set Implicit Arguments.
Set Warnings "-register-all".

(** ** Python values *)

Inductive pyval : Type :=
| PNone
| PBool (b : bool)
| PInt (z : Z)
| PStr (s : string)
| PList (l : list pyval)
| PDict (d : list (string * pyval)).

Definition pydict := list (string * pyval).

(** [d.get(k)] / [k in d] / [d[k]] on the entries of a dictionary. *)
Fixpoint dict_lookup (A : Type) (k : string) (d : list (string * A)) : option A :=
  match d with
  | [] => None
  | (k', v) :: r => if String.eqb k k' then Some v else dict_lookup k r
  end.

Definition dict_mem (A : Type) (k : string) (d : list (string * A)) : bool :=
  match dict_lookup k d with Some _ => true | None => false end.

(** [d[k] = v]: an existing key keeps its position, a new key goes last. *)
Fixpoint dict_set (A : Type) (k : string) (v : A) (d : list (string * A))
  : list (string * A) :=
  match d with
  | [] => [(k, v)]
  | (k', v') :: r =>
      if String.eqb k k' then (k', v) :: r else (k', v') :: dict_set k v r
  end.

(** [needle in haystack] on two strings. *)
Fixpoint is_substring (needle hay : string) : bool :=
  if String.prefix needle hay then true
  else match hay with
       | EmptyString => false
       | String _ r => is_substring needle r
       end.

Fixpoint chars_of (s : string) : list string :=
  match s with
  | EmptyString => []
  | String c r => String c EmptyString :: chars_of r
  end.

Definition pyval_is_str (s : string) (v : pyval) : bool :=
  match v with PStr s' => String.eqb s s' | _ => false end.

(** [bool(v)]. *)
Definition py_truthy (v : pyval) : bool :=
  match v with
  | PNone => false
  | PBool b => b
  | PInt z => negb (Z.eqb z 0)
  | PStr s => negb (String.eqb s EmptyString)
  | PList l => match l with [] => false | _ => true end
  | PDict d => match d with [] => false | _ => true end
  end.

(** [key in v] for a string [key]; [None] is the [TypeError] raised on a
    value that is not a container. *)
Definition py_contains (key : string) (v : pyval) : option bool :=
  match v with
  | PDict d => Some (dict_mem key d)
  | PStr s => Some (is_substring key s)
  | PList l => Some (existsb (pyval_is_str key) l)
  | PNone | PBool _ | PInt _ => None
  end.

(** [v[key]] for a string [key]: [KeyError] on a missing key, [TypeError] on
    anything that is not a dictionary. *)
Definition py_getitem (v : pyval) (key : string) : option pyval :=
  match v with
  | PDict d => dict_lookup key d
  | _ => None
  end.

(** [v.get(key, default)]: only dictionaries have the method. *)
Definition py_get (v : pyval) (key : string) (default : pyval) : option pyval :=
  match v with
  | PDict d => Some (match dict_lookup key d with Some x => x | None => default end)
  | _ => None
  end.

(** The elements a [for] loop over [v] visits: list elements, dictionary
    keys, the characters of a string; [None] is the [TypeError] of a value
    that is not iterable. *)
Definition py_iter (v : pyval) : option (list pyval) :=
  match v with
  | PList l => Some l
  | PDict d => Some (map (fun kv => PStr (fst kv)) d)
  | PStr s => Some (map PStr (chars_of s))
  | PNone | PBool _ | PInt _ => None
  end.

(** Lists and dictionaries are not hashable: using one as a set element or a
    dictionary key raises [TypeError]. *)
Definition py_hashable (v : pyval) : bool :=
  match v with
  | PList _ | PDict _ => false
  | _ => true
  end.

(** Nesting depth, the measure the filter compiler recurses on. *)
Fixpoint depth (v : pyval) : nat :=
  match v with
  | PList l => S ((fix go (l : list pyval) : nat :=
                     match l with [] => 0 | x :: r => Nat.max (depth x) (go r) end) l)
  | PDict d => S ((fix go (d : list (string * pyval)) : nat :=
                     match d with [] => 0 | (_, x) :: r => Nat.max (depth x) (go r) end) d)
  | _ => 0
  end.

(** ** The option monad of [build_filter_expr]

    Inside [build_filter_expr] every exception is caught and turned into
    [None]; there [None] stands for both [return None] and a raised
    exception. *)

Definition obind (A B : Type) (m : option A) (k : A -> option B) : option B :=
  match m with Some a => k a | None => None end.

Notation "x <- m ;; k" := (obind m (fun x => k))
  (at level 61, m at next level, right associativity).

(** ** Catalog *)

(** [GA4_DIMENSIONS]: category, then the field names of the category (the
    descriptions play no role in validation and are left out). *)
Definition GA4_DIMENSIONS : list (string * list string) :=
  [ ("time",
     [ "date"; "dateHour"; "dateHourMinute"; "day"; "dayOfWeek"; "hour";
      "minute"; "month"; "week"; "year"; "nthDay"; "nthHour"; "nthMinute";
      "nthMonth"; "nthWeek"; "nthYear" ]);
    ("geography",
     [ "city"; "cityId"; "country"; "countryId"; "region" ]);
    ("technology",
     [ "browser"; "deviceCategory"; "deviceModel"; "operatingSystem";
      "operatingSystemVersion"; "platform"; "platformDeviceCategory";
      "screenResolution" ]);
    ("traffic_source",
     [ "campaignId"; "campaignName"; "defaultChannelGroup"; "medium";
      "source"; "sourceMedium"; "sourcePlatform"; "sessionCampaignId";
      "sessionCampaignName"; "sessionDefaultChannelGroup"; "sessionMedium";
      "sessionSource"; "sessionSourceMedium"; "sessionSourcePlatform" ]);
    ("first_user_attribution",
     [ "firstUserCampaignId"; "firstUserCampaignName";
      "firstUserDefaultChannelGroup"; "firstUserMedium"; "firstUserSource";
      "firstUserSourceMedium"; "firstUserSourcePlatform" ]);
    ("content",
     [ "contentGroup"; "contentId"; "contentType"; "fullPageUrl";
      "landingPage"; "pageLocation"; "pagePath"; "pagePathPlusQueryString";
      "pageReferrer"; "pageTitle"; "unifiedScreenClass"; "unifiedScreenName" ]);
    ("events",
     [ "eventName"; "isConversionEvent"; "method" ]);
    ("ecommerce",
     [ "itemBrand"; "itemCategory"; "itemCategory2"; "itemCategory3";
      "itemCategory4"; "itemCategory5"; "itemId"; "itemListId";
      "itemListName"; "itemName"; "itemPromotionCreativeName";
      "itemPromotionId"; "itemPromotionName"; "orderCoupon"; "shippingTier";
      "transactionId" ]);
    ("user_demographics",
     [ "newVsReturning"; "signedInWithUserId"; "userAgeBracket"; "userGender";
      "language"; "languageCode" ]);
    ("google_ads",
     [ "googleAdsAdGroupId"; "googleAdsAdGroupName"; "googleAdsAdNetworkType";
      "googleAdsCampaignId"; "googleAdsCampaignName";
      "googleAdsCampaignType"; "googleAdsCreativeId"; "googleAdsKeyword";
      "googleAdsQuery"; "firstUserGoogleAdsAdGroupId";
      "firstUserGoogleAdsAdGroupName"; "firstUserGoogleAdsCampaignId";
      "firstUserGoogleAdsCampaignName"; "firstUserGoogleAdsCampaignType";
      "firstUserGoogleAdsCreativeId"; "firstUserGoogleAdsKeyword";
      "firstUserGoogleAdsNetworkType"; "firstUserGoogleAdsQuery";
      "sessionGoogleAdsAdGroupId"; "sessionGoogleAdsAdGroupName";
      "sessionGoogleAdsCampaignId"; "sessionGoogleAdsCampaignName";
      "sessionGoogleAdsCampaignType"; "sessionGoogleAdsCreativeId";
      "sessionGoogleAdsKeyword"; "sessionGoogleAdsNetworkType";
      "sessionGoogleAdsQuery" ]);
    ("manual_campaigns",
     [ "manualAdContent"; "manualTerm"; "firstUserManualAdContent";
      "firstUserManualTerm"; "sessionManualAdContent"; "sessionManualTerm" ]);
    ("app_specific",
     [ "appVersion"; "streamId"; "streamName" ]);
    ("cohort_analysis",
     [ "cohort"; "cohortNthDay"; "cohortNthMonth"; "cohortNthWeek" ]);
    ("audiences",
     [ "audienceId"; "audienceName"; "brandingInterest" ]);
    ("enhanced_measurement",
     [ "fileExtension"; "fileName"; "linkClasses"; "linkDomain"; "linkId";
      "linkText"; "linkUrl"; "outbound"; "percentScrolled"; "searchTerm";
      "videoProvider"; "videoTitle"; "videoUrl"; "visible" ]);
    ("gaming",
     [ "achievementId"; "character"; "groupId"; "virtualCurrencyName" ]);
    ("advertising",
     [ "adFormat"; "adSourceName"; "adUnitName" ]);
    ("testing",
     [ "testDataFilterName" ]) ].
Definition load_dimensions : list (string * list string) := GA4_DIMENSIONS.

(** [valid_dimensions]: the union of the key sets of all categories. *)
Definition valid_dimensions : list string :=
  flat_map snd load_dimensions.

Definition in_valid_dimensions (name : string) : bool :=
  existsb (String.eqb name) valid_dimensions.

(** ** Filter messages *)

Inductive MatchType : Type :=
| EXACT | BEGINS_WITH | ENDS_WITH | CONTAINS | FULL_REGEXP | PARTIAL_REGEXP.

(** The message constructors store their keyword arguments as given. *)
Record StringFilter : Type := mkStringFilter
  { sf_value : pyval; sf_match_type : MatchType; sf_case_sensitive : pyval }.

Record InListFilter : Type := mkInListFilter
  { ilf_values : pyval; ilf_case_sensitive : pyval }.

Inductive Matcher : Type :=
| string_filter (sf : StringFilter)
| in_list_filter (ilf : InListFilter).

Record Filter : Type := mkFilter
  { field_name : string; matcher : Matcher }.

Inductive FilterExpression : Type :=
| and_group (expressions : list FilterExpression)
| or_group (expressions : list FilterExpression)
| not_expression (e : FilterExpression)
| filter (f : Filter).

(** The protobuf runtime type-checks the arguments of a message constructor
    and raises on a rejected one.  Which arguments it accepts is not part of
    the source, so it is a parameter. *)
Record ProtoRuntime : Type := mkProtoRuntime
  { accepts_string_filter : pyval -> pyval -> bool;
    accepts_in_list_filter : pyval -> pyval -> bool;
    message_truthy : FilterExpression -> bool }.

(** [match_type_map] *)
Definition match_type_map : list (string * MatchType) :=
  [ ("EXACT", EXACT); ("BEGINS_WITH", BEGINS_WITH); ("ENDS_WITH", ENDS_WITH);
    ("CONTAINS", CONTAINS); ("FULL_REGEXP", FULL_REGEXP);
    ("PARTIAL_REGEXP", PARTIAL_REGEXP) ].

(** [match_type_map.get(key, EXACT)]: an unhashable key raises. *)
Definition match_type_map_get (key : pyval) : option MatchType :=
  match key with
  | PStr s => Some (match dict_lookup s match_type_map with
                    | Some m => m
                    | None => EXACT
                    end)
  | _ => if py_hashable key then Some EXACT else None
  end.

(** [field not in valid_dimensions] succeeds only for hashable values, and
    only a string can be a member. *)
Definition valid_field (field : pyval) : option string :=
  match field with
  | PStr s => if in_valid_dimensions s then Some s else None
  | _ => None
  end.

(** What the loop header [for e in expr[key]['expressions']] iterates over. *)
Definition group_expressions (expr : pyval) (key : string) : option (list pyval) :=
  g <- py_getitem expr key ;;
  es <- py_getitem g "expressions" ;;
  py_iter es.

Section FilterCompiler.

Variable rt : ProtoRuntime.

(** The loop [for e in ...: built = build(e); if built is None: return
    None; expressions.append(built)]. *)
Fixpoint build_each (build : pyval -> option FilterExpression)
         (l : list pyval) : option (list FilterExpression) :=
  match l with
  | [] => Some []
  | e :: r =>
      built_expr <- build e ;;
      expressions <- build_each build r ;;
      Some (built_expr :: expressions)
  end.

Definition build_group (build : pyval -> option FilterExpression)
           (expr : pyval) (key : string) : option (list FilterExpression) :=
  l <- group_expressions expr key ;;
  build_each build l.

Definition build_string_filter (field : string) (f : pyval)
  : option FilterExpression :=
  sf <- py_getitem f "stringFilter" ;;
  mt_key <- py_get sf "matchType" (PStr "EXACT") ;;
  match_type <- match_type_map_get mt_key ;;
  value <- py_get sf "value" (PStr EmptyString) ;;
  case_sensitive <- py_get sf "caseSensitive" (PBool false) ;;
  if accepts_string_filter rt value case_sensitive
  then Some (filter (mkFilter field
               (string_filter (mkStringFilter value match_type case_sensitive))))
  else None.

Definition build_in_list_filter (field : string) (f : pyval)
  : option FilterExpression :=
  ilf <- py_getitem f "inListFilter" ;;
  values <- py_get ilf "values" (PList []) ;;
  case_sensitive <- py_get ilf "caseSensitive" (PBool false) ;;
  if accepts_in_list_filter rt values case_sensitive
  then Some (filter (mkFilter field
               (in_list_filter (mkInListFilter values case_sensitive))))
  else None.

Definition build_leaf (expr : pyval) : option FilterExpression :=
  f <- py_getitem expr "filter" ;;
  field <- py_get f "fieldName" PNone ;;
  if negb (py_truthy field) then None
  else
    if negb (py_hashable field) then None
    else
      name <- valid_field field ;;
      has_sf <- py_contains "stringFilter" f ;;
      if has_sf then build_string_filter name f
      else
        has_ilf <- py_contains "inListFilter" f ;;
        if has_ilf then build_in_list_filter name f
        else None.

(** One activation of [build_filter_expr]; [build] is the recursive call. *)
Definition build_body (build : pyval -> option FilterExpression)
           (expr : pyval) : option FilterExpression :=
  has_and <- py_contains "andGroup" expr ;;
  if has_and then
    expressions <- build_group build expr "andGroup" ;;
    Some (and_group expressions)
  else
    has_or <- py_contains "orGroup" expr ;;
    if has_or then
      expressions <- build_group build expr "orGroup" ;;
      Some (or_group expressions)
    else
      has_not <- py_contains "notExpression" expr ;;
      if has_not then
        sub <- py_getitem expr "notExpression" ;;
        built_expr <- build sub ;;
        Some (not_expression built_expr)
      else
        has_filter <- py_contains "filter" expr ;;
        if has_filter then build_leaf expr
        else None.

Fixpoint build_fuel (fuel : nat) (expr : pyval) : option FilterExpression :=
  match fuel with
  | O => None
  | S fuel' => build_body (build_fuel fuel') expr
  end.

(** The recursion of the source descends into strictly smaller values, so
    [depth expr + 1] activations always suffice (see
    [build_filter_expr_unfold]). *)
Definition build_filter_expr (expr : pyval) : option FilterExpression :=
  build_fuel (S (depth expr)) expr.

End FilterCompiler.

(** ** Python string operations (code points 0..255) *)

Definition code (c : ascii) : nat := nat_of_ascii c.

Definition between (lo hi n : nat) : bool := (lo <=? n) && (n <=? hi).

(** [c.isspace()] *)
Definition is_py_space (c : ascii) : bool :=
  let n := code c in
  between 9 13 n || between 28 32 n || (n =? 133) || (n =? 160).

Fixpoint py_lstrip (s : string) : string :=
  match s with
  | EmptyString => EmptyString
  | String c r => if is_py_space c then py_lstrip r else s
  end.

Fixpoint py_rstrip (s : string) : string :=
  match s with
  | EmptyString => EmptyString
  | String c r =>
      match py_rstrip r with
      | EmptyString => if is_py_space c then EmptyString else String c EmptyString
      | r' => String c r'
      end
  end.

(** [s.strip()] *)
Definition py_strip (s : string) : string := py_rstrip (py_lstrip s).

(** [s.split(sep)] for a one-character separator. *)
Fixpoint py_split (sep : ascii) (s : string) : list string :=
  match s with
  | EmptyString => [EmptyString]
  | String c r =>
      if Ascii.eqb c sep then EmptyString :: py_split sep r
      else match py_split sep r with
           | [] => [String c EmptyString]
           | h :: t => String c h :: t
           end
  end.

Definition lower_char (c : ascii) : ascii :=
  let n := code c in
  if between 65 90 n || (between 192 222 n && negb (n =? 215))
  then ascii_of_nat (n + 32) else c.

(** [s.lower()] *)
Fixpoint py_lower (s : string) : string :=
  match s with
  | EmptyString => EmptyString
  | String c r => String (lower_char c) (py_lower r)
  end.

Definition hex_digit (n : nat) : ascii :=
  if n <? 10 then ascii_of_nat (48 + n) else ascii_of_nat (87 + n).

Definition is_printable (c : ascii) : bool :=
  let n := code c in
  between 32 126 n || (between 161 255 n && negb (n =? 173)).

Definition repr_char (quote : ascii) (c : ascii) : string :=
  let n := code c in
  if Ascii.eqb c quote || (n =? 92) then String "\" (String c EmptyString)
  else if n =? 9 then "\t"
  else if n =? 10 then "\n"
  else if n =? 13 then "\r"
  else if is_printable c then String c EmptyString
  else String "\" (String "x" (String (hex_digit (n / 16))
                                 (String (hex_digit (n mod 16)) EmptyString))).

(** The double quote character. *)
Definition dquote : ascii := ascii_of_nat 34.

Fixpoint has_char (c : ascii) (s : string) : bool :=
  match s with
  | EmptyString => false
  | String c' r => Ascii.eqb c c' || has_char c r
  end.

Fixpoint concat_map_chars (f : ascii -> string) (s : string) : string :=
  match s with
  | EmptyString => EmptyString
  | String c r => f c +++ concat_map_chars f r
  end.

(** [repr(s)] of a string. *)
Definition repr_str (s : string) : string :=
  let quote : ascii :=
    if has_char "'" s && negb (has_char dquote s) then dquote else "'"%char in
  String quote (concat_map_chars (repr_char quote) s +++ String quote EmptyString).

Fixpoint digits_of_pos (fuel : nat) (n : N) (acc : string) : string :=
  match fuel with
  | O => acc
  | S fuel' =>
      let acc' := String (ascii_of_N (48 + N.modulo n 10)%N) acc in
      if N.ltb n 10 then acc' else digits_of_pos fuel' (N.div n 10) acc'
  end.

(** [str(z)] of an integer. *)
Definition str_int (z : Z) : string :=
  let n := Z.abs_N z in
  let ds := digits_of_pos (S (N.to_nat (N.log2 n))) n EmptyString in
  if Z.ltb z 0 then String "-" ds else ds.

Definition join (sep : string) (l : list string) : string := String.concat sep l.

(** [repr(v)] *)
Fixpoint py_repr (v : pyval) : string :=
  match v with
  | PNone => "None"
  | PBool true => "True"
  | PBool false => "False"
  | PInt z => str_int z
  | PStr s => repr_str s
  | PList l =>
      "[" +++ join ", " ((fix go (l : list pyval) : list string :=
                           match l with [] => [] | x :: r => py_repr x :: go r end) l)
          +++ "]"
  | PDict d =>
      "{" +++ join ", " ((fix go (d : list (string * pyval)) : list string :=
                           match d with
                           | [] => []
                           | (k, x) :: r => (repr_str k +++ ": " +++ py_repr x) :: go r
                           end) d)
          +++ "}"
  end.

(** [str(v)] *)
Definition py_str (v : pyval) : string :=
  match v with
  | PStr s => s
  | _ => py_repr v
  end.

(** ** [json.loads]

    The decoder follows the standard library's scanner: JSON whitespace is
    skipped between tokens, strings are scanned in strict mode, numbers
    follow the scanner's number pattern, and whatever remains after the
    value must be whitespace.  A float or an escape above code point 255
    leaves the embedding ([PUnm], then [Unmodelled]). *)

Inductive pres (A : Type) : Type :=
| POk (a : A) (rest : string)
| PErr
| PUnm.
Arguments PErr {A}.
Arguments PUnm {A}.

Definition pres_map (A B : Type) (f : A -> B) (r : pres A) : pres B :=
  match r with
  | POk a rest => POk (f a) rest
  | PErr => PErr
  | PUnm => PUnm
  end.

Definition is_json_ws (c : ascii) : bool :=
  let n := code c in (n =? 32) || (n =? 9) || (n =? 10) || (n =? 13).

Fixpoint skip_ws (s : string) : string :=
  match s with
  | EmptyString => EmptyString
  | String c r => if is_json_ws c then skip_ws r else s
  end.

Definition hex_value (c : ascii) : option nat :=
  let n := code c in
  if between 48 57 n then Some (n - 48)
  else if between 97 102 n then Some (n - 87)
  else if between 65 70 n then Some (n - 55)
  else None.

Definition hex4 (a b c d : ascii) : option nat :=
  match hex_value a, hex_value b, hex_value c, hex_value d with
  | Some x, Some y, Some z, Some w => Some (((x * 16 + y) * 16 + z) * 16 + w)
  | _, _, _, _ => None
  end.

(** The one-character escapes of the scanner's [BACKSLASH] table. *)
Definition backslash (c : ascii) : option ascii :=
  let n := code c in
  if n =? 34 then Some c
  else if n =? 92 then Some c
  else if n =? 47 then Some c
  else if n =? 98 then Some (ascii_of_nat 8)
  else if n =? 102 then Some (ascii_of_nat 12)
  else if n =? 110 then Some (ascii_of_nat 10)
  else if n =? 114 then Some (ascii_of_nat 13)
  else if n =? 116 then Some (ascii_of_nat 9)
  else None.

(** [scanstring]: the input starts just after the opening quote. *)
Fixpoint scanstring (s : string) : pres string :=
  match s with
  | EmptyString => PErr
  | String c r =>
      if code c =? 34 then POk EmptyString r
      else if code c =? 92 then
        match r with
        | EmptyString => PErr
        | String e r' =>
            if code e =? 117 then
              match r' with
              | String h1 (String h2 (String h3 (String h4 r''))) =>
                  match hex4 h1 h2 h3 h4 with
                  | None => PErr
                  | Some n =>
                      if n <? 256
                      then pres_map (String (ascii_of_nat n)) (scanstring r'')
                      else PUnm
                  end
              | _ => PErr
              end
            else
              match backslash e with
              | Some ch => pres_map (String ch) (scanstring r')
              | None => PErr
              end
        end
      else if code c <? 32 then PErr
      else pres_map (String c) (scanstring r)
  end.

Definition is_digit (c : ascii) : bool := between 48 57 (code c).

Fixpoint span_digits (s : string) : string * string :=
  match s with
  | EmptyString => (EmptyString, EmptyString)
  | String c r =>
      if is_digit c
      then let (ds, rest) := span_digits r in (String c ds, rest)
      else (EmptyString, s)
  end.

Fixpoint int_of_digits (acc : Z) (ds : string) : Z :=
  match ds with
  | EmptyString => acc
  | String c r => int_of_digits (10 * acc + Z.of_nat (code c - 48))%Z r
  end.

Definition starts_with_digit (s : string) : bool :=
  match s with
  | String c _ => is_digit c
  | EmptyString => false
  end.

Inductive number_match : Type :=
| NoMatch
| IntMatch (z : Z) (rest : string)
| FloatMatch.

(** Does a fraction (a dot and at least one digit) or an exponent ([e] or
    [E], an optional sign, at least one digit) follow? *)
Definition float_tail (rest : string) : bool :=
  match rest with
  | String c r =>
      if code c =? 46 then starts_with_digit r
      else if (code c =? 101) || (code c =? 69) then
        match r with
        | String sg r' =>
            if (code sg =? 43) || (code sg =? 45) then starts_with_digit r'
            else is_digit sg
        | EmptyString => false
        end
      else false
  | EmptyString => false
  end.

Definition match_unsigned (neg : bool) (s : string) : number_match :=
  match s with
  | String c r =>
      if code c =? 48 then
        if float_tail r then FloatMatch else IntMatch 0 r
      else if is_digit c then
        let (ds, rest) := span_digits s in
        if float_tail rest then FloatMatch
        else IntMatch (if neg then Z.opp (int_of_digits 0 ds) else int_of_digits 0 ds) rest
      else NoMatch
  | EmptyString => NoMatch
  end.

(** [NUMBER_RE.match]: an optional minus sign, then [0] or a non-zero digit
    followed by digits; a fraction or an exponent after it makes a float. *)
Definition match_number (s : string) : number_match :=
  match s with
  | String c r => if code c =? 45 then match_unsigned true r else match_unsigned false s
  | EmptyString => NoMatch
  end.

Fixpoint drop (n : nat) (s : string) : string :=
  match n, s with
  | S n', String _ r => drop n' r
  | _, _ => s
  end.

(** [dict(pairs)]: a repeated key keeps its first position and its last value. *)
Definition dict_of_pairs (pairs : list (string * pyval)) : pydict :=
  fold_left (fun d kv => dict_set (fst kv) (snd kv) d) pairs [].

Fixpoint parse_value (fuel : nat) (s : string) {struct fuel} : pres pyval :=
  match fuel with
  | O => PUnm
  | S fuel' =>
      match s with
      | EmptyString => PErr
      | String c r =>
          if code c =? 34 then pres_map PStr (scanstring r)
          else if code c =? 123 then
            match skip_ws r with
            | String c1 r1 =>
                if code c1 =? 125 then POk (PDict []) r1
                else if code c1 =? 34
                     then pres_map (fun ps => PDict (dict_of_pairs ps))
                                   (parse_members fuel' r1)
                     else PErr
            | EmptyString => PErr
            end
          else if code c =? 91 then
            match skip_ws r with
            | String c1 r1 =>
                if code c1 =? 93 then POk (PList []) r1
                else pres_map PList (parse_elems fuel' (String c1 r1))
            | EmptyString => PErr
            end
          else if String.prefix "null" s then POk PNone (drop 4 s)
          else if String.prefix "true" s then POk (PBool true) (drop 4 s)
          else if String.prefix "false" s then POk (PBool false) (drop 5 s)
          else
            match match_number s with
            | IntMatch z rest => POk (PInt z) rest
            | FloatMatch => PUnm
            | NoMatch =>
                if String.prefix "NaN" s || String.prefix "Infinity" s
                   || String.prefix "-Infinity" s
                then PUnm else PErr
            end
      end
  end

(** The loop of [JSONArray]: a value, then [,] or the closing bracket. *)
with parse_elems (fuel : nat) (s : string) {struct fuel} : pres (list pyval) :=
  match fuel with
  | O => PUnm
  | S fuel' =>
      match parse_value fuel' s with
      | POk v rest =>
          match skip_ws rest with
          | String c r =>
              if code c =? 93 then POk [v] r
              else if code c =? 44
                   then pres_map (cons v) (parse_elems fuel' (skip_ws r))
                   else PErr
          | EmptyString => PErr
          end
      | PErr => PErr
      | PUnm => PUnm
      end
  end

(** The loop of [JSONObject]: the input starts just after the opening quote
    of a key. *)
with parse_members (fuel : nat) (s : string) {struct fuel}
  : pres (list (string * pyval)) :=
  match fuel with
  | O => PUnm
  | S fuel' =>
      match scanstring s with
      | POk key rest =>
          match skip_ws rest with
          | String c r =>
              if code c =? 58 then
                match parse_value fuel' (skip_ws r) with
                | POk v rest' =>
                    match skip_ws rest' with
                    | String c' r' =>
                        if code c' =? 125 then POk [(key, v)] r'
                        else if code c' =? 44 then
                          match skip_ws r' with
                          | String q r'' =>
                              if code q =? 34
                              then pres_map (cons (key, v)) (parse_members fuel' r'')
                              else PErr
                          | EmptyString => PErr
                          end
                        else PErr
                    | EmptyString => PErr
                    end
                | PErr => PErr
                | PUnm => PUnm
                end
              else PErr
          | EmptyString => PErr
          end
      | PErr => PErr
      | PUnm => PUnm
      end
  end.

Inductive loads_result : Type :=
| Loaded (v : pyval)
| JSONDecodeError
| Unmodelled.

(** [json.loads(s)] *)
Definition json_loads (s : string) : loads_result :=
  match parse_value (2 * String.length s + 2) (skip_ws s) with
  | POk v rest =>
      match skip_ws rest with
      | EmptyString => Loaded v
      | _ => JSONDecodeError
      end
  | PErr => JSONDecodeError
  | PUnm => Unmodelled
  end.

(** ** Exceptions and outcomes *)

(** What the call [e.details()] does: it returns something whose text is
    [text], or it raises in its turn (for instance because the attribute is
    not callable). *)
Inductive details_call : Type :=
| DetailsReturn (text : string)
| DetailsRaise (message : string).

(** An exception as the handler of [get_ga4_data] sees it: [str(e)], and
    the behaviour of [e.details()] when the exception has a [details]
    attribute. *)
Record exn : Type := mkExn
  { exn_str : string; exn_details : option details_call }.

(** A computation returns, raises an [Exception], ends the process with
    [sys.exit] (a [SystemExit], which [except Exception] does not catch), or
    leaves the embedding. *)
Inductive outcome (A : Type) : Type :=
| Ret (a : A)
| Raise (e : exn)
| Exit (status : Z)
| OutOfModel.
Arguments Raise {A} e.
Arguments Exit {A} status.
Arguments OutOfModel {A}.

Definition bind (A B : Type) (m : outcome A) (k : A -> outcome B) : outcome B :=
  match m with
  | Ret a => k a
  | Raise e => Raise e
  | Exit status => Exit status
  | OutOfModel => OutOfModel
  end.

Notation "x <~ m ;; k" := (bind m (fun x => k))
  (at level 61, m at next level, right associativity).

Definition type_name (v : pyval) : string :=
  match v with
  | PNone => "NoneType"
  | PBool _ => "bool"
  | PInt _ => "int"
  | PStr _ => "str"
  | PList _ => "list"
  | PDict _ => "dict"
  end.

(** The [TypeError] of a [for] over a value that is not iterable. *)
Definition not_iterable (v : pyval) : exn :=
  mkExn ("'" +++ type_name v +++ "' object is not iterable") None.

(** ** List normalizer

    The source inlines the same block twice, once for [dimensions] and once
    for [metrics]. *)

(** [isinstance(v, str)] branch: decode as JSON, wrap a scalar, or fall back
    to splitting on commas. *)
Definition parse_field_arg (arg : pyval) : outcome pyval :=
  match arg with
  | PStr s =>
      match json_loads s with
      | Loaded parsed =>
          match parsed with
          | PList _ => Ret parsed
          | _ => Ret (PList [PStr (py_str parsed)])
          end
      | JSONDecodeError =>
          Ret (PList (map (fun d => PStr (py_strip d)) (py_split "," s)))
      | Unmodelled => OutOfModel
      end
  | _ => Ret arg
  end.

(** [[str(d).strip() for d in parsed if str(d).strip()]] *)
Fixpoint strip_nonempty (l : list pyval) : list string :=
  match l with
  | [] => []
  | d :: r =>
      let t := py_strip (py_str d) in
      if String.eqb t EmptyString then strip_nonempty r else t :: strip_nonempty r
  end.

Definition normalize_field_list (arg : pyval) : outcome (list string) :=
  parsed <~ parse_field_arg arg ;;
  match py_iter parsed with
  | Some l => Ret (strip_nonempty l)
  | None => Raise (not_iterable parsed)
  end.

(** ** Backend messages *)

Record DateRange : Type := mkDateRange
  { start_date : pyval; end_date : pyval }.

Record RunReportRequest : Type := mkRunReportRequest
  { property : string;
    dimensions : list string;
    metrics : list string;
    date_ranges : list DateRange;
    dimension_filter : option FilterExpression }.

Record Row : Type := mkRow
  { dimension_values : list string; metric_values : list string }.

Record RunReportResponse : Type := mkRunReportResponse
  { dimension_headers : list string;
    metric_headers : list string;
    rows : list Row }.

(** ** Row flattener *)

(** [values[i].value if i < len(values) else None] *)
Definition cell (values : list string) (i : nat) : pyval :=
  if i <? List.length values then PStr (nth i values EmptyString) else PNone.

(** One of the two inner loops: [for i, header in enumerate(headers)],
    writing the cell of index [i] under the header's name. *)
Fixpoint write_cells (i : nat) (headers : list string) (values : list string)
         (data_row : pydict) : pydict :=
  match headers with
  | [] => data_row
  | name :: rest =>
      write_cells (S i) rest values (dict_set name (cell values i) data_row)
  end.

Definition flatten_row (response : RunReportResponse) (row : Row) : pydict :=
  let data_row := [] in
  let data_row := write_cells 0 (dimension_headers response)
                              (dimension_values row) data_row in
  write_cells 0 (metric_headers response) (metric_values row) data_row.

(** The outer loop: one [result.append(data_row)] per row, in order. *)
Fixpoint flatten_rows (response : RunReportResponse) (rs : list Row)
         (result : list pydict) : list pydict :=
  match rs with
  | [] => result
  | row :: rest => flatten_rows response rest (result ++ [flatten_row response row])
  end.

Definition flatten_response (response : RunReportResponse) : list pydict :=
  flatten_rows response (rows response) [].

(** ** Collaborators *)

Record PropertyInfo : Type := mkPropertyInfo
  { id : string; display_name : string; parent : string; account_name : string }.

(** What [list_properties] returns: a list of property dictionaries or an
    error dictionary. *)
Inductive properties_result : Type :=
| PropertyList (ps : list PropertyInfo)
| PropertyError (message : string).

Record GA4PropertyManager : Type := mkPropertyManager
  { validate_property_id : pyval -> outcome bool;
    list_properties : outcome properties_result }.

(** OAuth credentials, as far as [get_oauth_credentials] reads them. *)
Record Credentials : Type := mkCredentials
  { valid : bool; expired : bool; refresh_token : option string }.

(** [Config] and what [get_oauth_credentials] does with the outside world. *)
Record OAuthSetup : Type := mkOAuthSetup
  { (** [None]: no file at [config.token_path]; otherwise [pickle.load] *)
    token_file : option (outcome Credentials);
    (** [creds.refresh(Request())] *)
    refresh : Credentials -> outcome Credentials;
    client_id : pyval;
    client_secret : pyval;
    (** [InstalledAppFlow...run_local_server(port=8080)] *)
    run_local_server : outcome Credentials;
    (** [pickle.dump(creds, token)] *)
    save_token : Credentials -> outcome unit;
    (** [BetaAnalyticsDataClient(credentials=credentials)]; the client
        itself carries no data the tool reads *)
    new_client : Credentials -> outcome unit }.

Record Collaborators : Type := mkCollaborators
  { proto : ProtoRuntime;
    property_manager : option GA4PropertyManager;
    oauth : OAuthSetup;
    (** building the request messages; a rejected argument raises *)
    check_request : RunReportRequest -> option exn;
    (** [client.run_report(request)] *)
    run_report : RunReportRequest -> outcome RunReportResponse }.

(** ** Credentials *)

(** [not config.client_id or not config.client_secret] *)
Definition client_secrets_missing (o : OAuthSetup) : bool :=
  negb (py_truthy (client_id o)) || negb (py_truthy (client_secret o)).

(** [creds and creds.expired and creds.refresh_token] *)
Definition refreshable (creds : option Credentials) : bool :=
  match creds with
  | Some c =>
      expired c && match refresh_token c with
                   | Some t => negb (String.eqb t EmptyString)
                   | None => false
                   end
  | None => false
  end.

(** The block under [if not creds or not creds.valid]: refresh an expired
    token (a failed refresh drops the credentials), otherwise run the
    interactive flow, or leave the process when no client id or secret is
    configured; then save the token. *)
Definition login (o : OAuthSetup) (creds : option Credentials)
  : outcome Credentials :=
  creds <~ match creds with
           | Some c =>
               if refreshable creds then
                 match refresh o c with
                 | Ret c' => Ret (Some c')
                 | Raise _ => Ret None
                 | Exit status => Exit status
                 | OutOfModel => OutOfModel
                 end
               else Ret creds
           | None => Ret None
           end ;;
  creds <~ match creds with
           | Some c => Ret c
           | None =>
               if client_secrets_missing o then Exit 1
               else run_local_server o
           end ;;
  _ <~ save_token o creds ;;
  Ret creds.

(** [get_oauth_credentials].  The call of [initialize_property_manager] at
    its end catches its own exceptions and only replaces the global
    [property_manager] read by later calls; it is left out. *)
Definition get_oauth_credentials (o : OAuthSetup) : outcome Credentials :=
  creds <~ match token_file o with
           | Some load => c <~ load ;; Ret (Some c)
           | None => Ret None
           end ;;
  match creds with
  | Some c => if valid c then Ret c else login o creds
  | None => login o creds
  end.

(** [get_authenticated_client] *)
Definition get_authenticated_client (o : OAuthSetup) : outcome unit :=
  credentials <~ get_oauth_credentials o ;;
  new_client o credentials.

(** ** The tool *)

(** The error dictionaries of [get_ga4_data], one constructor per message. *)
Inductive error_message : Type :=
| PropertyIdRequired
    (* property_id is required. Use list_ga4_properties tool ... *)
| InvalidPropertyIdAvailable (property_id : pyval) (available_ids : list string)
    (* Invalid property ID: ... Available property IDs: ... *)
| InvalidPropertyId (property_id : pyval)
    (* Invalid property ID: ... Use list_ga4_properties tool ... *)
| DimensionsEmpty
    (* Dimensions list cannot be empty after parsing. *)
| MetricsEmpty
    (* Metrics list cannot be empty after parsing. *)
| FilterJSONParseFailed
    (* Failed to parse dimension_filter JSON: ... *)
| FilterWrongType
    (* dimension_filter must be a JSON string or dict. *)
| InvalidFilter
    (* Invalid or unsupported dimension_filter structure, or invalid
       dimension name. *)
| PropertyIdParameterRequired (details : option string)
    (* property_id parameter is required. ... [ Details: ...] *)
| PropertyNotAccessible (property_id : pyval) (details : option string)
    (* Property ID '...' not found or not accessible. ... [ Details: ...] *)
| ErrorFetching (text : string) (details : option string).
    (* Error fetching GA4 data: ... [ Details: ...] *)

(** What the tool returns: the list [result] or a dictionary with the single
    key [error]. *)
Inductive tool_result : Type :=
| Rows (result : list pydict)
| ErrorDict (error : error_message).

Section Tool.

Variable env : Collaborators.

(** The property checks at the top of the [try] block; [None] means that
    they passed. *)
Definition check_property (property_id : pyval) : outcome (option error_message) :=
  if negb (py_truthy property_id) then Ret (Some PropertyIdRequired)
  else
    match property_manager env with
    | None => Ret None
    | Some pm =>
        valid_property <~ validate_property_id pm property_id ;;
        if valid_property then Ret None
        else
          properties <~ list_properties pm ;;
          match properties with
          | PropertyList (p :: ps) =>
              Ret (Some (InvalidPropertyIdAvailable property_id
                           (map id (p :: ps))))
          | _ => Ret (Some (InvalidPropertyId property_id))
          end
    end.

(** The block guarded by [if dimension_filter:]. It yields the compiled
    filter ([None] when no filter is applied) or the error to return. *)
Definition compile_dimension_filter (dimension_filter : pyval)
  : outcome (error_message + option FilterExpression) :=
  if py_truthy dimension_filter then
    match dimension_filter with
    | PStr s =>
        match json_loads s with
        | Loaded filter_dict =>
            match build_filter_expr (proto env) filter_dict with
            | Some fe => Ret (inr (Some fe))
            | None => Ret (inl InvalidFilter)
            end
        | JSONDecodeError => Ret (inl FilterJSONParseFailed)
        | Unmodelled => OutOfModel
        end
    | PDict _ =>
        match build_filter_expr (proto env) dimension_filter with
        | Some fe => Ret (inr (Some fe))
        | None => Ret (inl InvalidFilter)
        end
    | _ => Ret (inl FilterWrongType)
    end
  else Ret (inr None).

(** The report request and the call of the backend. *)
Definition fetch_report (property_id : pyval)
           (parsed_dimensions parsed_metrics : list string)
           (date_range_start date_range_end : pyval)
           (filter_expression : option FilterExpression)
  : outcome RunReportResponse :=
  _ <~ get_authenticated_client (oauth env) ;;
  let request :=
    mkRunReportRequest
      ("properties/" +++ py_str property_id)
      parsed_dimensions parsed_metrics
      [mkDateRange date_range_start date_range_end]
      (match filter_expression with
       | Some fe => if message_truthy (proto env) fe then Some fe else None
       | None => None
       end) in
  match check_request env request with
  | Some e => Raise e
  | None => run_report env request
  end.

(** The body of the [try] block. *)
Definition get_ga4_data_try
           (property_id dimensions metrics
            date_range_start date_range_end dimension_filter : pyval)
  : outcome tool_result :=
  checked <~ check_property property_id ;;
  match checked with
  | Some err => Ret (ErrorDict err)
  | None =>
      parsed_dimensions <~ normalize_field_list dimensions ;;
      parsed_metrics <~ normalize_field_list metrics ;;
      match parsed_dimensions, parsed_metrics with
      | [], _ => Ret (ErrorDict DimensionsEmpty)
      | _, [] => Ret (ErrorDict MetricsEmpty)
      | _, _ =>
          compiled <~ compile_dimension_filter dimension_filter ;;
          match compiled with
          | inl err => Ret (ErrorDict err)
          | inr filter_expression =>
              response <~ fetch_report property_id parsed_dimensions
                                       parsed_metrics date_range_start
                                       date_range_end filter_expression ;;
              Ret (Rows (flatten_response response))
          end
      end
  end.

(** The message the handler builds before it looks at [details]. *)
Definition classify_exception (property_id : pyval) (e : exn)
  : option string -> error_message :=
  let error_str := py_lower (exn_str e) in
  if is_substring "property not found" error_str
     || is_substring "invalid resource name" error_str
  then
    match property_id with
    | PNone => PropertyIdParameterRequired
    | _ => PropertyNotAccessible property_id
    end
  else ErrorFetching (exn_str e).

(** The [except Exception as e] handler.  The call [e.details()] is made
    outside any [try]: when it raises, the handler raises. *)
Definition handle_exception (property_id : pyval) (e : exn)
  : outcome error_message :=
  let error_message := classify_exception property_id e in
  match exn_details e with
  | None => Ret (error_message None)
  | Some (DetailsReturn text) => Ret (error_message (Some text))
  | Some (DetailsRaise message) => Raise (mkExn message None)
  end.

Definition get_ga4_data
           (property_id dimensions metrics
            date_range_start date_range_end dimension_filter : pyval)
  : outcome tool_result :=
  match get_ga4_data_try property_id dimensions metrics
                         date_range_start date_range_end dimension_filter with
  | Ret r => Ret r
  | Raise e =>
      error_message <~ handle_exception property_id e ;;
      Ret (ErrorDict error_message)
  | Exit status => Exit status
  | OutOfModel => OutOfModel
  end.

End Tool.

(** The default arguments of [get_ga4_data]. *)
Definition default_dimensions : pyval := PList [PStr "date"].
Definition default_metrics : pyval :=
  PList [PStr "totalUsers"; PStr "newUsers"; PStr "bounceRate";
         PStr "screenPageViewsPerSession"; PStr "averageSessionDuration"].
Definition default_date_range_start : pyval := PStr "7daysAgo".
Definition default_date_range_end : pyval := PStr "yesterday".
Definition default_dimension_filter : pyval := PNone.

(** ** Concrete collaborators for the examples *)

Fixpoint all_str (l : list pyval) : bool :=
  match l with
  | [] => true
  | PStr _ :: r => all_str r
  | _ :: _ => false
  end.

Definition is_bool (v : pyval) : bool :=
  match v with PBool _ => true | _ => false end.

(** A runtime that accepts exactly the arguments of the declared field
    types: text for [value], a list of text for [values], a boolean for
    [case_sensitive]. *)
Definition strict_proto : ProtoRuntime :=
  mkProtoRuntime
    (fun value cs => match value with PStr _ => is_bool cs | _ => false end)
    (fun values cs => match values with PList l => all_str l && is_bool cs | _ => false end)
    (fun _ => true).

(** A valid token on disk. *)
Definition valid_token : OAuthSetup :=
  mkOAuthSetup (Some (Ret (mkCredentials true false (Some "refresh"))))
               (fun c => Ret c) PNone PNone
               (Ret (mkCredentials true false (Some "refresh")))
               (fun _ => Ret tt) (fun _ => Ret tt).

(** No token on disk and no client id or secret configured. *)
Definition no_credentials : OAuthSetup :=
  mkOAuthSetup None (fun c => Ret c) PNone PNone
               (Ret (mkCredentials true false (Some "refresh")))
               (fun _ => Ret tt) (fun _ => Ret tt).

(** No property manager, and a backend that answers every request with
    [response]. *)
Definition fixed_backend (response : RunReportResponse) : Collaborators :=
  mkCollaborators strict_proto None valid_token (fun _ => None)
                  (fun _ => Ret response).


(** JSON texts are written with apostrophes in the examples; [json_text]
    turns each apostrophe into a double quote. *)
Fixpoint json_text (s : string) : string :=
  match s with
  | EmptyString => EmptyString
  | String c r => String (if code c =? 39 then dquote else c) (json_text r)
  end.

(** * Vocabulary of the properties *)

Unset Implicit Arguments.

(** [subnode e expr]: the activation of [build_filter_expr] on [expr]
    dispatches to a branch that compiles [e]. *)
Inductive subnode : pyval -> pyval -> Prop :=
| sub_and (e expr : pyval) (l : list pyval) :
    py_contains "andGroup" expr = Some true ->
    group_expressions expr "andGroup" = Some l ->
    In e l -> subnode e expr
| sub_or (e expr : pyval) (l : list pyval) :
    py_contains "andGroup" expr = Some false ->
    py_contains "orGroup" expr = Some true ->
    group_expressions expr "orGroup" = Some l ->
    In e l -> subnode e expr
| sub_not (e expr : pyval) :
    py_contains "andGroup" expr = Some false ->
    py_contains "orGroup" expr = Some false ->
    py_contains "notExpression" expr = Some true ->
    py_getitem expr "notExpression" = Some e ->
    subnode e expr.

(** [reaches e root]: [e] is [root] or a sub-node of it at some depth. *)
Inductive reaches : pyval -> pyval -> Prop :=
| reaches_here (e : pyval) : reaches e e
| reaches_below (e mid root : pyval) :
    subnode e mid -> reaches mid root -> reaches e root.

(** How a filter specification reaches the tool: as a dictionary, or as a
    text that decodes to it. *)
Inductive filter_argument : pyval -> pyval -> Prop :=
| arg_dict (d : pydict) : filter_argument (PDict d) (PDict d)
| arg_text (s : string) (root : pyval) :
    json_loads s = Loaded root -> filter_argument (PStr s) root.


(** Is the [matchType] entry one of the six names of [match_type_map]? *)
Definition recognised_match_type (entry : option pyval) : bool :=
  match entry with
  | Some (PStr s) => dict_mem s match_type_map
  | _ => false
  end.

(** The entry of a [get], or its default. *)
Definition or_default (entry : option pyval) (default : pyval) : pyval :=
  match entry with Some v => v | None => default end.

(** A running example: an [andGroup] of a valid leaf and a leaf whose field
    is not in the catalog. *)
Definition valid_leaf : pyval :=
  PDict [("filter", PDict [("fieldName", PStr "country");
                           ("stringFilter", PDict [("value", PStr "US")])])].

Definition unknown_field_leaf : pyval :=
  PDict [("filter", PDict [("fieldName", PStr "planet");
                           ("stringFilter", PDict [("value", PStr "Mars")])])].

Definition mixed_and_group : pyval :=
  PDict [("andGroup",
          PDict [("expressions", PList [valid_leaf; unknown_field_leaf])])].

Definition empty_response : RunReportResponse := mkRunReportResponse [] [] [].


(** [last_at l i x]: [i] is the last position of [x] in [l]. *)
Definition last_at (l : list string) (i : nat) (x : string) : Prop :=
  nth_error l i = Some x /\ forall j, i < j -> nth_error l j <> Some x.

(** Whitespace only, as [str.isspace] sees it. *)
Fixpoint all_space (s : string) : bool :=
  match s with
  | EmptyString => true
  | String c r => is_py_space c && all_space r
  end.

(** The arguments the normalizer reduces to nothing: the empty text, the
    empty list, a list of texts made of whitespace only. *)
Inductive empty_field_argument : pyval -> Prop :=
| empty_text : empty_field_argument (PStr EmptyString)
| empty_list : empty_field_argument (PList [])
| blank_list (l : list string) :
    Forall (fun s => all_space s = true) l ->
    empty_field_argument (PList (map PStr l)).

(** The filter [if str(d).strip()] on a stripped text. *)
Definition nonempty (s : string) : bool := negb (String.eqb s EmptyString).

(** ** Vocabulary of the further properties *)

(** The leaves of a compiled filter tree, from left to right. *)
Fixpoint leaves (fe : FilterExpression) : list Filter :=
  match fe with
  | and_group l =>
      (fix go (l : list FilterExpression) : list Filter :=
         match l with [] => [] | x :: r => leaves x ++ go r end) l
  | or_group l =>
      (fix go (l : list FilterExpression) : list Filter :=
         match l with [] => [] | x :: r => leaves x ++ go r end) l
  | not_expression e => leaves e
  | filter f => [f]
  end.

(** A normalized field name: not empty and without surrounding whitespace. *)
Definition normalized_name (t : string) : Prop :=
  t <> EmptyString /\ py_strip t = t.

(** The names of [headers] added to [acc], each at its first appearance. *)
Definition add_keys (acc headers : list string) : list string :=
  fold_left (fun acc h => if existsb (String.eqb h) acc then acc else acc ++ [h])
            headers acc.

(** The columns of a report: the dimension headers, then the metric
    headers, each name once, at its first appearance. *)
Definition columns (response : RunReportResponse) : list string :=
  add_keys [] (dimension_headers response ++ metric_headers response).

(** A cell of a flattened row: a text or [None]. *)
Definition text_or_none (v : pyval) : Prop :=
  v = PNone \/ exists s, v = PStr s.

(** The error dictionaries returned by the validation steps, as opposed to
    those built by the exception handler. *)
Definition validation_error (err : error_message) : Prop :=
  match err with
  | PropertyIdRequired | InvalidPropertyIdAvailable _ _ | InvalidPropertyId _
  | DimensionsEmpty | MetricsEmpty
  | FilterJSONParseFailed | FilterWrongType | InvalidFilter => True
  | PropertyIdParameterRequired _ | PropertyNotAccessible _ _
  | ErrorFetching _ _ => False
  end.

(** The same collaborators with another backend behind [run_report]. *)
Definition with_run_report (env : Collaborators)
           (backend : RunReportRequest -> outcome RunReportResponse)
  : Collaborators :=
  mkCollaborators (proto env) (property_manager env) (oauth env)
                  (check_request env) backend.

(** The same collaborators with other credentials and another backend. *)
Definition with_backend (env : Collaborators) (o : OAuthSetup)
           (check : RunReportRequest -> option exn)
           (backend : RunReportRequest -> outcome RunReportResponse)
  : Collaborators :=
  mkCollaborators (proto env) (property_manager env) o check backend.

(** A report request as the tool builds it: a resource name under
    [properties/], non-empty lists of normalized names, one date range, and
    a filter whose leaves all name catalog fields. *)
Definition well_formed_request (request : RunReportRequest) : Prop :=
  String.prefix "properties/" (property request) = true /\
  dimensions request <> [] /\ Forall normalized_name (dimensions request) /\
  metrics request <> [] /\ Forall normalized_name (metrics request) /\
  List.length (date_ranges request) = 1 /\
  match dimension_filter request with
  | Some fe => Forall (fun f => in_valid_dimensions (field_name f) = true)
                      (leaves fe)
  | None => True
  end.

(** ** The property manager ([GA4PropertyManager])

    The manager keeps a cache of property dictionaries and talks to the
    Admin API through a client, which is a parameter here. *)

(** A dictionary with text keys and values of type [A]. *)
Definition pydict_of (A : Type) : Type := list (string * A).

Module PropertyManager.

(** A property summary and an account summary of the Admin API. *)
Record PropertySummary : Type := mkPropertySummary
  { property : string; display_name : string }.

Record AccountSummary : Type := mkAccountSummary
  { account : string;
    account_display_name : string;
    property_summaries : list PropertySummary }.

(** One page of [list_account_summaries]. *)
Record SummariesPage : Type := mkSummariesPage
  { account_summaries : list AccountSummary; next_page_token : string }.

(** What [get_property] returns; the times are given by their
    [isoformat()] text, [None] when the time is not set. *)
Record Property : Type := mkProperty
  { name : string;
    property_display_name : string;
    create_time : option string;
    update_time : option string;
    parent : string }.

Record AdminClient : Type := mkAdminClient
  { (** [list_account_summaries(request)], by the page token of the request *)
    list_account_summaries : string -> outcome SummariesPage;
    (** [get_property(name=...)] *)
    get_property : string -> outcome Property }.

(** The manager: [self.properties] and [self.admin_client]. *)
Record State : Type := mkState
  { properties : pydict_of pydict;
    admin_client : option AdminClient }.

(** [s.split('/')[-1]] *)
Definition last_segment (s : string) : string :=
  List.last (py_split "/" s) EmptyString.

Definition error_dict (message : string) : pyval :=
  PDict [("error", PStr message)].

Definition time_value (t : option string) : pyval :=
  match t with Some text => PStr text | None => PNone end.

(** The dictionary built for a property summary of an account. *)
Definition summary_info (a : AccountSummary) (p : PropertySummary) : pydict :=
  [ ("id", PStr (last_segment (property p)));
    ("display_name", PStr (display_name p));
    ("create_time", PNone);
    ("update_time", PNone);
    ("parent", PStr (account a));
    ("account_name", PStr (account_display_name a)) ].

(** The dictionary built for a property fetched by id. *)
Definition property_info (p : Property) : pydict :=
  [ ("id", PStr (last_segment (name p)));
    ("display_name", PStr (property_display_name p));
    ("create_time", time_value (create_time p));
    ("update_time", time_value (update_time p));
    ("parent", PStr (parent p)) ].

(** The inner loops of [list_properties] over one page: every property
    summary is appended to [properties] and stored in the cache. *)
Fixpoint add_summaries (a : AccountSummary) (ps : list PropertySummary)
         (acc : list pydict) (cache : pydict_of pydict)
  : list pydict * pydict_of pydict :=
  match ps with
  | [] => (acc, cache)
  | p :: rest =>
      let prop_info := summary_info a p in
      add_summaries a rest (acc ++ [prop_info])
                    (dict_set (last_segment (property p)) prop_info cache)
  end.

Fixpoint add_accounts (accounts : list AccountSummary)
         (acc : list pydict) (cache : pydict_of pydict)
  : list pydict * pydict_of pydict :=
  match accounts with
  | [] => (acc, cache)
  | a :: rest =>
      let (acc', cache') := add_summaries a (property_summaries a) acc cache in
      add_accounts rest acc' cache'
  end.

(** The [while True] loop of [list_properties].  The cache keeps what was
    stored before an exception; [fuel] bounds the number of pages. *)
Fixpoint list_pages (fuel : nat) (client : AdminClient) (token : string)
         (acc : list pydict) (cache : pydict_of pydict)
  : outcome (pyval * pydict_of pydict) :=
  match fuel with
  | O => OutOfModel
  | S fuel' =>
      match list_account_summaries client token with
      | Ret page =>
          let (acc', cache') :=
            add_accounts (account_summaries page) acc cache in
          if String.eqb (next_page_token page) EmptyString
          then Ret (PList (map PDict acc'), cache')
          else list_pages fuel' client (next_page_token page) acc' cache'
      | Raise e =>
          Ret (error_dict ("Failed to list GA4 properties: " +++ exn_str e),
               cache)
      | Exit status => Exit status
      | OutOfModel => OutOfModel
      end
  end.

(** [list_properties] *)
Definition list_properties (fuel : nat) (st : State) : outcome (pyval * State) :=
  match admin_client st with
  | None =>
      Ret (error_dict
             ("Google Analytics Admin API client not available."
              +++ " Install google-analytics-admin package and ensure proper credentials."),
           st)
  | Some client =>
      r <~ list_pages fuel client EmptyString [] (properties st) ;;
      Ret (fst r, mkState (snd r) (admin_client st))
  end.

(** The [TypeError] of an unhashable dictionary key. *)
Definition unhashable (v : pyval) : exn :=
  mkExn ("unhashable type: '" +++ type_name v +++ "'") None.

(** [property_id in self.properties] / [self.properties[property_id]]: the
    keys of the cache are texts, so only a text can be found. *)
Definition cached (property_id : pyval) (st : State) : outcome (option pydict) :=
  if py_hashable property_id then
    match property_id with
    | PStr s => Ret (dict_lookup s (properties st))
    | _ => Ret None
    end
  else Raise (unhashable property_id).

(** [get_property_info] *)
Definition get_property_info (property_id : pyval) (st : State)
  : outcome (pyval * State) :=
  hit <~ cached property_id st ;;
  match hit with
  | Some info => Ret (PDict info, st)
  | None =>
      match admin_client st with
      | None =>
          Ret (error_dict "Google Analytics Admin API client not available.", st)
      | Some client =>
          match get_property client ("properties/" +++ py_str property_id) with
          | Ret p =>
              let prop_info := property_info p in
              Ret (PDict prop_info,
                   mkState (dict_set (last_segment (name p)) prop_info
                                     (properties st))
                           (admin_client st))
          | Raise e =>
              Ret (error_dict ("Failed to get GA4 property info: " +++ exn_str e),
                   st)
          | Exit status => Exit status
          | OutOfModel => OutOfModel
          end
      end
  end.

(** [validate_property_id] *)
Definition validate_property_id (property_id : pyval) (st : State)
  : outcome (bool * State) :=
  hit <~ cached property_id st ;;
  match hit with
  | Some _ => Ret (true, st)
  | None =>
      match get_property_info property_id st with
      | Ret (property_info, st') =>
          match py_contains "error" property_info with
          | Some found => Ret (negb found, st')
          | None => Ret (false, st')
          end
      | Raise _ => Ret (false, st)
      | Exit status => Exit status
      | OutOfModel => OutOfModel
      end
  end.

End PropertyManager.

(** ** The catalog tools

    The embedded catalogs with their descriptions, and the four tools that
    browse them. *)

Module Catalog.

(** [GA4_DIMENSIONS]: category, then field name and description. *)
Definition GA4_DIMENSIONS : pydict_of (pydict_of string) :=
  [
  ("time",
    [
      ("date",
       "The date of the event in YYYYMMDD format.");
      ("dateHour",
       "The date and hour of the event in YYYYMMDDHH format.");
      ("dateHourMinute",
       "The date, hour, and minute of the event in YYYYMMDDHHMM format.");
      ("day",
       "The day of the month (01-31).");
      ("dayOfWeek",
       "The day of the week (0-6, where Sunday is 0).");
      ("hour",
       "The hour of the day (00-23).");
      ("minute",
       "The minute of the hour (00-59).");
      ("month",
       "The month of the year (01-12).");
      ("week",
       "The week of the year (00-53).");
      ("year",
       "The year (e.g., 2024).");
      ("nthDay",
       "The number of days since the first visit.");
      ("nthHour",
       "The number of hours since the first visit.");
      ("nthMinute",
       "The number of minutes since the first visit.");
      ("nthMonth",
       "The number of months since the first visit.");
      ("nthWeek",
       "The number of weeks since the first visit.");
      ("nthYear",
       "The number of years since the first visit.") ]);
  ("geography",
    [
      ("city",
       "The city of the user.");
      ("cityId",
       "The ID of the city.");
      ("country",
       "The country of the user.");
      ("countryId",
       "The ID of the country.");
      ("region",
       "The region of the user.") ]);
  ("technology",
    [
      ("browser",
       "The browser used by the user.");
      ("deviceCategory",
       "The category of the device (e.g., 'desktop', 'mobile', 'tablet').");
      ("deviceModel",
       "The model of the device.");
      ("operatingSystem",
       "The operating system of the user's device.");
      ("operatingSystemVersion",
       "The version of the operating system.");
      ("platform",
       "The platform of the user's device (e.g., 'web', 'android', 'ios').");
      ("platformDeviceCategory",
       "The platform and device category.");
      ("screenResolution",
       "The resolution of the user's screen.") ]);
  ("traffic_source",
    [
      ("campaignId",
       "The ID of the campaign.");
      ("campaignName",
       "The name of the campaign.");
      ("defaultChannelGroup",
       "The default channel grouping for the traffic source.");
      ("medium",
       "The medium of the traffic source.");
      ("source",
       "The source of the traffic.");
      ("sourceMedium",
       "The source and medium of the traffic.");
      ("sourcePlatform",
       "The source platform of the traffic.");
      ("sessionCampaignId",
       "The campaign ID of the session.");
      ("sessionCampaignName",
       "The campaign name of the session.");
      ("sessionDefaultChannelGroup",
       "The default channel group of the session.");
      ("sessionMedium",
       "The medium of the session.");
      ("sessionSource",
       "The source of the session.");
      ("sessionSourceMedium",
       "The source and medium of the session.");
      ("sessionSourcePlatform",
       "The source platform of the session.") ]);
  ("first_user_attribution",
    [
      ("firstUserCampaignId",
       "The campaign ID that first acquired the user.");
      ("firstUserCampaignName",
       "The campaign name that first acquired the user.");
      ("firstUserDefaultChannelGroup",
       "The default channel group that first acquired the user.");
      ("firstUserMedium",
       "The medium that first acquired the user.");
      ("firstUserSource",
       "The source that first acquired the user.");
      ("firstUserSourceMedium",
       "The source and medium that first acquired the user.");
      ("firstUserSourcePlatform",
       "The source platform that first acquired the user.") ]);
  ("content",
    [
      ("contentGroup",
       "The content group on your site/app. Populated by the event parameter 'content_group'.");
      ("contentId",
       "The ID of the content. Populated by the event parameter 'content_id'.");
      ("contentType",
       "The type of content. Populated by the event parameter 'content_type'.");
      ("fullPageUrl",
       "The full URL of the page.");
      ("landingPage",
       "The page path of the landing page.");
      ("pageLocation",
       "The full URL of the page.");
      ("pagePath",
       "The path of the page (e.g., '/home').");
      ("pagePathPlusQueryString",
       "The page path and query string.");
      ("pageReferrer",
       "The referring URL.");
      ("pageTitle",
       "The title of the page.");
      ("unifiedScreenClass",
       "The class of the screen.");
      ("unifiedScreenName",
       "The name of the screen.") ]);
  ("events",
    [
      ("eventName",
       "The name of the event.");
      ("isConversionEvent",
       "Whether the event is a conversion event ('true' or 'false').");
      ("method",
       "The method of the event. Populated by the event parameter 'method'.") ]);
  ("ecommerce",
    [
      ("itemBrand",
       "The brand of the item.");
      ("itemCategory",
       "The category of the item.");
      ("itemCategory2",
       "A secondary category for the item.");
      ("itemCategory3",
       "A third category for the item.");
      ("itemCategory4",
       "A fourth category for the item.");
      ("itemCategory5",
       "A fifth category for the item.");
      ("itemId",
       "The ID of the item.");
      ("itemListId",
       "The ID of the item list.");
      ("itemListName",
       "The name of the item list.");
      ("itemName",
       "The name of the item.");
      ("itemPromotionCreativeName",
       "The creative name of the item promotion.");
      ("itemPromotionId",
       "The ID of the item promotion.");
      ("itemPromotionName",
       "The name of the item promotion.");
      ("orderCoupon",
       "The coupon code for the order.");
      ("shippingTier",
       "The shipping tier for the order.");
      ("transactionId",
       "The ID of the transaction.") ]);
  ("user_demographics",
    [
      ("newVsReturning",
       "Whether the user is new or returning.");
      ("signedInWithUserId",
       "Whether the user was signed in with a User-ID ('true' or 'false').");
      ("userAgeBracket",
       "The age bracket of the user.");
      ("userGender",
       "The gender of the user.");
      ("language",
       "The language of the user's browser or device.");
      ("languageCode",
       "The language code.") ]);
  ("google_ads",
    [
      ("googleAdsAdGroupId",
       "The ID of the Google Ads ad group.");
      ("googleAdsAdGroupName",
       "The name of the Google Ads ad group.");
      ("googleAdsAdNetworkType",
       "The ad network type in Google Ads.");
      ("googleAdsCampaignId",
       "The ID of the Google Ads campaign.");
      ("googleAdsCampaignName",
       "The name of the Google Ads campaign.");
      ("googleAdsCampaignType",
       "The type of the Google Ads campaign.");
      ("googleAdsCreativeId",
       "The ID of the Google Ads creative.");
      ("googleAdsKeyword",
       "The keyword from Google Ads.");
      ("googleAdsQuery",
       "The search query from Google Ads.");
      ("firstUserGoogleAdsAdGroupId",
       "The Google Ads ad group ID that first acquired the user.");
      ("firstUserGoogleAdsAdGroupName",
       "The Google Ads ad group name that first acquired the user.");
      ("firstUserGoogleAdsCampaignId",
       "The Google Ads campaign ID that first acquired the user.");
      ("firstUserGoogleAdsCampaignName",
       "The Google Ads campaign name that first acquired the user.");
      ("firstUserGoogleAdsCampaignType",
       "The Google Ads campaign type that first acquired the user.");
      ("firstUserGoogleAdsCreativeId",
       "The Google Ads creative ID that first acquired the user.");
      ("firstUserGoogleAdsKeyword",
       "The Google Ads keyword that first acquired the user.");
      ("firstUserGoogleAdsNetworkType",
       "The Google Ads network type that first acquired the user.");
      ("firstUserGoogleAdsQuery",
       "The Google Ads query that first acquired the user.");
      ("sessionGoogleAdsAdGroupId",
       "The Google Ads ad group ID of the session.");
      ("sessionGoogleAdsAdGroupName",
       "The Google Ads ad group name of the session.");
      ("sessionGoogleAdsCampaignId",
       "The Google Ads campaign ID of the session.");
      ("sessionGoogleAdsCampaignName",
       "The Google Ads campaign name of the session.");
      ("sessionGoogleAdsCampaignType",
       "The Google Ads campaign type of the session.");
      ("sessionGoogleAdsCreativeId",
       "The Google Ads creative ID of the session.");
      ("sessionGoogleAdsKeyword",
       "The Google Ads keyword of the session.");
      ("sessionGoogleAdsNetworkType",
       "The Google Ads network type of the session.");
      ("sessionGoogleAdsQuery",
       "The Google Ads query of the session.") ]);
  ("manual_campaigns",
    [
      ("manualAdContent",
       "The ad content from a manual campaign.");
      ("manualTerm",
       "The term from a manual campaign.");
      ("firstUserManualAdContent",
       "The manual ad content that first acquired the user.");
      ("firstUserManualTerm",
       "The manual term that first acquired the user.");
      ("sessionManualAdContent",
       "The manual ad content of the session.");
      ("sessionManualTerm",
       "The manual term of the session.") ]);
  ("app_specific",
    [
      ("appVersion",
       "The version of the app.");
      ("streamId",
       "The ID of the data stream.");
      ("streamName",
       "The name of the data stream.") ]);
  ("cohort_analysis",
    [
      ("cohort",
       "The cohort the user belongs to.");
      ("cohortNthDay",
       "The day number within the cohort.");
      ("cohortNthMonth",
       "The month number within the cohort.");
      ("cohortNthWeek",
       "The week number within the cohort.") ]);
  ("audiences",
    [
      ("audienceId",
       "The ID of the audience.");
      ("audienceName",
       "The name of the audience.");
      ("brandingInterest",
       "The interest category associated with the user.") ]);
  ("enhanced_measurement",
    [
      ("fileExtension",
       "The extension of the downloaded file.");
      ("fileName",
       "The name of the downloaded file.");
      ("linkClasses",
       "The classes of the clicked link.");
      ("linkDomain",
       "The domain of the clicked link.");
      ("linkId",
       "The ID of the clicked link.");
      ("linkText",
       "The text of the clicked link.");
      ("linkUrl",
       "The URL of the clicked link.");
      ("outbound",
       "Whether the clicked link was outbound ('true' or 'false').");
      ("percentScrolled",
       "The percentage of the page scrolled.");
      ("searchTerm",
       "The term used for an internal site search.");
      ("videoProvider",
       "The provider of the video.");
      ("videoTitle",
       "The title of the video.");
      ("videoUrl",
       "The URL of the video.");
      ("visible",
       "Whether the video was visible on the screen.") ]);
  ("gaming",
    [
      ("achievementId",
       "The achievement ID in a game for an event.");
      ("character",
       "The character in a game.");
      ("groupId",
       "The group ID in a game.");
      ("virtualCurrencyName",
       "The name of the virtual currency.") ]);
  ("advertising",
    [
      ("adFormat",
       "The format of the ad that was shown (e.g., 'Interstitial', 'Banner', 'Rewarded').");
      ("adSourceName",
       "The name of the ad network or source that served the ad.");
      ("adUnitName",
       "The name of the ad unit that displayed the ad.") ]);
  ("testing",
    [
      ("testDataFilterName",
       "The name of the test data filter.") ]) ].

(** [GA4_METRICS] *)
Definition GA4_METRICS : pydict_of (pydict_of string) :=
  [
  ("user_metrics",
    [
      ("totalUsers",
       "The total number of unique users.");
      ("newUsers",
       "The number of users who interacted with your site or app for the first time.");
      ("activeUsers",
       "The number of distinct users who have logged an engaged session on your site or app.");
      ("active1DayUsers",
       "The number of distinct users who have been active on your site or app in the last 1 day.");
      ("active7DayUsers",
       "The number of distinct users who have been active on your site or app in the last 7 days.");
      ("active28DayUsers",
       "The number of distinct users who have been active on your site or app in the last 28 days.");
      ("userStickiness",
       "A measure of how frequently users return to your site or app.");
      ("dauPerMau",
       "The ratio of daily active users to monthly active users.");
      ("dauPerWau",
       "The ratio of daily active users to weekly active users.");
      ("wauPerMau",
       "The ratio of weekly active users to monthly active users.") ]);
  ("session_metrics",
    [
      ("sessions",
       "The total number of sessions.");
      ("sessionsPerUser",
       "The average number of sessions per user.");
      ("engagedSessions",
       "The number of sessions that lasted longer than 10 seconds, or had a conversion event, or had at least 2 pageviews or screenviews.");
      ("bounceRate",
       "The percentage of sessions that were not engaged.");
      ("engagementRate",
       "The percentage of sessions that were engaged.");
      ("averageSessionDuration",
       "The average duration of a session in seconds.");
      ("sessionConversionRate",
       "The percentage of sessions in which a conversion event occurred.") ]);
  ("pageview_metrics",
    [
      ("screenPageViews",
       "The total number of app screens or web pages your users saw.");
      ("screenPageViewsPerSession",
       "The average number of screens or pages viewed per session.");
      ("screenPageViewsPerUser",
       "The average number of screens or pages viewed per user.") ]);
  ("event_metrics",
    [
      ("eventCount",
       "The total number of events.");
      ("eventCountPerUser",
       "The average number of events per user.");
      ("eventsPerSession",
       "The average number of events per session.");
      ("eventValue",
       "The total value of all 'value' event parameters.");
      ("conversions",
       "The total number of conversion events.");
      ("userConversionRate",
       "The percentage of active users who triggered a conversion event.") ]);
  ("engagement_metrics",
    [
      ("userEngagementDuration",
       "The average time your app was in the foreground or your website was in focus in the browser.");
      ("scrolledUsers",
       "The number of users who scrolled at least 90% of the page.") ]);
  ("ecommerce_metrics",
    [
      ("totalRevenue",
       "The total revenue from all sources.");
      ("purchaseRevenue",
       "The total revenue from purchases.");
      ("grossPurchaseRevenue",
       "The total purchase revenue, before refunds.");
      ("itemRevenue",
       "The total revenue from items.");
      ("grossItemRevenue",
       "The total revenue from items, before refunds.");
      ("averageRevenue",
       "The average revenue per user.");
      ("averagePurchaseRevenue",
       "The average purchase revenue per user.");
      ("averagePurchaseRevenuePerPayingUser",
       "The average purchase revenue per paying user.");
      ("transactions",
       "The total number of transactions.");
      ("ecommercePurchases",
       "The total number of ecommerce purchases.");
      ("purchasers",
       "The number of users who made a purchase.");
      ("totalPurchasers",
       "The total number of unique purchasers.");
      ("purchaserConversionRate",
       "The percentage of active users who made a purchase.");
      ("firstTimePurchasers",
       "The number of users who made their first purchase.");
      ("firstTimePurchaserConversionRate",
       "The percentage of active users who made their first purchase.");
      ("firstTimePurchasersPerNewUser",
       "The number of first-time purchasers per new user.");
      ("transactionsPerPurchaser",
       "The average number of transactions per purchaser.");
      ("checkouts",
       "The number of times users started the checkout process.");
      ("refunds",
       "The total number of refunds.");
      ("refundAmount",
       "The total amount of refunds.");
      ("shippingAmount",
       "The total shipping cost.");
      ("taxAmount",
       "The total tax amount.") ]);
  ("item_metrics",
    [
      ("itemViews",
       "The number of times users viewed items.");
      ("itemsAddedToCart",
       "The number of units of items added to the cart.");
      ("itemsCheckedOut",
       "The number of units of items in the checkout process.");
      ("itemPurchaseQuantity",
       "The total number of units of items purchased.");
      ("itemViewToPurchaseRate",
       "The rate at which users who viewed items also purchased them.");
      ("purchaseToViewRate",
       "The rate at which users who viewed items also purchased them.");
      ("itemListViews",
       "The number of times users viewed item lists.");
      ("itemListClicks",
       "The number of times users clicked on items in a list.");
      ("itemListClickThroughRate",
       "The rate at which users clicked on items in a list.");
      ("itemsClickedInList",
       "The number of units of items clicked in a list.");
      ("itemsViewedInList",
       "The number of units of items viewed in a list.");
      ("itemPromotionViews",
       "The number of times users viewed item promotions.");
      ("itemPromotionClicks",
       "The number of times users clicked on item promotions.");
      ("itemPromotionClickThroughRate",
       "The rate at which users clicked on item promotions.");
      ("itemsClickedInPromotion",
       "The number of units of items clicked in a promotion.");
      ("itemsViewedInPromotion",
       "The number of units of items viewed in a promotion.") ]);
  ("advertising_metrics",
    [
      ("totalAdRevenue",
       "The total revenue from all ad sources.");
      ("adRevenue",
       "The total revenue from ads.");
      ("adImpressions",
       "The total number of ad impressions.");
      ("publisherAdRevenue",
       "The total revenue from publisher ads.");
      ("publisherAdImpressions",
       "The total number of publisher ad impressions.");
      ("publisherAdClicks",
       "The total number of clicks on publisher ads.");
      ("returnOnAdSpend",
       "The return on investment from your advertising.") ]);
  ("search_console_metrics",
    [
      ("organicGoogleSearchClicks",
       "The number of clicks your website received from organic Google Search.");
      ("organicGoogleSearchImpressions",
       "The number of times your website appeared in organic Google Search results.");
      ("organicGoogleSearchClickThroughRate",
       "The click-through rate for your website in organic Google Search results.");
      ("organicGoogleSearchAveragePosition",
       "The average ranking of your website URLs for the queries reported in Search Console.") ]);
  ("cohort_metrics",
    [
      ("cohortActiveUsers",
       "The number of active users in a cohort.");
      ("cohortTotalUsers",
       "The total number of users in a cohort.") ]);
  ("app_crash_metrics",
    [
      ("crashAffectedUsers",
       "The number of users who experienced a crash.");
      ("crashFreeUsersRate",
       "The percentage of users who did not experience a crash.") ]) ].

Definition load_dimensions : pydict_of (pydict_of string) := GA4_DIMENSIONS.

Definition load_metrics : pydict_of (pydict_of string) := GA4_METRICS.

(** The loop shared by [list_dimension_categories] and
    [list_metric_categories]: one entry per category, with the number of
    its fields and their names under [label]. *)
Definition summarize (label : string) (catalog : pydict_of (pydict_of string))
  : pydict :=
  fold_left
    (fun result entry =>
       dict_set (fst entry)
                (PDict [("count", PInt (Z.of_nat (List.length (snd entry))));
                        (label, PList (map (fun kv => PStr (fst kv)) (snd entry)))])
                result)
    catalog [].

(** [list_dimension_categories] *)
Definition list_dimension_categories : pyval :=
  PDict (summarize "dimensions" load_dimensions).

(** [list_metric_categories] *)
Definition list_metric_categories : pyval :=
  PDict (summarize "metrics" load_metrics).

(** The body shared by [get_dimensions_by_category] and
    [get_metrics_by_category]: the dictionary of the category, or the error
    dictionary that lists the categories.  An unhashable [category] makes
    the membership test raise. *)
Definition by_category (catalog : pydict_of (pydict_of string))
           (category : pyval) : outcome pyval :=
  if py_hashable category then
    match match category with
          | PStr c => dict_lookup c catalog
          | _ => None
          end with
    | Some fields =>
        Ret (PDict (map (fun kv => (fst kv, PStr (snd kv))) fields))
    | None =>
        Ret (PDict
               [("error",
                 PStr ("Category '" +++ py_str category
                       +++ "' not found. Available categories: "
                       +++ py_repr (PList (map (fun entry => PStr (fst entry))
                                               catalog))))])
    end
  else Raise (PropertyManager.unhashable category).

(** [get_dimensions_by_category] *)
Definition get_dimensions_by_category (category : pyval) : outcome pyval :=
  by_category load_dimensions category.

(** [get_metrics_by_category] *)
Definition get_metrics_by_category (category : pyval) : outcome pyval :=
  by_category load_metrics category.

End Catalog.

(** ** The property tools *)

Definition not_initialized : pyval :=
  PropertyManager.error_dict
    "Property manager not initialized. Authentication may have failed.".

(** [list_ga4_properties], on the global [property_manager]. *)
Definition list_ga4_properties (fuel : nat)
           (property_manager : option PropertyManager.State)
  : outcome (pyval * option PropertyManager.State) :=
  match property_manager with
  | None => Ret (not_initialized, None)
  | Some st =>
      r <~ PropertyManager.list_properties fuel st ;;
      Ret (fst r, Some (snd r))
  end.

(** [get_ga4_property_info] *)
Definition get_ga4_property_info (property_id : pyval)
           (property_manager : option PropertyManager.State)
  : outcome (pyval * option PropertyManager.State) :=
  match property_manager with
  | None => Ret (not_initialized, None)
  | Some st =>
      r <~ PropertyManager.get_property_info property_id st ;;
      Ret (fst r, Some (snd r))
  end.

(** All texts of a list are different. *)
Fixpoint distinct (l : list string) : bool :=
  match l with
  | [] => true
  | x :: r => negb (existsb (String.eqb x) r) && distinct r
  end.

(** The summary [list_dimension_categories] gives for the fields of a
    category. *)
Definition category_summary (label : string) (fields : pydict) : pyval :=
  PDict [("count", PInt (Z.of_nat (List.length fields)));
         (label, PList (map (fun kv => PStr (fst kv)) fields))].

(** Every entry of the cache is stored under its own [id]. *)
Definition cache_consistent (cache : pydict_of pydict) : Prop :=
  Forall (fun kv => dict_lookup "id" (snd kv) = Some (PStr (fst kv))) cache.

(** What the loops over one answer of the Admin API keep: the cache only
    grows and stays consistent, and every dictionary of the list has its id
    in the cache. *)
Definition listing_invariant (acc : list pydict) (cache : pydict_of pydict)
  : Prop :=
  cache_consistent cache /\
  Forall (fun info => exists k, dict_lookup "id" info = Some (PStr k) /\
                                dict_mem k cache = true) acc.

(** A small Admin API for the examples: one account with two properties,
    answered in one page, and a property fetched by name. *)
Definition demo_admin : PropertyManager.AdminClient :=
  PropertyManager.mkAdminClient
    (fun _ =>
       Ret (PropertyManager.mkSummariesPage
              [PropertyManager.mkAccountSummary "accounts/1" "Main"
                 [PropertyManager.mkPropertySummary "properties/111" "Shop";
                  PropertyManager.mkPropertySummary "properties/222" "Blog"]]
              EmptyString))
    (fun name =>
       if String.eqb name "properties/333"
       then Ret (PropertyManager.mkProperty "properties/333" "Docs"
                   (Some "2024-01-01T00:00:00") None "accounts/1")
       else Raise (mkExn "404 not found" None)).

(** A manager as [__init__] leaves it: an empty cache. *)
Definition fresh_manager (client : option PropertyManager.AdminClient)
  : PropertyManager.State :=
  PropertyManager.mkState [] client.

(** [st'] keeps the client of [st] and every cached id of [st], and is
    consistent if [st] is. *)
Definition extends (st st' : PropertyManager.State) : Prop :=
  (forall k, dict_mem k (PropertyManager.properties st) = true ->
             dict_mem k (PropertyManager.properties st') = true) /\
  PropertyManager.admin_client st' = PropertyManager.admin_client st /\
  (cache_consistent (PropertyManager.properties st) ->
   cache_consistent (PropertyManager.properties st')).

(** The text under a key of a property dictionary. *)
Definition info_text (key : string) (info : pyval) : string :=
  match py_getitem info key with
  | Some (PStr s) => s
  | _ => EmptyString
  end.

(** The manager as the tool [get_ga4_data] sees it, in state [st]: the
    results of the two methods it calls. *)
Definition as_manager (fuel : nat) (st : PropertyManager.State)
  : GA4PropertyManager :=
  mkPropertyManager
    (fun property_id =>
       r <~ PropertyManager.validate_property_id property_id st ;;
       Ret (fst r))
    (r <~ PropertyManager.list_properties fuel st ;;
     Ret (match fst r with
          | PList infos =>
              PropertyList
                (map (fun info =>
                        mkPropertyInfo (info_text "id" info)
                                       (info_text "display_name" info)
                                       (info_text "parent" info)
                                       (info_text "account_name" info))
                     infos)
          | other => PropertyError (info_text "error" other)
          end)).

(** The state of the optional global manager is consistent. *)
Definition manager_consistent (pm : option PropertyManager.State) : Prop :=
  match pm with
  | Some st => cache_consistent (PropertyManager.properties st)
  | None => True
  end.

(** * Properties *)

(** ** Termination of the filter compiler *)

Lemma dict_lookup_depth (k : string) (d : pydict) (v : pyval) :
  dict_lookup k d = Some v -> depth v < depth (PDict d).
Proof.
  induction d as [|[k' x] r IH]; simpl; [discriminate|].
  destruct (String.eqb k k').
  - intros [= ->]. lia.
  - intros H. specialize (IH H). simpl in IH. lia.
Qed.

Lemma py_getitem_depth (e : pyval) (k : string) (v : pyval) :
  py_getitem e k = Some v -> depth v < depth e.
Proof.
  destruct e; simpl; try discriminate. apply dict_lookup_depth.
Qed.

Lemma list_elem_depth (l : list pyval) (x : pyval) :
  In x l -> depth x < depth (PList l).
Proof.
  induction l as [|y r IH]; simpl; [tauto|].
  intros [-> | H]; [lia|]. specialize (IH H). simpl in IH. lia.
Qed.

Lemma py_iter_depth (es : pyval) (l : list pyval) (x : pyval) :
  py_iter es = Some l -> In x l -> depth x <= depth es.
Proof.
  destruct es; simpl; try discriminate; intros [= <-] H.
  - apply in_map_iff in H. destruct H as (c & <- & _). simpl. lia.
  - apply list_elem_depth in H. simpl in H. lia.
  - apply in_map_iff in H. destruct H as (kv & <- & _). simpl. lia.
Qed.

Lemma group_expressions_depth (expr : pyval) (key : string) (l : list pyval) (x : pyval) :
  group_expressions expr key = Some l -> In x l -> depth x < depth expr.
Proof.
  unfold group_expressions, obind.
  destruct (py_getitem expr key) as [g|] eqn:Hg; [|discriminate].
  destruct (py_getitem g "expressions") as [es|] eqn:Hes; [|discriminate].
  intros Hit Hin.
  apply py_getitem_depth in Hg, Hes.
  pose proof (@py_iter_depth es l x Hit Hin). lia.
Qed.

Section FilterCompilerFacts.

Variable rt : ProtoRuntime.

Lemma build_each_ext (f g : pyval -> option FilterExpression) (l : list pyval) :
  (forall x, In x l -> f x = g x) -> build_each f l = build_each g l.
Proof.
  induction l as [|e r IH]; simpl; intros H; [reflexivity|].
  rewrite (H e) by tauto. rewrite IH by (intros; apply H; tauto). reflexivity.
Qed.

Lemma build_group_ext (f g : pyval -> option FilterExpression)
      (expr : pyval) (key : string) :
  (forall x, depth x < depth expr -> f x = g x) ->
  build_group f expr key = build_group g expr key.
Proof.
  intros H. unfold build_group, obind.
  destruct (group_expressions expr key) as [l|] eqn:Hl; [|reflexivity].
  apply build_each_ext. intros x Hx. apply H.
  eapply group_expressions_depth; eauto.
Qed.

Lemma build_body_ext (f g : pyval -> option FilterExpression) (expr : pyval) :
  (forall x, depth x < depth expr -> f x = g x) ->
  build_body rt f expr = build_body rt g expr.
Proof.
  intros H. unfold build_body, obind.
  rewrite !(build_group_ext f g) by assumption.
  destruct (py_contains "andGroup" expr) as [[|]|]; try reflexivity.
  destruct (py_contains "orGroup" expr) as [[|]|]; try reflexivity.
  destruct (py_contains "notExpression" expr) as [[|]|]; try reflexivity.
  destruct (py_getitem expr "notExpression") as [sub|] eqn:Hsub; [|reflexivity].
  rewrite (H sub) by (eapply py_getitem_depth; eauto). reflexivity.
Qed.

Lemma build_fuel_stable (n m : nat) (expr : pyval) :
  depth expr < n -> depth expr < m ->
  build_fuel rt n expr = build_fuel rt m expr.
Proof.
  revert m expr. induction n as [|n IH]; intros m expr Hn Hm; [lia|].
  destruct m as [|m]; [lia|]. simpl.
  apply build_body_ext. intros x Hx. apply IH; lia.
Qed.

(** [build_filter_expr] satisfies the recursive equation of the source:
    the fuel of the definition never runs out. *)
Lemma build_filter_expr_unfold (expr : pyval) :
  build_filter_expr rt expr = build_body rt (build_filter_expr rt) expr.
Proof.
  unfold build_filter_expr at 1. simpl.
  apply build_body_ext. intros x Hx.
  unfold build_filter_expr. apply build_fuel_stable; lia.
Qed.

End FilterCompilerFacts.

(** ** Failure of a sub-node *)

Section FilterCompilerClaims.

Variable rt : ProtoRuntime.

Local Abbreviation build := (build_filter_expr rt).

Lemma build_each_fails (f : pyval -> option FilterExpression)
      (l : list pyval) (e : pyval) :
  In e l -> f e = None -> build_each f l = None.
Proof.
  induction l as [|x r IH]; simpl; [tauto|].
  intros [-> | Hin] He.
  - rewrite He. reflexivity.
  - destruct (f x); simpl; [|reflexivity]. rewrite (IH Hin He). reflexivity.
Qed.

Lemma build_each_Forall2 (f : pyval -> option FilterExpression)
      (l : list pyval) (cs : list FilterExpression) :
  build_each f l = Some cs <-> Forall2 (fun e c => f e = Some c) l cs.
Proof.
  revert cs. induction l as [|x r IH]; intros cs; simpl.
  - split.
    + intros [= <-]. constructor.
    + intros H. inversion H. reflexivity.
  - unfold obind. split.
    + destruct (f x) as [b|] eqn:Hb; [|discriminate].
      destruct (build_each f r) as [bs|] eqn:Hbs; [|discriminate].
      intros [= <-]. constructor; [assumption|]. apply IH. reflexivity.
    + intros H. inversion H as [|? c ? cs' Hx Hr]; subst.
      rewrite Hx. apply IH in Hr. rewrite Hr. reflexivity.
Qed.

Lemma subnode_fails (e expr : pyval) :
  subnode e expr -> build e = None -> build expr = None.
Proof.
  intros Hsub He. rewrite build_filter_expr_unfold.
  unfold build_body, build_group, obind.
  destruct Hsub as [e expr l Ha Hl Hin | e expr l Ha Ho Hl Hin
                   | e expr Ha Ho Hn Hg].
  - rewrite Ha, Hl, (build_each_fails _ _ _ Hin He). reflexivity.
  - rewrite Ha, Ho, Hl, (build_each_fails _ _ _ Hin He). reflexivity.
  - rewrite Ha, Ho, Hn, Hg, He. reflexivity.
Qed.

Lemma reaches_fails (e root : pyval) :
  reaches e root -> build e = None -> build root = None.
Proof.
  induction 1 as [e | e mid root Hsub _ IH]; intros He; [assumption|].
  apply IH. eapply subnode_fails; eauto.
Qed.

End FilterCompilerClaims.

(** ** Facts about dictionaries *)





Lemma dict_mem_false (k : string) (d : pydict) :
  dict_mem k d = false <-> dict_lookup k d = None.
Proof.
  unfold dict_mem. destruct (dict_lookup k d); split; congruence.
Qed.


Section CompilerShape.

Variable rt : ProtoRuntime.

Local Abbreviation build := (build_filter_expr rt).

Lemma build_string_filter_shape (name : string) (f : pyval) (fe : FilterExpression) :
  build_string_filter rt name f = Some fe ->
  exists sf m,
    py_getitem f "stringFilter" = Some (PDict sf) /\
    fe = filter (mkFilter name (string_filter m)) /\
    match_type_map_get (or_default (dict_lookup "matchType" sf) (PStr "EXACT"))
      = Some (sf_match_type m) /\
    sf_value m = or_default (dict_lookup "value" sf) (PStr EmptyString) /\
    sf_case_sensitive m = or_default (dict_lookup "caseSensitive" sf) (PBool false) /\
    accepts_string_filter rt (sf_value m) (sf_case_sensitive m) = true.
Proof.
  unfold build_string_filter, obind.
  destruct (py_getitem f "stringFilter") as [sfv|]; [|discriminate].
  destruct sfv as [| | | | |sf]; simpl; try discriminate.
  fold (or_default (dict_lookup "matchType" sf) (PStr "EXACT")).
  fold (or_default (dict_lookup "value" sf) (PStr EmptyString)).
  fold (or_default (dict_lookup "caseSensitive" sf) (PBool false)).
  destruct (match_type_map_get _) as [mt|] eqn:Hmt; [|discriminate].
  destruct (accepts_string_filter rt _ _) eqn:Hacc; [|discriminate].
  intros [= <-]. eexists sf, (mkStringFilter _ mt _). simpl. auto 10.
Qed.

Lemma build_in_list_filter_shape (name : string) (f : pyval) (fe : FilterExpression) :
  build_in_list_filter rt name f = Some fe ->
  exists m, fe = filter (mkFilter name (in_list_filter m)).
Proof.
  unfold build_in_list_filter, obind.
  destruct (py_getitem f "inListFilter") as [v|]; [|discriminate].
  destruct (py_get v "values" _); [|discriminate].
  destruct (py_get v "caseSensitive" _); [|discriminate].
  destruct (accepts_in_list_filter rt _ _); [|discriminate].
  intros [= <-]. eauto.
Qed.

(** What [build_leaf] can return: a leaf whose field is the catalog name
    under [fieldName] and whose matcher comes from the first matcher key
    found. *)
Lemma build_leaf_shape (expr : pyval) (fe : FilterExpression) :
  build_leaf rt expr = Some fe ->
  exists f name,
    py_getitem expr "filter" = Some (PDict f) /\
    dict_lookup "fieldName" f = Some (PStr name) /\
    in_valid_dimensions name = true /\
    ((dict_mem "stringFilter" f = true /\
      build_string_filter rt name (PDict f) = Some fe) \/
     (dict_mem "stringFilter" f = false /\
      dict_mem "inListFilter" f = true /\
      build_in_list_filter rt name (PDict f) = Some fe)).
Proof.
  unfold build_leaf, obind.
  destruct (py_getitem expr "filter") as [fv|]; [|discriminate].
  destruct fv as [| | | | |f]; simpl; try discriminate.
  destruct (dict_lookup "fieldName" f) as [field|] eqn:Hfield;
    [|simpl; discriminate].
  destruct (negb (py_truthy field)); [discriminate|].
  destruct (negb (py_hashable field)); [discriminate|].
  destruct field as [| | |name| |]; simpl; try discriminate.
  destruct (in_valid_dimensions name) eqn:Hvalid; [|discriminate].
  destruct (dict_mem "stringFilter" f) eqn:Hsf.
  - intros H. exists f, name. auto 10.
  - destruct (dict_mem "inListFilter" f) eqn:Hilf; [|discriminate].
    intros H. exists f, name. auto 10.
Qed.

Lemma build_leaf_is_filter (expr : pyval) (fe : FilterExpression) :
  build_leaf rt expr = Some fe -> exists f, fe = filter f.
Proof.
  intros H. apply build_leaf_shape in H.
  destruct H as (f & name & _ & _ & _ & [[_ H] | (_ & _ & H)]).
  - apply build_string_filter_shape in H.
    destruct H as (? & ? & _ & -> & _). eauto.
  - apply build_in_list_filter_shape in H. destruct H as (? & ->). eauto.
Qed.

(** The four branches of one activation, by the keys present. *)
Lemma build_and_branch (expr : pyval) :
  py_contains "andGroup" expr = Some true ->
  build expr =
  match build_group build expr "andGroup" with
  | Some cs => Some (and_group cs) | None => None end.
Proof.
  intros H. rewrite build_filter_expr_unfold at 1.
  unfold build_body, obind. rewrite H. reflexivity.
Qed.

Lemma build_or_branch (expr : pyval) :
  py_contains "andGroup" expr = Some false ->
  py_contains "orGroup" expr = Some true ->
  build expr =
  match build_group build expr "orGroup" with
  | Some cs => Some (or_group cs) | None => None end.
Proof.
  intros Ha Ho. rewrite build_filter_expr_unfold at 1.
  unfold build_body, obind. rewrite Ha, Ho. reflexivity.
Qed.

Lemma build_not_branch (expr : pyval) :
  py_contains "andGroup" expr = Some false ->
  py_contains "orGroup" expr = Some false ->
  py_contains "notExpression" expr = Some true ->
  build expr =
  match py_getitem expr "notExpression" with
  | Some sub => match build sub with
                | Some b => Some (not_expression b) | None => None end
  | None => None
  end.
Proof.
  intros Ha Ho Hn. rewrite build_filter_expr_unfold at 1.
  unfold build_body, obind. rewrite Ha, Ho, Hn. reflexivity.
Qed.

Lemma build_leaf_branch (expr : pyval) :
  py_contains "andGroup" expr = Some false ->
  py_contains "orGroup" expr = Some false ->
  py_contains "notExpression" expr = Some false ->
  build expr =
  match py_contains "filter" expr with
  | Some true => build_leaf rt expr
  | _ => None
  end.
Proof.
  intros Ha Ho Hn. rewrite build_filter_expr_unfold at 1.
  unfold build_body, obind. rewrite Ha, Ho, Hn.
  destruct (py_contains "filter" expr) as [[|]|]; reflexivity.
Qed.


End CompilerShape.

(** ** Claims about the filter compiler *)

(** C4, counterexample: an [andGroup] whose [expressions] list is empty
    compiles, and the node returned has no children. *)
Lemma empty_and_group_compiles :
  build_filter_expr strict_proto
    (PDict [("andGroup", PDict [("expressions", PList [])])])
  = Some (and_group []).
Proof. reflexivity. Qed.

(** C4, amended: an And (Or) node is returned exactly when the node
    dispatches on [andGroup] ([orGroup]) and every element of its
    [expressions] sequence compiles; its children are the compiled elements,
    one per element and in the same order.  The node is therefore non-empty
    exactly when the sequence is, and an empty sequence yields a node
    without children. *)
Theorem group_children_follow_expressions (rt : ProtoRuntime) (expr : pyval)
        (cs : list FilterExpression) :
  (build_filter_expr rt expr = Some (and_group cs) <->
   py_contains "andGroup" expr = Some true /\
   exists l, group_expressions expr "andGroup" = Some l /\
             Forall2 (fun e c => build_filter_expr rt e = Some c) l cs) /\
  (build_filter_expr rt expr = Some (or_group cs) <->
   py_contains "andGroup" expr = Some false /\
   py_contains "orGroup" expr = Some true /\
   exists l, group_expressions expr "orGroup" = Some l /\
             Forall2 (fun e c => build_filter_expr rt e = Some c) l cs).
Proof.
  split.
  - destruct (py_contains "andGroup" expr) as [[|]|] eqn:Ha.
    + rewrite (build_and_branch rt expr Ha). unfold build_group, obind.
      destruct (group_expressions expr "andGroup") as [l|].
      * destruct (build_each (build_filter_expr rt) l) as [bs|] eqn:Hbs.
        -- split.
           ++ intros [= ->]. split; [reflexivity|]. exists l.
              split; [reflexivity|]. apply build_each_Forall2. assumption.
           ++ intros (_ & l' & [= <-] & H). apply build_each_Forall2 in H.
              congruence.
        -- split; [discriminate|].
           intros (_ & l' & [= <-] & H). apply build_each_Forall2 in H.
           congruence.
      * split; [discriminate|]. intros (_ & l' & H & _). discriminate.
    + split; [|intros [H _]; discriminate].
      intros H. exfalso. revert H.
      destruct (py_contains "orGroup" expr) as [[|]|] eqn:Ho.
      * rewrite (build_or_branch rt expr Ha Ho).
        destruct (build_group _ _ _); discriminate.
      * destruct (py_contains "notExpression" expr) as [[|]|] eqn:Hn.
        -- rewrite (build_not_branch rt expr Ha Ho Hn).
           destruct (py_getitem expr "notExpression") as [sub|];
             [|discriminate].
           destruct (build_filter_expr rt sub); discriminate.
        -- rewrite (build_leaf_branch rt expr Ha Ho Hn).
           destruct (py_contains "filter" expr) as [[|]|]; try discriminate.
           intros H. apply build_leaf_is_filter in H. destruct H. discriminate.
        -- rewrite build_filter_expr_unfold. unfold build_body, obind.
           rewrite Ha, Ho, Hn. discriminate.
      * rewrite build_filter_expr_unfold. unfold build_body, obind.
        rewrite Ha, Ho. discriminate.
    + split; [|intros [H _]; discriminate].
      rewrite build_filter_expr_unfold. unfold build_body, obind.
      rewrite Ha. discriminate.
  - destruct (py_contains "andGroup" expr) as [[|]|] eqn:Ha.
    + split; [|intros [H _]; discriminate].
      rewrite (build_and_branch rt expr Ha).
      destruct (build_group _ _ _); discriminate.
    + destruct (py_contains "orGroup" expr) as [[|]|] eqn:Ho.
      * rewrite (build_or_branch rt expr Ha Ho). unfold build_group, obind.
        destruct (group_expressions expr "orGroup") as [l|].
        -- destruct (build_each (build_filter_expr rt) l) as [bs|] eqn:Hbs.
           ++ split.
              ** intros [= ->]. do 2 (split; [reflexivity|]). exists l.
                 split; [reflexivity|]. apply build_each_Forall2. assumption.
              ** intros (_ & _ & l' & [= <-] & H).
                 apply build_each_Forall2 in H. congruence.
           ++ split; [discriminate|].
              intros (_ & _ & l' & [= <-] & H).
              apply build_each_Forall2 in H. congruence.
        -- split; [discriminate|]. intros (_ & _ & l' & H & _). discriminate.
      * split; [|intros (_ & H & _); discriminate].
        intros H. exfalso. revert H.
        destruct (py_contains "notExpression" expr) as [[|]|] eqn:Hn.
        -- rewrite (build_not_branch rt expr Ha Ho Hn).
           destruct (py_getitem expr "notExpression") as [sub|];
             [|discriminate].
           destruct (build_filter_expr rt sub); discriminate.
        -- rewrite (build_leaf_branch rt expr Ha Ho Hn).
           destruct (py_contains "filter" expr) as [[|]|]; try discriminate.
           intros H. apply build_leaf_is_filter in H. destruct H. discriminate.
        -- rewrite build_filter_expr_unfold. unfold build_body, obind.
           rewrite Ha, Ho, Hn. discriminate.
      * split; [|intros (_ & H & _); discriminate].
        rewrite build_filter_expr_unfold. unfold build_body, obind.
        rewrite Ha, Ho. discriminate.
    + split; [|intros [H _]; discriminate].
      rewrite build_filter_expr_unfold. unfold build_body, obind.
      rewrite Ha. discriminate.
Qed.






Lemma match_type_unrecognised (entry : option pyval) (mt : MatchType) :
  recognised_match_type entry = false ->
  match_type_map_get (or_default entry (PStr "EXACT")) = Some mt ->
  mt = EXACT.
Proof.
  unfold recognised_match_type, or_default, match_type_map_get, dict_mem.
  destruct entry as [v|].
  - destruct v as [| | |s| |]; cbn [py_hashable]; try congruence.
    destruct (dict_lookup s match_type_map); congruence.
  - cbn. congruence.
Qed.

(** C5: a leaf compiled from a [stringFilter] uses [EXACT] when [matchType]
    is absent or is not one of the six names, the empty string when [value]
    is absent and [False] when [caseSensitive] is absent; and a leaf node
    with a catalog field and a [stringFilter] dictionary does compile to
    such a leaf whenever the message constructor accepts the arguments. *)
Theorem string_filter_defaults (rt : ProtoRuntime) (expr : pyval) :
  (forall (name : string) (m : StringFilter),
      build_filter_expr rt expr = Some (filter (mkFilter name (string_filter m))) ->
      exists f sf,
        py_getitem expr "filter" = Some (PDict f) /\
        dict_lookup "fieldName" f = Some (PStr name) /\
        dict_lookup "stringFilter" f = Some (PDict sf) /\
        (recognised_match_type (dict_lookup "matchType" sf) = false ->
         sf_match_type m = EXACT) /\
        (dict_lookup "value" sf = None -> sf_value m = PStr EmptyString) /\
        (dict_lookup "caseSensitive" sf = None ->
         sf_case_sensitive m = PBool false)) /\
  (forall (f sf : pydict) (name : string),
      py_contains "andGroup" expr = Some false ->
      py_contains "orGroup" expr = Some false ->
      py_contains "notExpression" expr = Some false ->
      py_getitem expr "filter" = Some (PDict f) ->
      dict_lookup "fieldName" f = Some (PStr name) ->
      in_valid_dimensions name = true ->
      dict_lookup "stringFilter" f = Some (PDict sf) ->
      recognised_match_type (dict_lookup "matchType" sf) = false ->
      py_hashable (or_default (dict_lookup "matchType" sf) PNone) = true ->
      accepts_string_filter rt
        (or_default (dict_lookup "value" sf) (PStr EmptyString))
        (or_default (dict_lookup "caseSensitive" sf) (PBool false)) = true ->
      build_filter_expr rt expr
      = Some (filter (mkFilter name (string_filter
                (mkStringFilter
                   (or_default (dict_lookup "value" sf) (PStr EmptyString))
                   EXACT
                   (or_default (dict_lookup "caseSensitive" sf) (PBool false))))))).
Proof.
  split.
  - intros name m H.
    assert (Hleaf : build_leaf rt expr
                    = Some (filter (mkFilter name (string_filter m)))).
    { revert H. rewrite build_filter_expr_unfold. unfold build_body, obind.
      destruct (py_contains "andGroup" expr) as [[|]|]; try discriminate.
      { destruct (build_group _ _ _); discriminate. }
      destruct (py_contains "orGroup" expr) as [[|]|]; try discriminate.
      { destruct (build_group _ _ _); discriminate. }
      destruct (py_contains "notExpression" expr) as [[|]|]; try discriminate.
      { destruct (py_getitem expr "notExpression") as [sub|]; [|discriminate].
        destruct (build_filter_expr rt sub); discriminate. }
      destruct (py_contains "filter" expr) as [[|]|]; try discriminate.
      tauto. }
    apply build_leaf_shape in Hleaf.
    destruct Hleaf as (f & name' & Hf & Hname & _ & [[Hmem Hb] | (_ & _ & Hb)]).
    + apply build_string_filter_shape in Hb.
      destruct Hb as (sf & m' & Hsf & Heq & Hmt & Hv & Hcs & _).
      injection Heq as -> ->.
      exists f, sf. simpl in Hsf.
      repeat split; try assumption.
      * intros Hrec. eapply match_type_unrecognised; eauto.
      * intros Habs. rewrite Hv, Habs. reflexivity.
      * intros Habs. rewrite Hcs, Habs. reflexivity.
    + apply build_in_list_filter_shape in Hb. destruct Hb as (? & Hb).
      discriminate.
  - intros f sf name Ha Ho Hn Hf Hname Hvalid Hsf Hrec Hhash Hacc.
    rewrite (build_leaf_branch rt expr Ha Ho Hn).
    assert (Hin : py_contains "filter" expr = Some true).
    { destruct expr; simpl in Hf |- *; try discriminate.
      unfold dict_mem. rewrite Hf. reflexivity. }
    rewrite Hin. unfold build_leaf, build_string_filter, obind.
    rewrite Hf. simpl. rewrite Hname.
    assert (Hne : name <> EmptyString).
    { intros ->. vm_compute in Hvalid. discriminate. }
    destruct name as [|c name]; [congruence|]. simpl.
    rewrite Hvalid. unfold dict_mem. rewrite Hsf. simpl.
    fold (or_default (dict_lookup "matchType" sf) (PStr "EXACT")).
    fold (or_default (dict_lookup "value" sf) (PStr EmptyString)).
    fold (or_default (dict_lookup "caseSensitive" sf) (PBool false)).
    assert (Hmt : match_type_map_get
                    (or_default (dict_lookup "matchType" sf) (PStr "EXACT"))
                  = Some EXACT).
    { revert Hrec Hhash.
      unfold recognised_match_type, or_default, match_type_map_get, dict_mem.
      destruct (dict_lookup "matchType" sf) as [v|]; [|reflexivity].
      destruct v as [| | |s| |]; cbn [py_hashable];
        try reflexivity; try discriminate.
      destruct (dict_lookup s match_type_map); [discriminate|reflexivity]. }
    rewrite Hmt, Hacc. reflexivity.
Qed.

Lemma string_filter_defaults_witness :
  build_filter_expr strict_proto
    (PDict [("filter", PDict [("fieldName", PStr "country");
                              ("stringFilter", PDict [("value", PStr "US")])])])
  = Some (filter (mkFilter "country"
            (string_filter (mkStringFilter (PStr "US") EXACT (PBool false))))).
Proof.
  apply (proj2 (string_filter_defaults strict_proto _)
               [("fieldName", PStr "country");
                ("stringFilter", PDict [("value", PStr "US")])]
               [("value", PStr "US")] "country"); reflexivity.
Defined.

(** ** Row flattener *)

Lemma dict_lookup_set (k k' : string) (v : pyval) (d : pydict) :
  dict_lookup k (dict_set k' v d) =
  if String.eqb k k' then Some v else dict_lookup k d.
Proof.
  induction d as [|[k0 v0] r IH]; simpl.
  - reflexivity.
  - destruct (String.eqb_spec k' k0) as [->|Hne]; simpl.
    + destruct (String.eqb k k0); reflexivity.
    + rewrite IH. destruct (String.eqb_spec k k0) as [->|Hne'].
      * destruct (String.eqb_spec k0 k'); [congruence|reflexivity].
      * reflexivity.
Qed.

Lemma cell_nth_error (values : list string) (i : nat) :
  cell values i =
  match nth_error values i with Some v => PStr v | None => PNone end.
Proof.
  unfold cell. destruct (Nat.ltb_spec i (List.length values)) as [Hlt|Hge].
  - destruct (nth_error values i) as [v|] eqn:Hv.
    + rewrite (nth_error_nth _ _ _ Hv). reflexivity.
    + apply nth_error_None in Hv. lia.
  - apply nth_error_None in Hge. rewrite Hge. reflexivity.
Qed.

Lemma last_at_exists (l : list string) (x : string) :
  In x l -> exists i, last_at l i x.
Proof.
  induction l as [|y r IH]; simpl; [tauto|].
  intros H. destruct (in_dec string_dec x r) as [Hin|Hnin].
  - destruct (IH Hin) as (i & Hi & Hlast). exists (S i). split; [exact Hi|].
    intros [|j] Hj; [lia|]. simpl. apply Hlast. lia.
  - destruct H as [->|H]; [|tauto]. exists 0. split; [reflexivity|].
    intros [|j] Hj; [lia|]. simpl. intros Hx. apply Hnin.
    eapply nth_error_In; eauto.
Qed.

Lemma write_cells_untouched (k : string) (headers values : list string)
      (i : nat) (d : pydict) :
  ~ In k headers ->
  dict_lookup k (write_cells i headers values d) = dict_lookup k d.
Proof.
  revert i d. induction headers as [|h r IH]; intros i d Hk; simpl.
  - reflexivity.
  - rewrite IH by (simpl in Hk; tauto). rewrite dict_lookup_set.
    destruct (String.eqb_spec k h) as [->|]; [|reflexivity].
    simpl in Hk. tauto.
Qed.

Lemma write_cells_last (k : string) (headers values : list string)
      (i j : nat) (d : pydict) :
  last_at headers j k ->
  dict_lookup k (write_cells i headers values d) = Some (cell values (i + j)).
Proof.
  revert i j d. induction headers as [|h r IH]; intros i j d [Hj Hlast].
  - destruct j; discriminate.
  - destruct j as [|j]; simpl in Hj |- *.
    + injection Hj as ->. rewrite write_cells_untouched.
      * rewrite dict_lookup_set, String.eqb_refl, Nat.add_0_r. reflexivity.
      * intros Hin. apply In_nth_error in Hin. destruct Hin as [n Hn].
        apply (Hlast (S n)); [lia|exact Hn].
    + rewrite (IH (S i) j).
      * f_equal. f_equal. lia.
      * split; [exact Hj|]. intros j' Hj'. apply (Hlast (S j')). lia.
Qed.

Lemma flatten_rows_map (response : RunReportResponse) (rs : list Row)
      (result : list pydict) :
  flatten_rows response rs result = result ++ map (flatten_row response) rs.
Proof.
  revert result. induction rs as [|row rest IH]; intros result; simpl.
  - rewrite app_nil_r. reflexivity.
  - rewrite IH, <- app_assoc. reflexivity.
Qed.

(** C7, counterexample: with a dimension and a metric both named [x], the
    flattened row does not map the dimension header to the dimension value. *)
Lemma shared_header_counterexample :
  let response := mkRunReportResponse ["x"] ["x"] [mkRow ["d"] ["m"]] in
  nth_error (dimension_headers response) 0 = Some "x" /\
  nth_error (dimension_values (mkRow ["d"] ["m"])) 0 = Some "d" /\
  flatten_response response = [[("x", PStr "m")]] /\
  dict_lookup "x" (flatten_row response (mkRow ["d"] ["m"])) <> Some (PStr "d").
Proof. repeat split. discriminate. Qed.

(** C7, amended: the output is the list of flattened rows, one per input
    row and in the input order; in a flattened row a dimension header whose
    name is not repeated by a later dimension header nor by a metric header
    maps to its value, or to [None] beyond the row's value list, and a
    metric header whose name is not repeated by a later metric header maps
    to its value, or to [None] beyond the value list. *)
Theorem flatten_keeps_last_write (response : RunReportResponse) :
  flatten_response response = map (flatten_row response) (rows response) /\
  forall (row : Row) (i : nat) (name : string),
    (last_at (dimension_headers response) i name ->
     ~ In name (metric_headers response) ->
     dict_lookup name (flatten_row response row)
     = Some (match nth_error (dimension_values row) i with
             | Some v => PStr v
             | None => PNone
             end)) /\
    (last_at (metric_headers response) i name ->
     dict_lookup name (flatten_row response row)
     = Some (match nth_error (metric_values row) i with
             | Some v => PStr v
             | None => PNone
             end)).
Proof.
  split.
  - unfold flatten_response. apply flatten_rows_map.
  - intros row i name. unfold flatten_row. split.
    + intros Hlast Hnot. rewrite write_cells_untouched by assumption.
      rewrite (write_cells_last _ _ _ 0 i _ Hlast), cell_nth_error. reflexivity.
    + intros Hlast.
      rewrite (write_cells_last _ _ _ 0 i _ Hlast), cell_nth_error. reflexivity.
Qed.

Lemma flatten_keeps_last_write_witness :
  let response :=
    mkRunReportResponse ["date"] ["totalUsers"]
      [mkRow ["20240101"] ["5"]; mkRow ["20240102"] []] in
  dict_lookup "totalUsers" (flatten_row response (mkRow ["20240102"] []))
  = Some PNone.
Proof.
  intros response.
  apply (proj2 (proj2 (flatten_keeps_last_write response)
                      (mkRow ["20240102"] []) 0 "totalUsers")).
  split; [reflexivity|]. intros [|[|j]] Hj; [lia|discriminate|discriminate].
Defined.

(** C8: when a name is both a dimension header and a metric header, the
    dimension loop first stores the dimension value under it and the
    flattened row ends with the metric value under it: the value at the
    position of the last metric header of that name, or [None] when the
    row's metric values stop before that position. *)
Theorem metric_overwrites_dimension (response : RunReportResponse) (row : Row)
        (name : string) :
  In name (dimension_headers response) ->
  In name (metric_headers response) ->
  exists i j,
    last_at (dimension_headers response) i name /\
    last_at (metric_headers response) j name /\
    dict_lookup name
      (write_cells 0 (dimension_headers response) (dimension_values row) [])
    = Some (match nth_error (dimension_values row) i with
            | Some v => PStr v
            | None => PNone
            end) /\
    dict_lookup name (flatten_row response row)
    = Some (match nth_error (metric_values row) j with
            | Some v => PStr v
            | None => PNone
            end).
Proof.
  intros Hd Hm.
  destruct (last_at_exists _ _ Hd) as [i Hi].
  destruct (last_at_exists _ _ Hm) as [j Hj].
  exists i, j. split; [exact Hi|]. split; [exact Hj|]. split.
  - rewrite (write_cells_last _ _ _ 0 i _ Hi), cell_nth_error. reflexivity.
  - unfold flatten_row.
    rewrite (write_cells_last _ _ _ 0 j _ Hj), cell_nth_error. reflexivity.
Qed.

Lemma metric_overwrites_dimension_witness :
  let response := mkRunReportResponse ["x"] ["x"] [mkRow ["d"] ["m"]] in
  dict_lookup "x" (write_cells 0 ["x"] ["d"] []) = Some (PStr "d") /\
  dict_lookup "x" (flatten_row response (mkRow ["d"] ["m"])) = Some (PStr "m").
Proof.
  intros response.
  destruct (metric_overwrites_dimension response (mkRow ["d"] ["m"]) "x")
    as (i & j & [Hi _] & [Hj _] & Hdim & Hmet).
  - simpl. auto.
  - simpl. auto.
  - simpl in Hi, Hj, Hdim, Hmet.
    destruct i as [|i]; [|destruct i; discriminate Hi].
    destruct j as [|j]; [|destruct j; discriminate Hj].
    split; [exact Hdim|exact Hmet].
Defined.

(** ** The tool: validation of the filter argument *)

Section ToolFacts.

Variable env : Collaborators.

Lemma compile_rejects (df root : pyval) :
  filter_argument df root ->
  py_truthy df = true ->
  build_filter_expr (proto env) root = None ->
  compile_dimension_filter env df = Ret (inl InvalidFilter).
Proof.
  intros Harg Htruthy Hnone. unfold compile_dimension_filter.
  rewrite Htruthy. destruct Harg as [d | s root Hloads].
  - rewrite Hnone. reflexivity.
  - rewrite Hloads, Hnone. reflexivity.
Qed.

Lemma get_ga4_data_filter_error
      (property_id dimensions metrics date_range_start date_range_end
       dimension_filter : pyval)
      (d m : string) (dl ml : list string) (err : error_message) :
  check_property env property_id = Ret None ->
  normalize_field_list dimensions = Ret (d :: dl) ->
  normalize_field_list metrics = Ret (m :: ml) ->
  compile_dimension_filter env dimension_filter = Ret (inl err) ->
  get_ga4_data env property_id dimensions metrics date_range_start
               date_range_end dimension_filter
  = Ret (ErrorDict err).
Proof.
  intros Hp Hd Hm Hc. unfold get_ga4_data, get_ga4_data_try, bind.
  rewrite Hp, Hd, Hm, Hc. reflexivity.
Qed.

End ToolFacts.

(** C1: when the compilation of a sub-node at any depth fails, the
    compilation of the whole specification returns [None]; the tool then
    returns the single error dictionary of an invalid filter, whatever the
    backend would have answered. *)
Theorem failure_aborts_compilation (env : Collaborators) (root e : pyval) :
  reaches e root ->
  build_filter_expr (proto env) e = None ->
  build_filter_expr (proto env) root = None /\
  forall dimension_filter : pyval,
    filter_argument dimension_filter root ->
    py_truthy dimension_filter = true ->
    compile_dimension_filter env dimension_filter = Ret (inl InvalidFilter) /\
    forall (property_id dimensions metrics date_range_start date_range_end : pyval)
           (d m : string) (dl ml : list string),
      check_property env property_id = Ret None ->
      normalize_field_list dimensions = Ret (d :: dl) ->
      normalize_field_list metrics = Ret (m :: ml) ->
      get_ga4_data env property_id dimensions metrics date_range_start
                   date_range_end dimension_filter
      = Ret (ErrorDict InvalidFilter).
Proof.
  intros Hreach He.
  assert (Hroot : build_filter_expr (proto env) root = None)
    by (eapply reaches_fails; eauto).
  split; [exact Hroot|].
  intros df Harg Htruthy.
  assert (Hc : compile_dimension_filter env df = Ret (inl InvalidFilter))
    by (eapply compile_rejects; eauto).
  split; [exact Hc|].
  intros. eapply get_ga4_data_filter_error; eauto.
Qed.

Lemma failure_aborts_compilation_witness :
  build_filter_expr strict_proto valid_leaf <> None /\
  build_filter_expr strict_proto mixed_and_group = None /\
  get_ga4_data (fixed_backend empty_response) (PStr "123")
               (PStr "date,city") (PList [PStr "totalUsers"])
               default_date_range_start default_date_range_end mixed_and_group
  = Ret (ErrorDict InvalidFilter).
Proof.
  assert (Hreach : reaches unknown_field_leaf mixed_and_group).
  { eapply reaches_below; [|apply reaches_here].
    eapply sub_and; [reflexivity|reflexivity|]. simpl. auto. }
  assert (Hfail : build_filter_expr (proto (fixed_backend empty_response))
                                    unknown_field_leaf = None)
    by reflexivity.
  destruct (failure_aborts_compilation (fixed_backend empty_response)
              mixed_and_group unknown_field_leaf Hreach Hfail) as [Hroot Htool].
  split; [discriminate|]. split; [exact Hroot|].
  destruct (Htool mixed_and_group (arg_dict _) eq_refl) as [_ Hget].
  apply (Hget (PStr "123") (PStr "date,city") (PList [PStr "totalUsers"])
              default_date_range_start default_date_range_end
              "date" "totalUsers" ["city"] []); reflexivity.
Defined.




(** ** List normalizer *)

Lemma py_lstrip_all_space (s : string) :
  all_space s = true -> py_lstrip s = EmptyString.
Proof.
  induction s as [|c r IH]; simpl; [reflexivity|].
  destruct (is_py_space c); simpl; [exact IH|discriminate].
Qed.

Lemma py_strip_all_space (s : string) :
  all_space s = true -> py_strip s = EmptyString.
Proof.
  intros H. unfold py_strip. rewrite (py_lstrip_all_space s H). reflexivity.
Qed.

Lemma py_lstrip_head (s : string) :
  match py_lstrip s with
  | EmptyString => True
  | String c _ => is_py_space c = false
  end.
Proof.
  induction s as [|c r IH]; simpl; [exact I|].
  destruct (is_py_space c) eqn:Hc; [exact IH|exact Hc].
Qed.

Lemma py_rstrip_idempotent (s : string) :
  py_rstrip (py_rstrip s) = py_rstrip s.
Proof.
  induction s as [|c r IH]; simpl; [reflexivity|].
  destruct (py_rstrip r) as [|c' r'] eqn:Hr.
  - destruct (is_py_space c) eqn:Hc; simpl; [reflexivity|].
    rewrite Hc. reflexivity.
  - simpl in IH |- *.
    destruct (py_rstrip r') as [|c'' r''] eqn:Hr'.
    + destruct (is_py_space c') eqn:Hc'; [discriminate|].
      injection IH as <-. reflexivity.
    + rewrite IH. reflexivity.
Qed.

Lemma py_rstrip_head (c : ascii) (r : string) :
  is_py_space c = false ->
  exists r', py_rstrip (String c r) = String c r'.
Proof.
  intros Hc. simpl. destruct (py_rstrip r); [rewrite Hc|]; eauto.
Qed.

Lemma py_strip_idempotent (s : string) :
  py_strip (py_strip s) = py_strip s.
Proof.
  unfold py_strip. pose proof (py_lstrip_head s) as Hhead.
  destruct (py_lstrip s) as [|c r]; [reflexivity|].
  destruct (py_rstrip_head c r Hhead) as [r' Hr']. rewrite Hr'.
  simpl py_lstrip. rewrite Hhead, <- Hr'. apply py_rstrip_idempotent.
Qed.

Lemma strip_nonempty_texts (l : list string) :
  strip_nonempty (map PStr l) = List.filter nonempty (map py_strip l).
Proof.
  induction l as [|s r IH]; simpl; [reflexivity|].
  unfold nonempty at 1. rewrite IH.
  destruct (String.eqb (py_strip s) EmptyString); reflexivity.
Qed.

Lemma strip_nonempty_blank (l : list string) :
  Forall (fun s => all_space s = true) l -> strip_nonempty (map PStr l) = [].
Proof.
  induction 1 as [|s r Hs _ IH]; simpl; [reflexivity|].
  rewrite (py_strip_all_space s Hs). exact IH.
Qed.

(** The normalizer on a native list of texts. *)
Lemma normalize_native (l : list string) :
  normalize_field_list (PList (map PStr l))
  = Ret (List.filter nonempty (map py_strip l)).
Proof.
  unfold normalize_field_list. simpl. rewrite strip_nonempty_texts. reflexivity.
Qed.

(** The normalizer on a text that decodes to a JSON array of texts. *)
Lemma normalize_json_array (s : string) (l : list string) :
  json_loads s = Loaded (PList (map PStr l)) ->
  normalize_field_list (PStr s) = Ret (List.filter nonempty (map py_strip l)).
Proof.
  intros H. unfold normalize_field_list. simpl. rewrite H. simpl.
  rewrite strip_nonempty_texts. reflexivity.
Qed.

(** The normalizer on a text that is not JSON: the comma-separated parts. *)
Lemma normalize_comma_separated (s : string) :
  json_loads s = JSONDecodeError ->
  normalize_field_list (PStr s)
  = Ret (List.filter nonempty (map py_strip (py_split "," s))).
Proof.
  intros H. unfold normalize_field_list. simpl. rewrite H. simpl.
  rewrite <- (map_map py_strip PStr), strip_nonempty_texts, map_map.
  f_equal. f_equal. apply map_ext. intros a. apply py_strip_idempotent.
Qed.

(** C2, counterexample: the one-element field list [true] written as a
    comma-separated text is a JSON literal; it is decoded as JSON and
    normalizes to [True], whereas the native list normalizes to [true]. *)
Lemma comma_text_decoded_as_json :
  py_split "," "true" = ["true"] /\
  normalize_field_list (PList [PStr "true"]) = Ret ["true"] /\
  normalize_field_list (PStr "true") = Ret ["True"].
Proof. repeat split. Qed.

(** C2, amended: a native list of texts, a text that decodes to a JSON
    array of texts, and a comma-separated text that is not itself a valid
    JSON text normalize to the same list when their elements agree up to
    surrounding whitespace.  (A comma-separated text that is valid JSON is
    decoded as JSON instead of being split.) *)
Theorem encodings_normalize_alike (native array parts : list string)
        (json_array comma_separated : string) :
  json_loads json_array = Loaded (PList (map PStr array)) ->
  json_loads comma_separated = JSONDecodeError ->
  py_split "," comma_separated = parts ->
  map py_strip native = map py_strip array ->
  map py_strip native = map py_strip parts ->
  exists out : list string,
    out = List.filter nonempty (map py_strip native) /\
    normalize_field_list (PList (map PStr native)) = Ret out /\
    normalize_field_list (PStr json_array) = Ret out /\
    normalize_field_list (PStr comma_separated) = Ret out.
Proof.
  intros Hjson Hcsv Hparts Harray Hsplit.
  exists (List.filter nonempty (map py_strip native)). repeat split.
  - apply normalize_native.
  - rewrite Harray. apply normalize_json_array. assumption.
  - rewrite Hsplit, <- Hparts. apply normalize_comma_separated. assumption.
Qed.

Lemma encodings_normalize_alike_witness :
  exists out : list string,
    out = ["date"; "city"] /\
    normalize_field_list (PList [PStr "date"; PStr " city "]) = Ret out /\
    normalize_field_list (PStr (json_text "['date', 'city']")) = Ret out /\
    normalize_field_list (PStr "date, city") = Ret out.
Proof.
  apply (encodings_normalize_alike ["date"; " city "] ["date"; "city"]
           ["date"; " city"] (json_text "['date', 'city']") "date, city");
    reflexivity.
Defined.

(** C3: an empty text, an empty list and a list of whitespace-only texts
    normalize to the empty list; given as [dimensions] (resp. [metrics]) of
    a call that passes the property checks, the tool returns the empty
    dimensions (resp. metrics) error dictionary and goes no further. *)
Theorem empty_field_list_is_rejected (v : pyval) :
  empty_field_argument v ->
  normalize_field_list v = Ret [] /\
  forall (env : Collaborators)
         (property_id other date_range_start date_range_end dimension_filter : pyval),
    check_property env property_id = Ret None ->
    (forall ms : list string,
        normalize_field_list other = Ret ms ->
        get_ga4_data env property_id v other date_range_start date_range_end
                     dimension_filter
        = Ret (ErrorDict DimensionsEmpty)) /\
    (forall (d : string) (dl : list string),
        normalize_field_list other = Ret (d :: dl) ->
        get_ga4_data env property_id other v date_range_start date_range_end
                     dimension_filter
        = Ret (ErrorDict MetricsEmpty)).
Proof.
  intros Hv.
  assert (Hnorm : normalize_field_list v = Ret []).
  { destruct Hv as [| |l Hl].
    - reflexivity.
    - reflexivity.
    - unfold normalize_field_list. simpl.
      rewrite (strip_nonempty_blank l Hl). reflexivity. }
  split; [exact Hnorm|].
  intros env pid other ds de df Hp. split.
  - intros ms Hms. unfold get_ga4_data, get_ga4_data_try, bind.
    rewrite Hp, Hnorm, Hms. reflexivity.
  - intros d dl Hd. unfold get_ga4_data, get_ga4_data_try, bind.
    rewrite Hp, Hd, Hnorm. reflexivity.
Qed.

Lemma empty_field_list_is_rejected_witness :
  normalize_field_list (PList [PStr " "; PStr "  "]) = Ret [] /\
  get_ga4_data (fixed_backend empty_response) (PStr "123")
               (PList [PStr " "; PStr "  "]) default_metrics
               default_date_range_start default_date_range_end PNone
  = Ret (ErrorDict DimensionsEmpty) /\
  get_ga4_data (fixed_backend empty_response) (PStr "123")
               default_dimensions (PStr EmptyString)
               default_date_range_start default_date_range_end PNone
  = Ret (ErrorDict MetricsEmpty).
Proof.
  assert (Hblank : empty_field_argument (PList (map PStr [" "; "  "])))
    by (apply blank_list; repeat constructor).
  destruct (empty_field_list_is_rejected _ Hblank) as [Hnorm Htool].
  destruct (empty_field_list_is_rejected _ empty_text) as [_ Htool'].
  split; [exact Hnorm|]. split.
  - apply (proj1 (Htool (fixed_backend empty_response) (PStr "123")
                        default_metrics default_date_range_start
                        default_date_range_end PNone eq_refl)
                 ["totalUsers"; "newUsers"; "bounceRate";
                  "screenPageViewsPerSession"; "averageSessionDuration"]).
    reflexivity.
  - apply (proj2 (Htool' (fixed_backend empty_response) (PStr "123")
                         default_dimensions default_date_range_start
                         default_date_range_end PNone eq_refl)
                 "date" []).
    reflexivity.
Defined.

(** ** Error propagation *)




(** * Further properties *)

(** ** Filter compiler *)

Lemma build_filter_is_leaf (rt : ProtoRuntime) (expr : pyval) (fl : Filter) :
  build_filter_expr rt expr = Some (filter fl) ->
  build_leaf rt expr = Some (filter fl).
Proof.
  rewrite build_filter_expr_unfold. unfold build_body, obind.
  destruct (py_contains "andGroup" expr) as [[|]|]; try discriminate.
  { destruct (build_group _ _ _); discriminate. }
  destruct (py_contains "orGroup" expr) as [[|]|]; try discriminate.
  { destruct (build_group _ _ _); discriminate. }
  destruct (py_contains "notExpression" expr) as [[|]|]; try discriminate.
  { destruct (py_getitem expr "notExpression") as [sub|]; [|discriminate].
    destruct (build_filter_expr rt sub); discriminate. }
  destruct (py_contains "filter" expr) as [[|]|]; try discriminate.
  tauto.
Qed.

(** X1: only a dictionary compiles: a text, a list, a number, a boolean or
    [None] in the place of a filter node is always rejected, whatever it
    contains. *)
Theorem only_dictionaries_compile (rt : ProtoRuntime) (expr : pyval)
        (fe : FilterExpression) :
  build_filter_expr rt expr = Some fe -> exists d, expr = PDict d.
Proof.
  rewrite build_filter_expr_unfold.
  destruct expr as [| | |s|l|d]; try discriminate; [| |eauto].
  - unfold build_body, build_group, group_expressions, build_leaf, obind.
    cbn [py_contains py_getitem].
    repeat match goal with
           | |- context [is_substring ?k s] => destruct (is_substring k s)
           end; discriminate.
  - unfold build_body, build_group, group_expressions, build_leaf, obind.
    cbn [py_contains py_getitem].
    repeat match goal with
           | |- context [existsb ?f l] => destruct (existsb f l)
           end; discriminate.
Qed.

Lemma only_dictionaries_compile_witness :
  exists d, valid_leaf = PDict d.
Proof.
  apply (only_dictionaries_compile strict_proto valid_leaf
           (filter (mkFilter "country"
              (string_filter (mkStringFilter (PStr "US") EXACT (PBool false)))))).
  reflexivity.
Defined.

Lemma leaves_and_group (P : Filter -> Prop) (cs : list FilterExpression) :
  Forall (fun c => Forall P (leaves c)) cs -> Forall P (leaves (and_group cs)).
Proof.
  simpl. induction 1 as [|c r Hc _ IH]; [constructor|].
  apply Forall_app. split; assumption.
Qed.

Lemma leaves_or_group (P : Filter -> Prop) (cs : list FilterExpression) :
  Forall (fun c => Forall P (leaves c)) cs -> Forall P (leaves (or_group cs)).
Proof.
  simpl. induction 1 as [|c r Hc _ IH]; [constructor|].
  apply Forall_app. split; assumption.
Qed.

Lemma build_fuel_leaves_valid (rt : ProtoRuntime) (n : nat) :
  forall (expr : pyval) (fe : FilterExpression),
    build_fuel rt n expr = Some fe ->
    Forall (fun f => in_valid_dimensions (field_name f) = true) (leaves fe).
Proof.
  induction n as [|n IH]; intros expr fe; [discriminate|].
  assert (Hall : forall l cs,
             build_each (build_fuel rt n) l = Some cs ->
             Forall (fun c => Forall (fun f => in_valid_dimensions (field_name f) = true)
                                     (leaves c)) cs).
  { intros l cs H. apply build_each_Forall2 in H.
    induction H as [|e c l' cs' Hec _ IHl]; constructor; eauto. }
  simpl. unfold build_body, build_group, obind.
  destruct (py_contains "andGroup" expr) as [[|]|]; try discriminate.
  { destruct (group_expressions expr "andGroup") as [l|]; [|discriminate].
    destruct (build_each (build_fuel rt n) l) as [cs|] eqn:Hcs; [|discriminate].
    intros [= <-]. apply leaves_and_group. eapply Hall; eauto. }
  destruct (py_contains "orGroup" expr) as [[|]|]; try discriminate.
  { destruct (group_expressions expr "orGroup") as [l|]; [|discriminate].
    destruct (build_each (build_fuel rt n) l) as [cs|] eqn:Hcs; [|discriminate].
    intros [= <-]. apply leaves_or_group. eapply Hall; eauto. }
  destruct (py_contains "notExpression" expr) as [[|]|]; try discriminate.
  { destruct (py_getitem expr "notExpression") as [sub|]; [|discriminate].
    destruct (build_fuel rt n sub) as [b|] eqn:Hb; [|discriminate].
    intros [= <-]. simpl. eapply IH; eauto. }
  destruct (py_contains "filter" expr) as [[|]|]; try discriminate.
  intros H. apply build_leaf_shape in H.
  destruct H as (f & name & _ & _ & Hvalid & [[_ H] | (_ & _ & H)]).
  - apply build_string_filter_shape in H.
    destruct H as (sf & m & _ & -> & _). simpl. constructor; [exact Hvalid|constructor].
  - apply build_in_list_filter_shape in H. destruct H as (m & ->).
    simpl. constructor; [exact Hvalid|constructor].
Qed.

(** X2: in a compiled filter tree every leaf, at any depth, names a field
    of the dimension catalog. *)
Theorem compiled_leaves_are_catalog_fields (rt : ProtoRuntime) (expr : pyval)
        (fe : FilterExpression) :
  build_filter_expr rt expr = Some fe ->
  Forall (fun f => in_valid_dimensions (field_name f) = true) (leaves fe).
Proof.
  unfold build_filter_expr. apply build_fuel_leaves_valid.
Qed.

Lemma compiled_leaves_are_catalog_fields_witness :
  Forall (fun f => in_valid_dimensions (field_name f) = true)
         (leaves (not_expression (filter (mkFilter "country"
            (string_filter (mkStringFilter (PStr "US") EXACT (PBool false))))))).
Proof.
  apply (compiled_leaves_are_catalog_fields strict_proto
           (PDict [("notExpression", valid_leaf)])).
  reflexivity.
Defined.

Lemma build_in_list_filter_fields (rt : ProtoRuntime) (name : string) (f : pyval)
      (fe : FilterExpression) :
  build_in_list_filter rt name f = Some fe ->
  exists ilf m,
    py_getitem f "inListFilter" = Some (PDict ilf) /\
    fe = filter (mkFilter name (in_list_filter m)) /\
    ilf_values m = or_default (dict_lookup "values" ilf) (PList []) /\
    ilf_case_sensitive m
    = or_default (dict_lookup "caseSensitive" ilf) (PBool false) /\
    accepts_in_list_filter rt (ilf_values m) (ilf_case_sensitive m) = true.
Proof.
  unfold build_in_list_filter, obind.
  destruct (py_getitem f "inListFilter") as [v|]; [|discriminate].
  destruct v as [| | | | |ilf]; simpl; try discriminate.
  fold (or_default (dict_lookup "values" ilf) (PList [])).
  fold (or_default (dict_lookup "caseSensitive" ilf) (PBool false)).
  destruct (accepts_in_list_filter rt _ _) eqn:Hacc; [|discriminate].
  intros [= <-]. eexists ilf, (mkInListFilter _ _). simpl. auto 10.
Qed.

(** X3: a leaf compiled from an [inListFilter] comes from a node without
    [stringFilter]; its values are the [values] entry, or the empty list
    when the entry is absent, and its case flag is the [caseSensitive]
    entry, or [False] when absent. *)
Theorem in_list_filter_defaults (rt : ProtoRuntime) (expr : pyval)
        (name : string) (m : InListFilter) :
  build_filter_expr rt expr = Some (filter (mkFilter name (in_list_filter m))) ->
  exists f ilf,
    py_getitem expr "filter" = Some (PDict f) /\
    dict_lookup "stringFilter" f = None /\
    dict_lookup "inListFilter" f = Some (PDict ilf) /\
    ilf_values m = or_default (dict_lookup "values" ilf) (PList []) /\
    ilf_case_sensitive m
    = or_default (dict_lookup "caseSensitive" ilf) (PBool false).
Proof.
  intros H. apply build_filter_is_leaf, build_leaf_shape in H.
  destruct H as (f & name' & Hf & _ & _ & [[_ H] | (Hsf & _ & H)]).
  - apply build_string_filter_shape in H.
    destruct H as (? & ? & _ & H & _). discriminate.
  - apply build_in_list_filter_fields in H.
    destruct H as (ilf & m' & Hilf & Heq & Hv & Hcs & _).
    injection Heq as -> ->. exists f, ilf. simpl in Hilf.
    apply dict_mem_false in Hsf. auto 10.
Qed.

Lemma in_list_filter_defaults_witness :
  exists f ilf,
    py_getitem (PDict [("filter", PDict [("fieldName", PStr "country");
                                         ("inListFilter", PDict [])])])
               "filter" = Some (PDict f) /\
    dict_lookup "stringFilter" f = None /\
    dict_lookup "inListFilter" f = Some (PDict ilf) /\
    ilf_values (mkInListFilter (PList []) (PBool false))
    = or_default (dict_lookup "values" ilf) (PList []) /\
    ilf_case_sensitive (mkInListFilter (PList []) (PBool false))
    = or_default (dict_lookup "caseSensitive" ilf) (PBool false).
Proof.
  apply (in_list_filter_defaults strict_proto _ "country").
  reflexivity.
Defined.

(** X4: when [matchType] is one of the six names of [match_type_map],
    spelled exactly, the compiled leaf carries the tag of that name. *)
Theorem recognised_match_type_is_kept (rt : ProtoRuntime) (expr : pyval)
        (name : string) (m : StringFilter) (f sf : pydict) (s : string)
        (mt : MatchType) :
  build_filter_expr rt expr = Some (filter (mkFilter name (string_filter m))) ->
  py_getitem expr "filter" = Some (PDict f) ->
  dict_lookup "stringFilter" f = Some (PDict sf) ->
  dict_lookup "matchType" sf = Some (PStr s) ->
  dict_lookup s match_type_map = Some mt ->
  sf_match_type m = mt.
Proof.
  intros H Hf Hsf Hs Hmt. apply build_filter_is_leaf, build_leaf_shape in H.
  destruct H as (f' & name' & Hf' & _ & _ & [[_ H] | (_ & _ & H)]).
  - rewrite Hf in Hf'. injection Hf' as <-.
    apply build_string_filter_shape in H.
    destruct H as (sf' & m' & Hsf' & Heq & Hget & _).
    simpl in Hsf'. rewrite Hsf in Hsf'. injection Hsf' as <-.
    injection Heq as -> ->.
    rewrite Hs in Hget. unfold or_default, match_type_map_get in Hget.
    rewrite Hmt in Hget. congruence.
  - apply build_in_list_filter_shape in H. destruct H as (? & H). discriminate.
Qed.

Lemma recognised_match_type_is_kept_witness :
  sf_match_type (mkStringFilter (PStr "U") BEGINS_WITH (PBool true))
  = BEGINS_WITH.
Proof.
  apply (recognised_match_type_is_kept strict_proto
           (PDict [("filter",
                    PDict [("fieldName", PStr "country");
                           ("stringFilter",
                            PDict [("matchType", PStr "BEGINS_WITH");
                                   ("value", PStr "U");
                                   ("caseSensitive", PBool true)])])])
           "country" _
           [("fieldName", PStr "country");
            ("stringFilter", PDict [("matchType", PStr "BEGINS_WITH");
                                    ("value", PStr "U");
                                    ("caseSensitive", PBool true)])]
           [("matchType", PStr "BEGINS_WITH"); ("value", PStr "U");
            ("caseSensitive", PBool true)]
           "BEGINS_WITH"); reflexivity.
Defined.

(** X5: what a leaf needs: a node compiles to a leaf only if its [filter]
    entry is a dictionary whose [fieldName] is a text of the dimension
    catalog and which has a [stringFilter] or an [inListFilter] entry.  A
    missing, empty or unknown field name, or a leaf without a matcher, does
    not compile. *)
Theorem leaf_requirements (rt : ProtoRuntime) (expr : pyval) (fl : Filter) :
  build_filter_expr rt expr = Some (filter fl) ->
  exists f,
    py_getitem expr "filter" = Some (PDict f) /\
    dict_lookup "fieldName" f = Some (PStr (field_name fl)) /\
    field_name fl <> EmptyString /\
    In (field_name fl) valid_dimensions /\
    (dict_mem "stringFilter" f = true \/ dict_mem "inListFilter" f = true).
Proof.
  intros H. apply build_filter_is_leaf, build_leaf_shape in H.
  destruct H as (f & name & Hf & Hname & Hvalid & Hm).
  assert (Hfl : field_name fl = name).
  { destruct Hm as [[_ H] | (_ & _ & H)].
    - apply build_string_filter_shape in H.
      destruct H as (? & ? & _ & [= ->] & _). reflexivity.
    - apply build_in_list_filter_shape in H.
      destruct H as (? & [= ->]). reflexivity. }
  rewrite Hfl. exists f. repeat split; try assumption.
  - intros ->. vm_compute in Hvalid. discriminate.
  - unfold in_valid_dimensions in Hvalid. apply existsb_exists in Hvalid.
    destruct Hvalid as (x & Hin & Heq). apply String.eqb_eq in Heq.
    subst. assumption.
  - tauto.
Qed.

Lemma leaf_requirements_witness :
  exists f,
    py_getitem valid_leaf "filter" = Some (PDict f) /\
    dict_lookup "fieldName" f = Some (PStr "country") /\
    "country" <> EmptyString /\
    In "country" valid_dimensions /\
    (dict_mem "stringFilter" f = true \/ dict_mem "inListFilter" f = true).
Proof.
  apply (leaf_requirements strict_proto valid_leaf
           (mkFilter "country"
              (string_filter (mkStringFilter (PStr "US") EXACT (PBool false))))).
  reflexivity.
Defined.

(** X6: a Not node is returned exactly when the node has neither
    [andGroup] nor [orGroup], has [notExpression], and the value under
    [notExpression] compiles; its child is that compiled value. *)
Theorem not_expression_wraps_child (rt : ProtoRuntime) (expr : pyval)
        (c : FilterExpression) :
  build_filter_expr rt expr = Some (not_expression c) <->
  py_contains "andGroup" expr = Some false /\
  py_contains "orGroup" expr = Some false /\
  py_contains "notExpression" expr = Some true /\
  exists sub, py_getitem expr "notExpression" = Some sub /\
              build_filter_expr rt sub = Some c.
Proof.
  split.
  - rewrite build_filter_expr_unfold. unfold build_body, obind.
    destruct (py_contains "andGroup" expr) as [[|]|]; try discriminate.
    { destruct (build_group _ _ _); discriminate. }
    destruct (py_contains "orGroup" expr) as [[|]|]; try discriminate.
    { destruct (build_group _ _ _); discriminate. }
    destruct (py_contains "notExpression" expr) as [[|]|]; try discriminate.
    + destruct (py_getitem expr "notExpression") as [sub|]; [|discriminate].
      destruct (build_filter_expr rt sub) as [b|] eqn:Hb; [|discriminate].
      intros [= <-]. eauto 10.
    + destruct (py_contains "filter" expr) as [[|]|]; try discriminate.
      intros H. apply build_leaf_is_filter in H. destruct H. discriminate.
  - intros (Ha & Ho & Hn & sub & Hsub & Hc).
    rewrite (build_not_branch rt expr Ha Ho Hn), Hsub, Hc. reflexivity.
Qed.

(** ** List normalizer *)

Lemma strip_nonempty_normalized (l : list pyval) :
  Forall normalized_name (strip_nonempty l).
Proof.
  induction l as [|d r IH]; simpl; [constructor|].
  destruct (String.eqb_spec (py_strip (py_str d)) EmptyString) as [|Hne];
    [exact IH|].
  constructor; [|exact IH]. split; [exact Hne|apply py_strip_idempotent].
Qed.

Lemma normalized_names_fixed (out : list string) :
  Forall normalized_name out ->
  List.filter nonempty (map py_strip out) = out.
Proof.
  induction 1 as [|t r [Hne Hs] _ IH]; simpl; [reflexivity|].
  rewrite Hs, IH. unfold nonempty.
  destruct (String.eqb_spec t EmptyString); [contradiction|reflexivity].
Qed.

(** X7: whatever the argument, a list returned by the normalizer holds only
    names that are not empty and carry no surrounding whitespace. *)
Theorem normalized_list_invariant (arg : pyval) (out : list string) :
  normalize_field_list arg = Ret out -> Forall normalized_name out.
Proof.
  unfold normalize_field_list, bind.
  destruct (parse_field_arg arg) as [parsed| | |]; try discriminate.
  destruct (py_iter parsed) as [l|]; [|discriminate].
  intros [= <-]. apply strip_nonempty_normalized.
Qed.

Lemma normalized_list_invariant_witness :
  Forall normalized_name ["date"; "city"].
Proof.
  apply (normalized_list_invariant (PStr " date , ,city ")). reflexivity.
Defined.

(** X8: the normalizer is idempotent: a list it returned, given back as a
    native list, is returned unchanged (same names, same order, duplicates
    kept). *)
Theorem normalize_is_idempotent (arg : pyval) (out : list string) :
  normalize_field_list arg = Ret out ->
  normalize_field_list (PList (map PStr out)) = Ret out.
Proof.
  intros H. rewrite normalize_native.
  rewrite normalized_names_fixed; [reflexivity|].
  unfold normalize_field_list, bind in H.
  destruct (parse_field_arg arg) as [parsed| | |]; try discriminate.
  destruct (py_iter parsed) as [l|]; [|discriminate].
  injection H as <-. apply strip_nonempty_normalized.
Qed.

Lemma normalize_is_idempotent_witness :
  normalize_field_list (PList (map PStr ["date"; "city"; "date"]))
  = Ret ["date"; "city"; "date"].
Proof.
  apply (normalize_is_idempotent (PStr "date, city ,date")). reflexivity.
Defined.

Lemma py_split_no_sep (sep : ascii) (x : string) :
  has_char sep x = false -> py_split sep x = [x].
Proof.
  induction x as [|c r IH]; simpl; [reflexivity|].
  rewrite (Ascii.eqb_sym sep c).
  destruct (Ascii.eqb c sep); simpl; [discriminate|].
  intros H. rewrite (IH H). reflexivity.
Qed.

Lemma py_split_append (sep : ascii) (x rest : string) :
  has_char sep x = false ->
  py_split sep (x +++ String sep rest) = x :: py_split sep rest.
Proof.
  induction x as [|c r IH]; simpl.
  - rewrite Ascii.eqb_refl. reflexivity.
  - rewrite (Ascii.eqb_sym sep c).
    destruct (Ascii.eqb c sep); simpl; [discriminate|].
    intros H. rewrite (IH H). reflexivity.
Qed.

Lemma py_split_join (sep : ascii) (x : string) (l : list string) :
  Forall (fun t => has_char sep t = false) (x :: l) ->
  py_split sep (join (String sep EmptyString) (x :: l)) = x :: l.
Proof.
  revert x. induction l as [|y r IH]; intros x H.
  - simpl. apply py_split_no_sep. inversion H; assumption.
  - inversion H as [|? ? Hx Hr]; subst.
    change (join (String sep EmptyString) (x :: y :: r))
      with (x +++ String sep (join (String sep EmptyString) (y :: r))).
    rewrite (py_split_append sep x _ Hx), (IH y Hr). reflexivity.
Qed.

(** X9: round trip of the comma-separated form: joining normalized,
    comma-free names with commas gives a text that, unless it happens to be
    valid JSON, normalizes back to the same list. *)
Theorem comma_separated_round_trip (out : list string) :
  Forall normalized_name out ->
  Forall (fun t => has_char "," t = false) out ->
  json_loads (join "," out) = JSONDecodeError ->
  normalize_field_list (PStr (join "," out)) = Ret out.
Proof.
  intros Hnorm Hcomma Hjson.
  rewrite (normalize_comma_separated _ Hjson).
  destruct out as [|x l]; [reflexivity|].
  rewrite (py_split_join "," x l Hcomma).
  rewrite (normalized_names_fixed _ Hnorm). reflexivity.
Qed.

Lemma comma_separated_round_trip_witness :
  normalize_field_list (PStr (join "," ["date"; "city"; "country"]))
  = Ret ["date"; "city"; "country"].
Proof.
  apply comma_separated_round_trip.
  - repeat constructor; discriminate.
  - repeat constructor.
  - reflexivity.
Defined.

(** X10: a text that decodes to a JSON value other than an array is taken
    as one name, the text of that value ([str]) without surrounding
    whitespace, and as no name at all when that text is blank. *)
Theorem json_scalar_is_wrapped (s : string) (v : pyval) :
  json_loads s = Loaded v ->
  (forall l, v <> PList l) ->
  normalize_field_list (PStr s)
  = Ret (if String.eqb (py_strip (py_str v)) EmptyString then []
         else [py_strip (py_str v)]).
Proof.
  intros Hloads Hnot. unfold normalize_field_list, parse_field_arg, bind.
  rewrite Hloads.
  destruct v as [| | | |l|]; try reflexivity.
  exfalso. apply (Hnot l). reflexivity.
Qed.

Lemma json_scalar_is_wrapped_witness :
  normalize_field_list (PStr (json_text "{'a': 1}")) = Ret ["{'a': 1}"] /\
  normalize_field_list (PStr "null") = Ret ["None"].
Proof.
  split.
  - apply (json_scalar_is_wrapped (json_text "{'a': 1}") (PDict [("a", PInt 1)]));
      [reflexivity|discriminate].
  - apply (json_scalar_is_wrapped "null" PNone); [reflexivity|discriminate].
Defined.

(** X11: an argument that is not iterable ([None], a boolean, an integer)
    makes the comprehension raise; the tool reports it as the error
    dictionary of the handler, with the text of the [TypeError]. *)
Theorem non_iterable_argument_is_reported (env : Collaborators)
        (property_id v other date_range_start date_range_end
         dimension_filter : pyval) :
  check_property env property_id = Ret None ->
  py_iter v = None ->
  get_ga4_data env property_id v other date_range_start date_range_end
               dimension_filter
  = Ret (ErrorDict (ErrorFetching
                      ("'" +++ type_name v +++ "' object is not iterable") None)) /\
  (forall ds, normalize_field_list other = Ret ds ->
     get_ga4_data env property_id other v date_range_start date_range_end
                  dimension_filter
     = Ret (ErrorDict (ErrorFetching
                      ("'" +++ type_name v +++ "' object is not iterable") None))).
Proof.
  intros Hp Hiter.
  assert (Hnorm : normalize_field_list v = Raise (not_iterable v)).
  { unfold normalize_field_list, parse_field_arg, bind.
    destruct v; try discriminate; reflexivity. }
  assert (Hh : handle_exception property_id (not_iterable v)
               = Ret (ErrorFetching
                        ("'" +++ type_name v +++ "' object is not iterable") None)).
  { destruct v; try discriminate; reflexivity. }
  split.
  - unfold get_ga4_data, get_ga4_data_try, bind. rewrite Hp, Hnorm.
    fold (bind (handle_exception property_id (not_iterable v))
               (fun m => Ret (ErrorDict m))).
    rewrite Hh. reflexivity.
  - intros ds Hds. unfold get_ga4_data, get_ga4_data_try, bind.
    rewrite Hp, Hds, Hnorm.
    fold (bind (handle_exception property_id (not_iterable v))
               (fun m => Ret (ErrorDict m))).
    rewrite Hh. reflexivity.
Qed.

Lemma non_iterable_argument_is_reported_witness :
  get_ga4_data (fixed_backend empty_response) (PStr "123") PNone
               default_metrics default_date_range_start default_date_range_end
               PNone
  = Ret (ErrorDict (ErrorFetching "'NoneType' object is not iterable" None)).
Proof.
  apply (non_iterable_argument_is_reported (fixed_backend empty_response)
           (PStr "123") PNone default_metrics default_date_range_start
           default_date_range_end PNone); reflexivity.
Defined.

(** ** Row flattener *)

Lemma dict_mem_keys (k : string) (d : pydict) :
  dict_mem k d = existsb (String.eqb k) (map fst d).
Proof.
  unfold dict_mem. induction d as [|[k' v] r IH]; simpl; [reflexivity|].
  destruct (String.eqb k k'); [reflexivity|exact IH].
Qed.

Lemma dict_set_keys (k : string) (v : pyval) (d : pydict) :
  map fst (dict_set k v d)
  = if dict_mem k d then map fst d else map fst d ++ [k].
Proof.
  unfold dict_mem. induction d as [|[k' v'] r IH]; simpl; [reflexivity|].
  destruct (String.eqb k k'); simpl; [reflexivity|].
  rewrite IH. destruct (dict_lookup k r); reflexivity.
Qed.

Lemma write_cells_keys (headers values : list string) (i : nat) (d : pydict) :
  map fst (write_cells i headers values d) = add_keys (map fst d) headers.
Proof.
  revert i d. induction headers as [|h r IH]; intros i d; simpl; [reflexivity|].
  rewrite IH, dict_set_keys, dict_mem_keys. unfold add_keys. simpl.
  destruct (existsb (String.eqb h) (map fst d)); reflexivity.
Qed.

Lemma add_keys_app (acc a b : list string) :
  add_keys acc (a ++ b) = add_keys (add_keys acc a) b.
Proof. unfold add_keys. apply fold_left_app. Qed.

Lemma add_keys_In (headers acc : list string) (name : string) :
  In name (add_keys acc headers) <-> In name acc \/ In name headers.
Proof.
  revert acc. induction headers as [|h r IH]; intros acc.
  - simpl. tauto.
  - change (add_keys acc (h :: r))
      with (add_keys (if existsb (String.eqb h) acc then acc else acc ++ [h]) r).
    rewrite IH. destruct (existsb (String.eqb h) acc) eqn:Hh.
    + apply existsb_exists in Hh. destruct Hh as (x & Hx & Heq).
      apply String.eqb_eq in Heq. subst x. simpl. intuition (subst; auto).
    + rewrite in_app_iff. simpl. intuition (subst; auto).
Qed.

Lemma add_keys_NoDup (headers acc : list string) :
  NoDup acc -> NoDup (add_keys acc headers).
Proof.
  revert acc. induction headers as [|h r IH]; intros acc Hacc; [exact Hacc|].
  change (add_keys acc (h :: r))
    with (add_keys (if existsb (String.eqb h) acc then acc else acc ++ [h]) r).
  apply IH. destruct (existsb (String.eqb h) acc) eqn:Hh; [exact Hacc|].
  apply NoDup_app; [exact Hacc|repeat constructor; simpl; tauto|].
  intros a Ha [<-|[]].
  assert (existsb (String.eqb h) acc = true); [|congruence].
  apply existsb_exists. exists h. split; [exact Ha|apply String.eqb_refl].
Qed.

Lemma dict_set_values (P : pyval -> Prop) (k : string) (v : pyval) (d : pydict) :
  P v -> Forall (fun kv => P (snd kv)) d ->
  Forall (fun kv => P (snd kv)) (dict_set k v d).
Proof.
  intros Hv. induction 1 as [|[k' v'] r Hkv Hr IH]; simpl.
  - repeat constructor. exact Hv.
  - destruct (String.eqb k k'); constructor; auto.
Qed.

Lemma write_cells_values (headers values : list string) (i : nat) (d : pydict) :
  Forall (fun kv => text_or_none (snd kv)) d ->
  Forall (fun kv => text_or_none (snd kv)) (write_cells i headers values d).
Proof.
  revert i d. induction headers as [|h r IH]; intros i d Hd; simpl; [exact Hd|].
  apply IH. apply dict_set_values; [|exact Hd].
  unfold cell, text_or_none. destruct (i <? List.length values); eauto.
Qed.

(** X12: every flattened row has the same keys in the same order, whatever
    the row holds: the dimension header names, then the metric header
    names, each once, at its first appearance.  No key is repeated, a name
    is a key exactly when it is a header, and every value is a text or
    [None]. *)
Theorem flattened_rows_share_columns (response : RunReportResponse) (row : Row) :
  map fst (flatten_row response row) = columns response /\
  NoDup (columns response) /\
  (forall name : string,
      In name (columns response) <->
      In name (dimension_headers response) \/ In name (metric_headers response)) /\
  Forall (fun kv => text_or_none (snd kv)) (flatten_row response row).
Proof.
  unfold flatten_row, columns. repeat split.
  - rewrite !write_cells_keys, add_keys_app. reflexivity.
  - apply add_keys_NoDup. constructor.
  - rewrite add_keys_In, in_app_iff. simpl. tauto.
  - rewrite add_keys_In, in_app_iff. simpl. tauto.
  - apply write_cells_values, write_cells_values. constructor.
Qed.

Lemma cell_firstn (values : list string) (n i : nat) :
  i < n -> cell (firstn n values) i = cell values i.
Proof.
  intros Hlt. rewrite !cell_nth_error, nth_error_firstn.
  destruct (Nat.ltb_spec i n); [reflexivity|lia].
Qed.

Lemma write_cells_firstn (headers values : list string) (n i : nat) (d : pydict) :
  i + List.length headers <= n ->
  write_cells i headers (firstn n values) d = write_cells i headers values d.
Proof.
  revert i d. induction headers as [|h r IH]; intros i d Hn; simpl in *;
    [reflexivity|].
  rewrite cell_firstn by lia. apply IH. lia.
Qed.

(** X13: values beyond the number of headers are ignored: a row flattens
    like the row cut to as many dimension values as there are dimension
    headers and as many metric values as there are metric headers. *)
Theorem surplus_values_are_ignored (response : RunReportResponse) (row : Row) :
  flatten_row response row
  = flatten_row response
      (mkRow (firstn (List.length (dimension_headers response))
                     (dimension_values row))
             (firstn (List.length (metric_headers response))
                     (metric_values row))).
Proof.
  unfold flatten_row. simpl.
  rewrite !write_cells_firstn by (simpl; lia). reflexivity.
Qed.

(** ** The tool *)

(** X14: when the property manager does not know the property id, the tool
    returns the invalid-property error, with the ids of the listed
    properties when the listing is a non-empty list, and does so whatever
    the other arguments are. *)
Theorem invalid_property_is_reported (env : Collaborators)
        (pm : GA4PropertyManager) (listing : properties_result)
        (property_id dimensions metrics date_range_start date_range_end
         dimension_filter : pyval) :
  property_manager env = Some pm ->
  py_truthy property_id = true ->
  validate_property_id pm property_id = Ret false ->
  list_properties pm = Ret listing ->
  get_ga4_data env property_id dimensions metrics date_range_start
               date_range_end dimension_filter
  = Ret (ErrorDict
           match listing with
           | PropertyList (p :: ps) =>
               InvalidPropertyIdAvailable property_id (map id (p :: ps))
           | _ => InvalidPropertyId property_id
           end).
Proof.
  intros Hpm Htruthy Hvalid Hlist.
  unfold get_ga4_data, get_ga4_data_try, check_property, bind.
  rewrite Htruthy, Hpm. simpl. rewrite Hvalid, Hlist.
  destruct listing as [[|p ps]|]; reflexivity.
Qed.

Lemma invalid_property_is_reported_witness :
  let pm := mkPropertyManager
              (fun _ => Ret false)
              (Ret (PropertyList [mkPropertyInfo "111" "Shop" "accounts/1" "Main";
                                  mkPropertyInfo "222" "Blog" "accounts/1" "Main"])) in
  let env := mkCollaborators strict_proto (Some pm) valid_token
                             (fun _ => None) (fun _ => Ret empty_response) in
  get_ga4_data env (PStr "999") (PList []) PNone PNone PNone PNone
  = Ret (ErrorDict (InvalidPropertyIdAvailable (PStr "999") ["111"; "222"])).
Proof.
  intros pm env.
  apply (invalid_property_is_reported env pm
           (PropertyList [mkPropertyInfo "111" "Shop" "accounts/1" "Main";
                          mkPropertyInfo "222" "Blog" "accounts/1" "Main"]));
    reflexivity.
Defined.

Lemma handle_exception_not_validation (property_id : pyval) (e : exn)
      (err : error_message) :
  handle_exception property_id e = Ret err -> ~ validation_error err.
Proof.
  unfold handle_exception, classify_exception.
  destruct (exn_details e) as [[text|message]|]; try discriminate;
    destruct (is_substring _ _ || is_substring _ _);
    destruct property_id; intros [= <-]; simpl; tauto.
Qed.

(** X15: a validation error does not depend on the credentials or on the
    backend: if the tool returns one, it returns the same one with any
    other token storage, request check and backend. *)
Theorem validation_errors_ignore_backend (env : Collaborators) (o : OAuthSetup)
        (check : RunReportRequest -> option exn)
        (backend : RunReportRequest -> outcome RunReportResponse)
        (property_id dimensions metrics date_range_start date_range_end
         dimension_filter : pyval) (err : error_message) :
  get_ga4_data env property_id dimensions metrics date_range_start
               date_range_end dimension_filter = Ret (ErrorDict err) ->
  validation_error err ->
  get_ga4_data (with_backend env o check backend) property_id dimensions
               metrics date_range_start date_range_end dimension_filter
  = Ret (ErrorDict err).
Proof.
  unfold get_ga4_data, get_ga4_data_try, bind.
  change (check_property (with_backend env o check backend) property_id)
    with (check_property env property_id).
  change (compile_dimension_filter (with_backend env o check backend)
                                   dimension_filter)
    with (compile_dimension_filter env dimension_filter).
  intros H Hv.
  destruct (check_property env property_id) as [[e|]|e| |];
    try exact H.
  destruct (normalize_field_list dimensions) as [pd|e| |]; try exact H.
  destruct (normalize_field_list metrics) as [pm|e| |]; try exact H.
  destruct pd as [|d dl]; [exact H|].
  destruct pm as [|m ml]; [exact H|].
  destruct (compile_dimension_filter env dimension_filter)
    as [[e|fe]|e| |]; try exact H.
  exfalso.
  destruct (fetch_report env property_id (d :: dl) (m :: ml) date_range_start
              date_range_end fe) as [response|e| |]; try discriminate.
  destruct (handle_exception property_id e) as [m'| | |] eqn:Hh;
    try discriminate.
  injection H as <-. eapply handle_exception_not_validation; eauto.
Qed.

Lemma validation_errors_ignore_backend_witness :
  get_ga4_data (with_backend (fixed_backend empty_response) no_credentials
                             (fun _ => None)
                             (fun _ => Raise (mkExn "quota" None)))
               (PStr "123") (PStr " , ") default_metrics
               default_date_range_start default_date_range_end PNone
  = Ret (ErrorDict DimensionsEmpty).
Proof.
  apply validation_errors_ignore_backend; [reflexivity|exact I].
Defined.

(** X16: a filter argument that is neither a text nor a dictionary (and is
    truthy) is refused as such, and a non-empty text that is not JSON is
    refused as unparseable; in both cases the tool returns the error
    dictionary and no query is run. *)
Theorem filter_argument_errors (env : Collaborators)
        (property_id dimensions metrics date_range_start date_range_end
         dimension_filter : pyval) (d m : string) (dl ml : list string) :
  check_property env property_id = Ret None ->
  normalize_field_list dimensions = Ret (d :: dl) ->
  normalize_field_list metrics = Ret (m :: ml) ->
  py_truthy dimension_filter = true ->
  ((forall s, dimension_filter <> PStr s) ->
   (forall fd, dimension_filter <> PDict fd) ->
   get_ga4_data env property_id dimensions metrics date_range_start
                date_range_end dimension_filter
   = Ret (ErrorDict FilterWrongType)) /\
  (forall s, dimension_filter = PStr s ->
             json_loads s = JSONDecodeError ->
             get_ga4_data env property_id dimensions metrics date_range_start
                          date_range_end dimension_filter
             = Ret (ErrorDict FilterJSONParseFailed)).
Proof.
  intros Hp Hd Hm Htruthy. split.
  - intros Hs Hfd. eapply get_ga4_data_filter_error; eauto.
    unfold compile_dimension_filter. rewrite Htruthy.
    destruct dimension_filter; try reflexivity.
    + exfalso. eapply Hs. reflexivity.
    + exfalso. eapply Hfd. reflexivity.
  - intros s -> Hjson. eapply get_ga4_data_filter_error; eauto.
    unfold compile_dimension_filter. rewrite Htruthy, Hjson. reflexivity.
Qed.

Lemma filter_argument_errors_witness :
  get_ga4_data (fixed_backend empty_response) (PStr "123") default_dimensions
               default_metrics default_date_range_start default_date_range_end
               (PList [PStr "country"])
  = Ret (ErrorDict FilterWrongType) /\
  get_ga4_data (fixed_backend empty_response) (PStr "123") default_dimensions
               default_metrics default_date_range_start default_date_range_end
               (PStr "country == US")
  = Ret (ErrorDict FilterJSONParseFailed).
Proof.
  split.
  - apply (proj1 (filter_argument_errors (fixed_backend empty_response)
                    (PStr "123") default_dimensions default_metrics
                    default_date_range_start default_date_range_end
                    (PList [PStr "country"]) "date" "totalUsers" []
                    ["newUsers"; "bounceRate"; "screenPageViewsPerSession";
                     "averageSessionDuration"]
                    eq_refl eq_refl eq_refl eq_refl)); discriminate.
  - apply (proj2 (filter_argument_errors (fixed_backend empty_response)
                    (PStr "123") default_dimensions default_metrics
                    default_date_range_start default_date_range_end
                    (PStr "country == US") "date" "totalUsers" []
                    ["newUsers"; "bounceRate"; "screenPageViewsPerSession";
                     "averageSessionDuration"]
                    eq_refl eq_refl eq_refl eq_refl) "country == US");
      reflexivity.
Defined.

Lemma normalize_returns_normalized (arg : pyval) (out : list string) :
  normalize_field_list arg = Ret out -> Forall normalized_name out.
Proof.
  unfold normalize_field_list, bind.
  destruct (parse_field_arg arg) as [parsed| | |]; try discriminate.
  destruct (py_iter parsed) as [l|]; [|discriminate].
  intros [= <-]. apply strip_nonempty_normalized.
Qed.

Lemma compiled_filter_leaves (env : Collaborators) (dimension_filter : pyval)
      (fe : FilterExpression) :
  compile_dimension_filter env dimension_filter = Ret (inr (Some fe)) ->
  Forall (fun f => in_valid_dimensions (field_name f) = true) (leaves fe).
Proof.
  unfold compile_dimension_filter.
  destruct (py_truthy dimension_filter); [|discriminate].
  destruct dimension_filter as [| | |s| |d]; try discriminate.
  - destruct (json_loads s) as [root| |]; try discriminate.
    destruct (build_filter_expr (proto env) root) as [fe'|] eqn:Hb;
      [|discriminate].
    intros [= <-]. eapply build_fuel_leaves_valid. exact Hb.
  - destruct (build_filter_expr (proto env) (PDict d)) as [fe'|] eqn:Hb;
      [|discriminate].
    intros [= <-]. eapply build_fuel_leaves_valid. exact Hb.
Qed.

(** X17: the backend only ever sees well-formed requests: a resource name
    under [properties/], non-empty lists of normalized dimension and metric
    names, one date range, and a filter whose leaves name catalog fields.
    Hence two backends that answer alike on well-formed requests give the
    same result for every call of the tool. *)
Theorem backend_sees_well_formed_requests (env : Collaborators)
        (backend : RunReportRequest -> outcome RunReportResponse)
        (property_id dimensions metrics date_range_start date_range_end
         dimension_filter : pyval) :
  (forall request, well_formed_request request ->
                   run_report env request = backend request) ->
  get_ga4_data env property_id dimensions metrics date_range_start
               date_range_end dimension_filter
  = get_ga4_data (with_run_report env backend) property_id dimensions metrics
                 date_range_start date_range_end dimension_filter.
Proof.
  intros Hsame. unfold get_ga4_data. f_equal.
  unfold get_ga4_data_try, bind.
  change (check_property (with_run_report env backend) property_id)
    with (check_property env property_id).
  change (compile_dimension_filter (with_run_report env backend)
                                   dimension_filter)
    with (compile_dimension_filter env dimension_filter).
  destruct (check_property env property_id) as [[e|]| | |]; try reflexivity.
  destruct (normalize_field_list dimensions) as [pd| | |] eqn:Hd;
    try reflexivity.
  destruct (normalize_field_list metrics) as [pm| | |] eqn:Hm;
    try reflexivity.
  destruct pd as [|d dl]; [reflexivity|].
  destruct pm as [|m ml]; [reflexivity|].
  destruct (compile_dimension_filter env dimension_filter)
    as [[e|fe]| | |] eqn:Hc; try reflexivity.
  assert (Hfetch : fetch_report env property_id (d :: dl) (m :: ml)
                                date_range_start date_range_end fe
                   = fetch_report (with_run_report env backend) property_id
                                  (d :: dl) (m :: ml) date_range_start
                                  date_range_end fe).
  { unfold fetch_report, bind. cbn [oauth proto check_request run_report
                                    with_run_report].
    destruct (get_authenticated_client (oauth env)); try reflexivity.
    match goal with
    | |- context [check_request env ?r] =>
        destruct (check_request env r); [reflexivity|]; apply Hsame
    end.
    unfold well_formed_request. simpl.
    split; [destruct (py_str property_id); reflexivity|].
    split; [discriminate|].
    split; [apply (normalize_returns_normalized _ _ Hd)|].
    split; [discriminate|].
    split; [apply (normalize_returns_normalized _ _ Hm)|].
    split; [reflexivity|].
    destruct fe as [fe|]; [|exact I].
    destruct (message_truthy (proto env) fe); [|exact I].
    apply (compiled_filter_leaves _ _ _ Hc). }
  rewrite Hfetch. reflexivity.
Qed.

Lemma backend_sees_well_formed_requests_witness :
  get_ga4_data (fixed_backend empty_response) (PStr "123") (PStr "date,city")
               (PList [PStr "totalUsers"]) default_date_range_start
               default_date_range_end PNone
  = get_ga4_data
      (with_run_report (fixed_backend empty_response)
         (fun request =>
            match dimensions request with
            | [] => Raise (mkExn "no dimensions" None)
            | _ => Ret empty_response
            end))
      (PStr "123") (PStr "date,city") (PList [PStr "totalUsers"])
      default_date_range_start default_date_range_end PNone.
Proof.
  apply backend_sees_well_formed_requests.
  intros request (_ & Hd & _). simpl.
  destruct (dimensions request); [contradiction|reflexivity].
Defined.

(** ** Credentials *)

(** X18: the credentials code ends the process only for want of a client id
    or secret: when none of the calls it makes exits, an exit of
    [get_oauth_credentials] has status 1, the client id or the client secret
    is missing, and there is no valid token on disk. *)
Theorem exit_only_without_client_secrets (o : OAuthSetup) (status : Z) :
  (forall load s, token_file o = Some load -> load <> Exit s) ->
  (forall c s, refresh o c <> Exit s) ->
  (forall s, run_local_server o <> Exit s) ->
  (forall c s, save_token o c <> Exit s) ->
  get_oauth_credentials o = Exit status ->
  status = 1%Z /\
  client_secrets_missing o = true /\
  (token_file o = None \/
   exists c, token_file o = Some (Ret c) /\ valid c = false).
Proof.
  intros Hload Hrefresh Hflow Hsave.
  assert (Hlogin : forall creds,
             login o creds = Exit status ->
             status = 1%Z /\ client_secrets_missing o = true).
  { intros creds. unfold login, bind.
    assert (Hend : forall c : option Credentials,
               match match c with
                     | Some c' => Ret c'
                     | None => if client_secrets_missing o then Exit 1
                               else run_local_server o
                     end with
               | Ret c' => match save_token o c' with
                           | Ret _ => Ret c'
                           | Raise e => Raise e
                           | Exit s => Exit s
                           | OutOfModel => OutOfModel
                           end
               | Raise e => Raise e
               | Exit s => Exit s
               | OutOfModel => OutOfModel
               end = Exit status ->
               status = 1%Z /\ client_secrets_missing o = true).
    { intros [c'|].
      - destruct (save_token o c') eqn:Hs; try discriminate.
        exfalso. eapply Hsave; eauto.
      - destruct (client_secrets_missing o).
        + intros [= <-]. auto.
        + destruct (run_local_server o) as [c'| | |] eqn:Hf; try discriminate.
          * destruct (save_token o c') eqn:Hs; try discriminate.
            exfalso. eapply Hsave; eauto.
          * exfalso. eapply Hflow; eauto. }
    destruct creds as [c|]; [|apply (Hend None)].
    destruct (refreshable (Some c)); [|apply (Hend (Some c))].
    destruct (refresh o c) as [c'| | |] eqn:Hr.
    - apply (Hend (Some c')).
    - apply (Hend None).
    - exfalso. eapply Hrefresh; eauto.
    - discriminate. }
  unfold get_oauth_credentials, bind.
  destruct (token_file o) as [load|] eqn:Htf.
  - destruct load as [c| | |] eqn:Hl; try discriminate.
    + destruct (valid c) eqn:Hv; [discriminate|].
      intros H. destruct (Hlogin _ H) as [-> Hm]. eauto 10.
    + exfalso. eapply Hload; eauto.
  - intros H. destruct (Hlogin _ H) as [-> Hm]. auto.
Qed.

Lemma exit_only_without_client_secrets_witness :
  1%Z = 1%Z /\
  client_secrets_missing no_credentials = true /\
  (token_file no_credentials = None \/
   exists c, token_file no_credentials = Some (Ret c) /\ valid c = false).
Proof.
  apply (exit_only_without_client_secrets no_credentials 1);
    try (intros; discriminate).
  reflexivity.
Defined.

(** X19: credentials obtained by a refresh or by the interactive flow are
    written to the token file before they are returned: whatever
    [get_oauth_credentials] returns is the valid token found on disk or has
    just been saved. *)
Theorem returned_credentials_are_stored (o : OAuthSetup) (c : Credentials) :
  get_oauth_credentials o = Ret c ->
  (token_file o = Some (Ret c) /\ valid c = true) \/ save_token o c = Ret tt.
Proof.
  assert (Hlogin : forall creds, login o creds = Ret c -> save_token o c = Ret tt).
  { intros creds. unfold login, bind.
    destruct (match creds with
              | Some c0 => if refreshable creds
                           then match refresh o c0 with
                                | Ret c' => Ret (Some c')
                                | Raise _ => Ret None
                                | Exit s => Exit s
                                | OutOfModel => OutOfModel
                                end
                           else Ret creds
              | None => Ret None
              end) as [creds'| | |]; try discriminate.
    destruct (match creds' with
              | Some c0 => Ret c0
              | None => if client_secrets_missing o then Exit 1
                        else run_local_server o
              end) as [c'| | |]; try discriminate.
    destruct (save_token o c') as [[]| | |] eqn:Hs; try discriminate.
    intros [= <-]. exact Hs. }
  unfold get_oauth_credentials, bind.
  destruct (token_file o) as [load|].
  - destruct load as [c0| | |]; try discriminate.
    destruct (valid c0) eqn:Hv.
    + intros [= <-]. auto.
    + intros H. right. eapply Hlogin; eauto.
  - intros H. right. eapply Hlogin; eauto.
Qed.

Lemma returned_credentials_are_stored_witness :
  let fresh := mkCredentials true false (Some "r2") in
  let o := mkOAuthSetup
             (Some (Ret (mkCredentials false true (Some "r1"))))
             (fun _ => Ret fresh) PNone PNone
             (Raise (mkExn "no browser" None))
             (fun _ => Ret tt) (fun _ => Ret tt) in
  (token_file o = Some (Ret fresh) /\ valid fresh = true)
  \/ save_token o fresh = Ret tt.
Proof.
  intros fresh o. apply (returned_credentials_are_stored o fresh). reflexivity.
Defined.

(** ** Property manager *)

Lemma lookup_set_same (A : Type) (k : string) (v : A) (d : pydict_of A) :
  dict_lookup k (dict_set k v d) = Some v.
Proof.
  induction d as [|[k' v'] r IH]; simpl.
  - rewrite String.eqb_refl. reflexivity.
  - destruct (String.eqb k k') eqn:Hk; simpl; rewrite Hk; [reflexivity|exact IH].
Qed.

Lemma mem_set_grows (A : Type) (k k' : string) (v : A) (d : pydict_of A) :
  dict_mem k d = true -> dict_mem k (dict_set k' v d) = true.
Proof.
  unfold dict_mem. induction d as [|[k0 v0] r IH]; simpl; [discriminate|].
  destruct (String.eqb k' k0) eqn:Hk'; simpl;
    destruct (String.eqb k k0); auto.
Qed.

Lemma mem_set_same (A : Type) (k : string) (v : A) (d : pydict_of A) :
  dict_mem k (dict_set k v d) = true.
Proof. unfold dict_mem. rewrite lookup_set_same. reflexivity. Qed.

Lemma consistent_set (k : string) (info : pydict) (cache : pydict_of pydict) :
  dict_lookup "id" info = Some (PStr k) ->
  cache_consistent cache -> cache_consistent (dict_set k info cache).
Proof.
  intros Hid. unfold cache_consistent.
  induction 1 as [|[k' v'] r Hkv Hr IH]; simpl.
  - repeat constructor. exact Hid.
  - destruct (String.eqb_spec k k') as [->|]; constructor; auto.
Qed.

Lemma consistent_lookup (k : string) (info : pydict) (cache : pydict_of pydict) :
  cache_consistent cache -> dict_lookup k cache = Some info ->
  dict_lookup "id" info = Some (PStr k).
Proof.
  unfold cache_consistent. induction 1 as [|[k' v'] r Hkv Hr IH]; simpl;
    [discriminate|].
  destruct (String.eqb_spec k k') as [->|]; [|exact IH].
  intros [= <-]. exact Hkv.
Qed.

Lemma listed_set (k : string) (info : pydict) (acc : list pydict)
      (cache : pydict_of pydict) :
  dict_lookup "id" info = Some (PStr k) ->
  listing_invariant acc cache ->
  listing_invariant (acc ++ [info]) (dict_set k info cache).
Proof.
  intros Hid [Hc Hacc]. split; [apply consistent_set; assumption|].
  apply Forall_app. split.
  - eapply Forall_impl; [|exact Hacc]. intros d (k' & Hk' & Hm).
    exists k'. split; [exact Hk'|apply mem_set_grows; exact Hm].
  - repeat constructor. exists k. split; [exact Hid|apply mem_set_same].
Qed.

Lemma add_summaries_spec (a : PropertyManager.AccountSummary)
      (ps : list PropertyManager.PropertySummary) (acc : list pydict)
      (cache : pydict_of pydict) :
  let r := PropertyManager.add_summaries a ps acc cache in
  (listing_invariant acc cache -> listing_invariant (fst r) (snd r)) /\
  (forall k, dict_mem k cache = true -> dict_mem k (snd r) = true).
Proof.
  revert acc cache. induction ps as [|p rest IH]; intros acc cache; simpl.
  - tauto.
  - destruct (IH (acc ++ [PropertyManager.summary_info a p])
                 (dict_set (PropertyManager.last_segment
                              (PropertyManager.property p))
                           (PropertyManager.summary_info a p) cache))
      as [Hinv Hgrow].
    split.
    + intros H. apply Hinv. apply listed_set; [reflexivity|exact H].
    + intros k Hk. apply Hgrow. apply mem_set_grows. exact Hk.
Qed.

Lemma add_accounts_spec (accounts : list PropertyManager.AccountSummary)
      (acc : list pydict) (cache : pydict_of pydict) :
  let r := PropertyManager.add_accounts accounts acc cache in
  (listing_invariant acc cache -> listing_invariant (fst r) (snd r)) /\
  (forall k, dict_mem k cache = true -> dict_mem k (snd r) = true).
Proof.
  revert acc cache. induction accounts as [|a rest IH]; intros acc cache; simpl.
  - tauto.
  - pose proof (add_summaries_spec a (PropertyManager.property_summaries a)
                                   acc cache) as Hs.
    destruct (PropertyManager.add_summaries a
                (PropertyManager.property_summaries a) acc cache)
      as [acc' cache'].
    simpl in Hs. destruct Hs as [Hinv Hgrow].
    destruct (IH acc' cache') as [Hinv' Hgrow'].
    split; auto.
Qed.

Lemma list_pages_spec (fuel : nat) (client : PropertyManager.AdminClient) :
  forall (token : string) (acc : list pydict) (cache : pydict_of pydict)
         (result : pyval) (cache' : pydict_of pydict),
    PropertyManager.list_pages fuel client token acc cache
    = Ret (result, cache') ->
    (forall k, dict_mem k cache = true -> dict_mem k cache' = true) /\
    (listing_invariant acc cache ->
     cache_consistent cache' /\
     forall infos, result = PList infos ->
       Forall (fun info => exists d k,
                   info = PDict d /\ dict_lookup "id" d = Some (PStr k) /\
                   dict_mem k cache' = true) infos).
Proof.
  induction fuel as [|fuel IH]; intros token acc cache result cache';
    [discriminate|].
  simpl.
  destruct (PropertyManager.list_account_summaries client token)
    as [page|e| |]; try discriminate.
  - pose proof (add_accounts_spec (PropertyManager.account_summaries page)
                                  acc cache) as Ha.
    destruct (PropertyManager.add_accounts
                (PropertyManager.account_summaries page) acc cache)
      as [acc1 cache1].
    simpl in Ha. destruct Ha as [Hinv Hgrow].
    destruct (String.eqb (PropertyManager.next_page_token page) EmptyString).
    + intros [= <- <-]. split; [exact Hgrow|].
      intros H. destruct (Hinv H) as [Hc Hacc]. split; [exact Hc|].
      intros infos [= <-]. apply Forall_map.
      eapply Forall_impl; [|exact Hacc].
      intros d (k & Hk & Hm). exists d, k. auto.
    + intros H. destruct (IH _ _ _ _ _ H) as [Hgrow' Hinv']. split.
      * intros k Hk. apply Hgrow', Hgrow, Hk.
      * intros H0. apply Hinv', Hinv, H0.
  - intros [= <- <-]. split; [auto|].
    intros [Hc _]. split; [exact Hc|]. intros infos H. discriminate.
Qed.

Lemma listed_in_cache (fuel : nat) (st st' : PropertyManager.State)
      (infos : list pyval) (info : pyval) :
  cache_consistent (PropertyManager.properties st) ->
  PropertyManager.list_properties fuel st = Ret (PList infos, st') ->
  In info infos ->
  exists d k,
    info = PDict d /\ dict_lookup "id" d = Some (PStr k) /\
    dict_mem k (PropertyManager.properties st') = true.
Proof.
  intros Hc. unfold PropertyManager.list_properties.
  destruct (PropertyManager.admin_client st) as [client|]; [|discriminate].
  unfold bind.
  destruct (PropertyManager.list_pages fuel client EmptyString []
              (PropertyManager.properties st)) as [[result cache']| | |] eqn:Hl;
    try discriminate.
  simpl. intros [= -> <-] Hin.
  destruct (list_pages_spec _ _ _ _ _ _ _ Hl) as [_ Hinv].
  destruct Hinv as [_ Hall]; [split; [exact Hc|constructor]|].
  specialize (Hall infos eq_refl). rewrite Forall_forall in Hall.
  exact (Hall info Hin).
Qed.

Lemma validate_cached (k : string) (st : PropertyManager.State) :
  dict_mem k (PropertyManager.properties st) = true ->
  PropertyManager.validate_property_id (PStr k) st = Ret (true, st).
Proof.
  intros Hm.
  unfold PropertyManager.validate_property_id, PropertyManager.cached, bind.
  simpl. unfold dict_mem in Hm.
  destruct (dict_lookup k (PropertyManager.properties st));
    [reflexivity|discriminate].
Qed.

(** X20: after a successful [list_properties], every property of the
    returned list is in the cache, so its id (as a text) is valid without
    any further call of the Admin API: [validate_property_id] answers
    [True] and leaves the manager unchanged. *)
Theorem listed_properties_validate (fuel : nat) (st st' : PropertyManager.State)
        (infos : list pyval) (info : pyval) :
  cache_consistent (PropertyManager.properties st) ->
  PropertyManager.list_properties fuel st = Ret (PList infos, st') ->
  In info infos ->
  exists d k,
    info = PDict d /\ dict_lookup "id" d = Some (PStr k) /\
    PropertyManager.validate_property_id (PStr k) st' = Ret (true, st').
Proof.
  intros Hc Hl Hin.
  destruct (listed_in_cache fuel st st' infos info Hc Hl Hin)
    as (d & k & -> & Hid & Hm).
  exists d, k. repeat split; try assumption. apply validate_cached. exact Hm.
Qed.

Lemma listed_properties_validate_witness :
  exists d k,
    PDict (PropertyManager.summary_info
             (PropertyManager.mkAccountSummary "accounts/1" "Main" [])
             (PropertyManager.mkPropertySummary "properties/222" "Blog"))
    = PDict d /\ dict_lookup "id" d = Some (PStr k) /\
    PropertyManager.validate_property_id (PStr k)
      (PropertyManager.mkState
         [("111", PropertyManager.summary_info
                    (PropertyManager.mkAccountSummary "accounts/1" "Main" [])
                    (PropertyManager.mkPropertySummary "properties/111" "Shop"));
          ("222", PropertyManager.summary_info
                    (PropertyManager.mkAccountSummary "accounts/1" "Main" [])
                    (PropertyManager.mkPropertySummary "properties/222" "Blog"))]
         (Some demo_admin))
    = Ret (true,
           PropertyManager.mkState
             [("111", PropertyManager.summary_info
                        (PropertyManager.mkAccountSummary "accounts/1" "Main" [])
                        (PropertyManager.mkPropertySummary "properties/111" "Shop"));
              ("222", PropertyManager.summary_info
                        (PropertyManager.mkAccountSummary "accounts/1" "Main" [])
                        (PropertyManager.mkPropertySummary "properties/222" "Blog"))]
             (Some demo_admin)).
Proof.
  eapply (listed_properties_validate 3 (fresh_manager (Some demo_admin))).
  - constructor.
  - reflexivity.
  - simpl. right. left. reflexivity.
Defined.

(** X21: a property fetched by [get_property_info] is cached under its own
    id: when the call returns a property dictionary (no [error] key), the
    dictionary has a text [id], that id is valid from then on, and asking
    for it again returns the same dictionary and leaves the manager
    unchanged. *)
Theorem fetched_property_is_cached (property_id : pyval)
        (st st' : PropertyManager.State) (info : pydict) :
  cache_consistent (PropertyManager.properties st) ->
  PropertyManager.get_property_info property_id st = Ret (PDict info, st') ->
  dict_lookup "error" info = None ->
  exists k,
    dict_lookup "id" info = Some (PStr k) /\
    PropertyManager.validate_property_id (PStr k) st' = Ret (true, st') /\
    PropertyManager.get_property_info (PStr k) st' = Ret (PDict info, st').
Proof.
  intros Hc. unfold PropertyManager.get_property_info at 1.
  unfold PropertyManager.cached, bind.
  destruct (py_hashable property_id); [|discriminate].
  assert (Hhit : forall k,
             dict_lookup k (PropertyManager.properties st') = Some info ->
             dict_lookup "id" info = Some (PStr k) ->
             exists k0,
               dict_lookup "id" info = Some (PStr k0) /\
               PropertyManager.validate_property_id (PStr k0) st'
               = Ret (true, st') /\
               PropertyManager.get_property_info (PStr k0) st'
               = Ret (PDict info, st')).
  { intros k Hk Hid. exists k. split; [exact Hid|]. split.
    - apply validate_cached. unfold dict_mem. rewrite Hk. reflexivity.
    - unfold PropertyManager.get_property_info, PropertyManager.cached, bind.
      simpl. rewrite Hk. reflexivity. }
  assert (Hmiss :
            match PropertyManager.admin_client st with
            | Some client =>
                match PropertyManager.get_property client
                        ("properties/" +++ py_str property_id) with
                | Ret p =>
                    Ret (PDict (PropertyManager.property_info p),
                         PropertyManager.mkState
                           (dict_set (PropertyManager.last_segment
                                        (PropertyManager.name p))
                                     (PropertyManager.property_info p)
                                     (PropertyManager.properties st))
                           (PropertyManager.admin_client st))
                | Raise e =>
                    Ret (PropertyManager.error_dict
                           ("Failed to get GA4 property info: " +++ exn_str e),
                         st)
                | Exit status => Exit status
                | OutOfModel => OutOfModel
                end
            | None =>
                Ret (PropertyManager.error_dict
                       "Google Analytics Admin API client not available.", st)
            end = Ret (PDict info, st') ->
            dict_lookup "error" info = None ->
            exists k0,
              dict_lookup "id" info = Some (PStr k0) /\
              PropertyManager.validate_property_id (PStr k0) st'
              = Ret (true, st') /\
              PropertyManager.get_property_info (PStr k0) st'
              = Ret (PDict info, st')).
  { destruct (PropertyManager.admin_client st) as [client|].
    - destruct (PropertyManager.get_property client _) as [p|e| |];
        try discriminate.
      + intros [= <- <-] _.
        apply (Hhit (PropertyManager.last_segment (PropertyManager.name p)));
          [apply lookup_set_same|reflexivity].
      + intros [= <- <-]. discriminate.
    - intros [= <- <-]. discriminate. }
  destruct property_id as [| | |s| |]; try exact Hmiss.
  destruct (dict_lookup s (PropertyManager.properties st)) as [info0|] eqn:Hs;
    [|exact Hmiss].
  intros [= <- <-] _. apply (Hhit s Hs).
  eapply consistent_lookup; eauto.
Qed.

Lemma fetched_property_is_cached_witness :
  exists k,
    dict_lookup "id"
      (PropertyManager.property_info
         (PropertyManager.mkProperty "properties/333" "Docs"
            (Some "2024-01-01T00:00:00") None "accounts/1"))
    = Some (PStr k) /\
    k = "333".
Proof.
  destruct (fetched_property_is_cached (PInt 333)
              (fresh_manager (Some demo_admin))
              (PropertyManager.mkState
                 [("333", PropertyManager.property_info
                            (PropertyManager.mkProperty "properties/333" "Docs"
                               (Some "2024-01-01T00:00:00") None "accounts/1"))]
                 (Some demo_admin))
              (PropertyManager.property_info
                 (PropertyManager.mkProperty "properties/333" "Docs"
                    (Some "2024-01-01T00:00:00") None "accounts/1")))
    as (k & Hid & _).
  - constructor.
  - reflexivity.
  - reflexivity.
  - exists k. split; [exact Hid|]. vm_compute in Hid. congruence.
Defined.

Lemma extends_refl (st : PropertyManager.State) : extends st st.
Proof. unfold extends. auto. Qed.

Lemma get_property_info_extends (property_id : pyval)
      (st st' : PropertyManager.State) (r : pyval) :
  PropertyManager.get_property_info property_id st = Ret (r, st') ->
  extends st st'.
Proof.
  unfold PropertyManager.get_property_info, PropertyManager.cached, bind.
  destruct (py_hashable property_id); [|discriminate].
  assert (Hmiss :
            match PropertyManager.admin_client st with
            | Some client =>
                match PropertyManager.get_property client
                        ("properties/" +++ py_str property_id) with
                | Ret p =>
                    Ret (PDict (PropertyManager.property_info p),
                         PropertyManager.mkState
                           (dict_set (PropertyManager.last_segment
                                        (PropertyManager.name p))
                                     (PropertyManager.property_info p)
                                     (PropertyManager.properties st))
                           (PropertyManager.admin_client st))
                | Raise e =>
                    Ret (PropertyManager.error_dict
                           ("Failed to get GA4 property info: " +++ exn_str e),
                         st)
                | Exit status => Exit status
                | OutOfModel => OutOfModel
                end
            | None =>
                Ret (PropertyManager.error_dict
                       "Google Analytics Admin API client not available.", st)
            end = Ret (r, st') -> extends st st').
  { destruct (PropertyManager.admin_client st) as [client|] eqn:Ha.
    - destruct (PropertyManager.get_property client _) as [p|e| |];
        try discriminate.
      + intros [= <- <-]. unfold extends. simpl. split; [|split].
        * intros k. apply mem_set_grows.
        * symmetry. exact Ha.
        * apply consistent_set. reflexivity.
      + intros [= <- <-]. apply extends_refl.
    - intros [= <- <-]. apply extends_refl. }
  destruct property_id as [| | |s| |]; try exact Hmiss.
  destruct (dict_lookup s (PropertyManager.properties st)); [|exact Hmiss].
  intros [= <- <-]. apply extends_refl.
Qed.

Lemma list_properties_extends (fuel : nat) (st st' : PropertyManager.State)
      (r : pyval) :
  PropertyManager.list_properties fuel st = Ret (r, st') -> extends st st'.
Proof.
  unfold PropertyManager.list_properties, bind.
  destruct (PropertyManager.admin_client st) as [client|] eqn:Ha.
  - destruct (PropertyManager.list_pages fuel client EmptyString []
                (PropertyManager.properties st)) as [[res c]| | |] eqn:Hl;
      try discriminate.
    intros [= _ <-]. destruct (list_pages_spec _ _ _ _ _ _ _ Hl) as [Hg Hc].
    unfold extends. simpl. split; [exact Hg|]. split; [symmetry; exact Ha|].
    intros H. apply Hc. split; [exact H|constructor].
  - intros [= _ <-]. apply extends_refl.
Qed.

Lemma validate_property_id_extends (property_id : pyval)
      (st st' : PropertyManager.State) (b : bool) :
  PropertyManager.validate_property_id property_id st = Ret (b, st') ->
  extends st st'.
Proof.
  unfold PropertyManager.validate_property_id at 1.
  unfold PropertyManager.cached, bind.
  destruct (py_hashable property_id); [|discriminate].
  assert (Hmiss :
            match PropertyManager.get_property_info property_id st with
            | Ret (info, st0) =>
                match py_contains "error" info with
                | Some found => Ret (negb found, st0)
                | None => Ret (false, st0)
                end
            | Raise _ => Ret (false, st)
            | Exit status => Exit status
            | OutOfModel => OutOfModel
            end = Ret (b, st') -> extends st st').
  { destruct (PropertyManager.get_property_info property_id st)
      as [[info st0]| | |] eqn:Hg; try discriminate.
    - pose proof (get_property_info_extends _ _ _ _ Hg) as He.
      destruct (py_contains "error" info); intros [= _ <-]; exact He.
    - intros [= _ <-]. apply extends_refl. }
  destruct property_id as [| | |s| |]; try exact Hmiss.
  destruct (dict_lookup s (PropertyManager.properties st)); [|exact Hmiss].
  intros [= _ <-]. apply extends_refl.
Qed.

(** X22: the manager only learns: after [list_properties],
    [get_property_info] or [validate_property_id] the client is the same,
    every id that was cached is still cached, and the cache still stores
    every property under its own id. *)
Theorem manager_only_learns (fuel : nat) (property_id : pyval)
        (st st' : PropertyManager.State) :
  (forall r, PropertyManager.list_properties fuel st = Ret (r, st') ->
             extends st st') /\
  (forall r, PropertyManager.get_property_info property_id st = Ret (r, st') ->
             extends st st') /\
  (forall b, PropertyManager.validate_property_id property_id st = Ret (b, st') ->
             extends st st').
Proof.
  split; [|split].
  - intros r. apply list_properties_extends.
  - intros r. apply get_property_info_extends.
  - intros b. apply validate_property_id_extends.
Qed.

Lemma manager_only_learns_witness :
  extends (fresh_manager (Some demo_admin))
          (PropertyManager.mkState
             [("333", PropertyManager.property_info
                        (PropertyManager.mkProperty "properties/333" "Docs"
                           (Some "2024-01-01T00:00:00") None "accounts/1"))]
             (Some demo_admin)).
Proof.
  apply (proj2 (proj2 (manager_only_learns 0 (PStr "333") _ _)) true).
  reflexivity.
Defined.

Lemma list_pages_never_raises (fuel : nat) (client : PropertyManager.AdminClient) :
  forall (token : string) (acc : list pydict) (cache : pydict_of pydict)
         (e : exn),
    PropertyManager.list_pages fuel client token acc cache <> Raise e.
Proof.
  induction fuel as [|fuel IH]; intros token acc cache e; [discriminate|].
  simpl.
  destruct (PropertyManager.list_account_summaries client token)
    as [page|e'| |]; try discriminate.
  destruct (PropertyManager.add_accounts _ _ _) as [acc' cache'].
  destruct (String.eqb _ _); [discriminate|apply IH].
Qed.

(** X23: the manager's methods turn the failures of the Admin API into
    error dictionaries ([False] for [validate_property_id]):
    [list_properties] never raises, and the two other methods raise only
    for an id that cannot be a dictionary key (a list or a dictionary),
    with the [TypeError] of the cache lookup. *)
Theorem manager_raises_only_on_unhashable_id (fuel : nat) (property_id : pyval)
        (st : PropertyManager.State) :
  (forall e, PropertyManager.list_properties fuel st <> Raise e) /\
  (py_hashable property_id = true ->
   forall e,
     PropertyManager.get_property_info property_id st <> Raise e /\
     PropertyManager.validate_property_id property_id st <> Raise e) /\
  (py_hashable property_id = false ->
   PropertyManager.get_property_info property_id st
   = Raise (PropertyManager.unhashable property_id) /\
   PropertyManager.validate_property_id property_id st
   = Raise (PropertyManager.unhashable property_id)).
Proof.
  split; [|split].
  - intros e. unfold PropertyManager.list_properties, bind.
    destruct (PropertyManager.admin_client st) as [client|]; [|discriminate].
    pose proof (list_pages_never_raises fuel client EmptyString []
                  (PropertyManager.properties st) e) as Hn.
    destruct (PropertyManager.list_pages _ _ _ _ _) as [[r c]|e'| |];
      congruence.
  - intros Hh e.
    assert (Hget : forall e0,
               PropertyManager.get_property_info property_id st <> Raise e0).
    { intros e0.
      unfold PropertyManager.get_property_info, PropertyManager.cached, bind.
      rewrite Hh.
      assert (Hmiss :
                match PropertyManager.admin_client st with
                | Some client =>
                    match PropertyManager.get_property client
                            ("properties/" +++ py_str property_id) with
                    | Ret p =>
                        Ret (PDict (PropertyManager.property_info p),
                             PropertyManager.mkState
                               (dict_set (PropertyManager.last_segment
                                            (PropertyManager.name p))
                                         (PropertyManager.property_info p)
                                         (PropertyManager.properties st))
                               (PropertyManager.admin_client st))
                    | Raise e1 =>
                        Ret (PropertyManager.error_dict
                               ("Failed to get GA4 property info: "
                                +++ exn_str e1), st)
                    | Exit status => Exit status
                    | OutOfModel => OutOfModel
                    end
                | None =>
                    Ret (PropertyManager.error_dict
                           "Google Analytics Admin API client not available.",
                         st)
                end <> Raise e0).
      { destruct (PropertyManager.admin_client st) as [client|];
          [|discriminate].
        destruct (PropertyManager.get_property client _); discriminate. }
      destruct property_id as [| | |s| |]; try exact Hmiss.
      destruct (dict_lookup s (PropertyManager.properties st));
        [discriminate|exact Hmiss]. }
    split; [apply Hget|].
    unfold PropertyManager.validate_property_id, PropertyManager.cached, bind.
    rewrite Hh.
    assert (Hmiss :
              match PropertyManager.get_property_info property_id st with
              | Ret (info, st0) =>
                  match py_contains "error" info with
                  | Some found => Ret (negb found, st0)
                  | None => Ret (false, st0)
                  end
              | Raise _ => Ret (false, st)
              | Exit status => Exit status
              | OutOfModel => OutOfModel
              end <> Raise e).
    { destruct (PropertyManager.get_property_info property_id st)
        as [[info st0]| | |]; try discriminate.
      destruct (py_contains "error" info); discriminate. }
    destruct property_id as [| | |s| |]; try exact Hmiss.
    destruct (dict_lookup s (PropertyManager.properties st));
      [discriminate|exact Hmiss].
  - intros Hh.
    unfold PropertyManager.get_property_info,
      PropertyManager.validate_property_id, PropertyManager.cached, bind.
    rewrite Hh. split; reflexivity.
Qed.

Lemma manager_raises_only_on_unhashable_id_witness :
  PropertyManager.validate_property_id (PList [PStr "111"])
                                       (fresh_manager (Some demo_admin))
  = Raise (mkExn "unhashable type: 'list'" None).
Proof.
  apply (proj2 (proj2 (manager_raises_only_on_unhashable_id
                         0 (PList [PStr "111"])
                         (fresh_manager (Some demo_admin))))).
  reflexivity.
Defined.

(** X24: what [validate_property_id] answers: [True] exactly when the id is
    in the cache or the Admin API returns a property for the resource name
    built from the id (without comparing the id of the property returned);
    and when it answers [False] the manager is unchanged. *)
Theorem validate_answers (property_id : pyval) (st st' : PropertyManager.State)
        (b : bool) :
  PropertyManager.validate_property_id property_id st = Ret (b, st') ->
  (b = true <->
   (exists info, PropertyManager.cached property_id st = Ret (Some info)) \/
   (exists client p,
       PropertyManager.admin_client st = Some client /\
       PropertyManager.get_property client
         ("properties/" +++ py_str property_id) = Ret p)) /\
  (b = false -> st' = st).
Proof.
  unfold PropertyManager.validate_property_id,
    PropertyManager.get_property_info, bind.
  remember ("properties/" +++ py_str property_id) as resource.
  destruct (PropertyManager.cached property_id st) as [[info|]| | |] eqn:Hc;
    try discriminate.
  - intros [= <- <-]. split; [|discriminate].
    split; [eauto|reflexivity].
  - destruct (PropertyManager.admin_client st) as [client|] eqn:Ha.
    + destruct (PropertyManager.get_property client _) as [p|e| |] eqn:Hg;
        try discriminate.
      * simpl. intros [= <- <-]. split; [|discriminate].
        split; [eauto 10|reflexivity].
      * simpl. intros [= <- <-]. split; [|reflexivity].
        split; [discriminate|].
        intros [[info H]|(client' & p & [= <-] & H)]; congruence.
    + simpl. intros [= <- <-]. split; [|reflexivity].
      split; [discriminate|].
      intros [[info H]|(client' & p & H & _)]; discriminate.
Qed.

Lemma validate_answers_witness :
  (true = true <->
   (exists info,
       PropertyManager.cached (PStr "333") (fresh_manager (Some demo_admin))
       = Ret (Some info)) \/
   (exists client p,
       PropertyManager.admin_client (fresh_manager (Some demo_admin))
       = Some client /\
       PropertyManager.get_property client ("properties/" +++ py_str (PStr "333"))
       = Ret p)).
Proof.
  apply (validate_answers (PStr "333") (fresh_manager (Some demo_admin))
           (PropertyManager.mkState
              [("333", PropertyManager.property_info
                         (PropertyManager.mkProperty "properties/333" "Docs"
                            (Some "2024-01-01T00:00:00") None "accounts/1"))]
              (Some demo_admin)) true).
  reflexivity.
Defined.

(** X25: every property id shown by a successful [list_properties] passes
    the property check of [get_ga4_data] afterwards, without a call of the
    Admin API, provided the id is not empty. *)
Theorem listed_property_passes_check (env : Collaborators) (fuel fuel' : nat)
        (st st' : PropertyManager.State) (infos : list pyval) (info : pyval) :
  cache_consistent (PropertyManager.properties st) ->
  PropertyManager.list_properties fuel st = Ret (PList infos, st') ->
  In info infos ->
  info_text "id" info <> EmptyString ->
  property_manager env = Some (as_manager fuel' st') ->
  check_property env (PStr (info_text "id" info)) = Ret None.
Proof.
  intros Hc Hl Hin Hne Hpm.
  destruct (listed_in_cache fuel st st' infos info Hc Hl Hin)
    as (d & k & -> & Hid & Hm).
  assert (Hk : info_text "id" (PDict d) = k).
  { unfold info_text. simpl. rewrite Hid. reflexivity. }
  rewrite Hk in *. unfold check_property. rewrite Hpm.
  destruct k as [|c k]; [contradiction|]. simpl.
  unfold bind. rewrite (validate_cached _ _ Hm). reflexivity.
Qed.

Lemma listed_property_passes_check_witness :
  let st' :=
    PropertyManager.mkState
      [("111", PropertyManager.summary_info
                 (PropertyManager.mkAccountSummary "accounts/1" "Main" [])
                 (PropertyManager.mkPropertySummary "properties/111" "Shop"));
       ("222", PropertyManager.summary_info
                 (PropertyManager.mkAccountSummary "accounts/1" "Main" [])
                 (PropertyManager.mkPropertySummary "properties/222" "Blog"))]
      (Some demo_admin) in
  check_property
    (mkCollaborators strict_proto (Some (as_manager 3 st')) valid_token
                     (fun _ => None) (fun _ => Ret empty_response))
    (PStr "111")
  = Ret None.
Proof.
  intros st'.
  apply (listed_property_passes_check
           (mkCollaborators strict_proto (Some (as_manager 3 st')) valid_token
                            (fun _ => None) (fun _ => Ret empty_response))
           3 3 (fresh_manager (Some demo_admin)) st'
           [PDict (PropertyManager.summary_info
                     (PropertyManager.mkAccountSummary "accounts/1" "Main" [])
                     (PropertyManager.mkPropertySummary "properties/111" "Shop"));
            PDict (PropertyManager.summary_info
                     (PropertyManager.mkAccountSummary "accounts/1" "Main" [])
                     (PropertyManager.mkPropertySummary "properties/222" "Blog"))]
           (PDict (PropertyManager.summary_info
                     (PropertyManager.mkAccountSummary "accounts/1" "Main" [])
                     (PropertyManager.mkPropertySummary "properties/111" "Shop")))).
  - constructor.
  - reflexivity.
  - left. reflexivity.
  - discriminate.
  - reflexivity.
Defined.

(** ** Catalog tools *)

Lemma distinct_NoDup (l : list string) : distinct l = true -> NoDup l.
Proof.
  induction l as [|x r IH]; simpl; [constructor|].
  intros H. apply andb_prop in H. destruct H as [Hx Hr].
  constructor; [|apply IH, Hr].
  intros Hin. apply negb_true_iff in Hx.
  assert (existsb (String.eqb x) r = true); [|congruence].
  apply existsb_exists. exists x. split; [exact Hin|apply String.eqb_refl].
Qed.

Lemma lookup_not_key (A : Type) (c : string) (d : pydict_of A) :
  ~ In c (map fst d) -> dict_lookup c d = None.
Proof.
  induction d as [|[k v] r IH]; simpl; [reflexivity|].
  intros H. destruct (String.eqb_spec c k) as [->|]; [tauto|].
  apply IH. tauto.
Qed.

Lemma lookup_In (A : Type) (c : string) (v : A) (d : pydict_of A) :
  dict_lookup c d = Some v -> In (c, v) d.
Proof.
  induction d as [|[k x] r IH]; simpl; [discriminate|].
  destruct (String.eqb_spec c k) as [->|]; [intros [= ->]; auto|auto].
Qed.

Lemma In_lookup (A : Type) (c : string) (v : A) (d : pydict_of A) :
  NoDup (map fst d) -> In (c, v) d -> dict_lookup c d = Some v.
Proof.
  induction d as [|[k x] r IH]; simpl; [tauto|].
  intros Hnd [[= -> ->]|Hin].
  - rewrite String.eqb_refl. reflexivity.
  - inversion Hnd as [|? ? Hk Hr]; subst.
    destruct (String.eqb_spec c k) as [->|]; [|auto].
    exfalso. apply Hk. apply (in_map fst) in Hin. exact Hin.
Qed.

Lemma summarize_lookup (label c : string) (catalog : pydict_of (pydict_of string)) :
  NoDup (map fst catalog) ->
  dict_lookup c (Catalog.summarize label catalog)
  = match dict_lookup c catalog with
    | Some fields =>
        Some (category_summary label
                (map (fun kv => (fst kv, PStr (snd kv))) fields))
    | None => None
    end.
Proof.
  unfold Catalog.summarize.
  assert (Hgen : forall acc,
             NoDup (map fst catalog) ->
             dict_lookup c
               (fold_left
                  (fun result entry =>
                     dict_set (fst entry)
                       (PDict [("count",
                                PInt (Z.of_nat (List.length (snd entry))));
                               (label,
                                PList (map (fun kv => PStr (fst kv))
                                           (snd entry)))])
                       result) catalog acc)
             = match dict_lookup c catalog with
               | Some fields =>
                   Some (category_summary label
                           (map (fun kv => (fst kv, PStr (snd kv))) fields))
               | None => dict_lookup c acc
               end).
  { induction catalog as [|[k fields] rest IH]; intros acc Hnd; simpl;
      [reflexivity|].
    inversion Hnd as [|? ? Hk Hr]; subst.
    rewrite (IH _ Hr). destruct (String.eqb_spec c k) as [->|Hne].
    - rewrite (lookup_not_key _ _ _ Hk), dict_lookup_set, String.eqb_refl.
      unfold category_summary. rewrite length_map, map_map. reflexivity.
    - destruct (dict_lookup c rest); [reflexivity|].
      rewrite dict_lookup_set.
      destruct (String.eqb_spec c k); [contradiction|reflexivity]. }
  intros Hnd. rewrite (Hgen [] Hnd).
  destruct (dict_lookup c catalog); reflexivity.
Qed.

Lemma dimension_categories_distinct :
  NoDup (map fst Catalog.load_dimensions).
Proof. apply distinct_NoDup. vm_compute. reflexivity. Qed.

Lemma metric_categories_distinct :
  NoDup (map fst Catalog.load_metrics).
Proof. apply distinct_NoDup. vm_compute. reflexivity. Qed.

Lemma by_category_known (label c : string)
      (catalog : pydict_of (pydict_of string)) :
  NoDup (map fst catalog) ->
  match dict_lookup c (Catalog.summarize label catalog) with
  | Some summary =>
      exists fields,
        Catalog.by_category catalog (PStr c) = Ret (PDict fields) /\
        summary = category_summary label fields
  | None =>
      exists message,
        Catalog.by_category catalog (PStr c)
        = Ret (PropertyManager.error_dict message)
  end.
Proof.
  intros Hnd. rewrite (summarize_lookup label c catalog Hnd).
  unfold Catalog.by_category. cbn [py_hashable].
  destruct (dict_lookup c catalog) as [fields|].
  - exists (map (fun kv => (fst kv, PStr (snd kv))) fields).
    split; reflexivity.
  - eexists. reflexivity.
Qed.

(** X26: the category listings and the per-category tools agree: for a
    category shown by [list_dimension_categories] (resp.
    [list_metric_categories]), the per-category tool returns its fields,
    and the listing shows exactly their number and their names in order;
    for any other text the per-category tool returns an error dictionary. *)
Theorem category_listing_matches_lookup (c : string) :
  match py_getitem Catalog.list_dimension_categories c with
  | Some summary =>
      exists fields,
        Catalog.get_dimensions_by_category (PStr c) = Ret (PDict fields) /\
        summary = category_summary "dimensions" fields
  | None =>
      exists message,
        Catalog.get_dimensions_by_category (PStr c)
        = Ret (PropertyManager.error_dict message)
  end /\
  match py_getitem Catalog.list_metric_categories c with
  | Some summary =>
      exists fields,
        Catalog.get_metrics_by_category (PStr c) = Ret (PDict fields) /\
        summary = category_summary "metrics" fields
  | None =>
      exists message,
        Catalog.get_metrics_by_category (PStr c)
        = Ret (PropertyManager.error_dict message)
  end.
Proof.
  split.
  - apply (by_category_known "dimensions" c Catalog.load_dimensions
             dimension_categories_distinct).
  - apply (by_category_known "metrics" c Catalog.load_metrics
             metric_categories_distinct).
Qed.

Lemma catalog_names :
  GA4_DIMENSIONS
  = map (fun entry => (fst entry, map fst (snd entry))) Catalog.GA4_DIMENSIONS.
Proof. vm_compute. reflexivity. Qed.

Lemma valid_dimension_In (name : string) :
  in_valid_dimensions name = true <->
  exists c fields, In (c, fields) Catalog.load_dimensions /\
                   In name (map fst fields).
Proof.
  unfold in_valid_dimensions, valid_dimensions, load_dimensions.
  rewrite catalog_names. split.
  - intros H. apply existsb_exists in H. destruct H as (x & Hin & Heq).
    apply String.eqb_eq in Heq. subst x.
    apply in_flat_map in Hin. destruct Hin as (e & He & Hn).
    apply in_map_iff in He. destruct He as ([c fields] & <- & Hcf).
    exists c, fields. auto.
  - intros (c & fields & Hcf & Hn). apply existsb_exists.
    exists name. split; [|apply String.eqb_refl].
    apply in_flat_map. exists (c, map fst fields). split; [|exact Hn].
    apply in_map_iff. exists (c, fields). auto.
Qed.

(** X27: the fields a filter may name are exactly the dimensions that
    [list_dimension_categories] shows: [fieldName] is accepted by the filter
    compiler's catalog check if and only if it appears in the [dimensions]
    list of some category of the listing. *)
Theorem filter_fields_are_listed_dimensions (name : string) :
  in_valid_dimensions name = true <->
  exists (c : string) (count : pyval) (names : list pyval),
    py_getitem Catalog.list_dimension_categories c
    = Some (PDict [("count", count); ("dimensions", PList names)]) /\
    In (PStr name) names.
Proof.
  rewrite valid_dimension_In. unfold Catalog.list_dimension_categories.
  cbn [py_getitem]. split.
  - intros (c & fields & Hcf & Hn).
    apply (In_lookup _ _ _ _ dimension_categories_distinct) in Hcf.
    eexists c, _, _. split.
    + rewrite (summarize_lookup _ _ _ dimension_categories_distinct), Hcf.
      reflexivity.
    + rewrite map_map. simpl. apply in_map_iff in Hn.
      destruct Hn as ([k v] & <- & Hkv). apply in_map_iff.
      exists (k, v). auto.
  - intros (c & count & names & Hl & Hn).
    rewrite (summarize_lookup _ _ _ dimension_categories_distinct) in Hl.
    destruct (dict_lookup c Catalog.load_dimensions) as [fields|] eqn:Hc;
      [|discriminate].
    injection Hl as _ <-. exists c, fields. split; [apply lookup_In, Hc|].
    rewrite map_map in Hn. simpl in Hn. apply in_map_iff in Hn.
    destruct Hn as ([k v] & [= <-] & Hkv). apply in_map_iff.
    exists (k, v). auto.
Qed.

Lemma mem_map_values (A B : Type) (f : A -> B) (k : string) (d : pydict_of A) :
  dict_mem k (map (fun kv => (fst kv, f (snd kv))) d) = dict_mem k d.
Proof.
  unfold dict_mem. induction d as [|[k' v] r IH]; [reflexivity|].
  cbn [map fst snd dict_lookup].
  destruct (String.eqb k k'); [reflexivity|exact IH].
Qed.

Lemma no_error_field (catalog : pydict_of (pydict_of string)) (c : string)
      (fields : pydict_of string) :
  forallb (fun entry => negb (dict_mem "error" (snd entry))) catalog = true ->
  dict_lookup c catalog = Some fields ->
  dict_mem "error" (map (fun kv => (fst kv, PStr (snd kv))) fields) = false.
Proof.
  intros Hall Hc. apply lookup_In in Hc.
  rewrite forallb_forall in Hall. specialize (Hall _ Hc).
  apply negb_true_iff in Hall. rewrite mem_map_values. exact Hall.
Qed.

Lemma by_category_error_key (catalog : pydict_of (pydict_of string))
      (category r : pyval) :
  forallb (fun entry => negb (dict_mem "error" (snd entry))) catalog = true ->
  Catalog.by_category catalog category = Ret r ->
  (py_contains "error" r = Some true <->
   forall c, category = PStr c -> dict_mem c catalog = false).
Proof.
  intros Hall. unfold Catalog.by_category.
  destruct (py_hashable category); [|discriminate].
  destruct category as [| | |c| |];
    try (intros [= <-]; split; [intros _ c' H; discriminate H|reflexivity]).
  destruct (dict_lookup c catalog) as [fields|] eqn:Hc.
  - intros [= <-]. cbn [py_contains].
    rewrite (no_error_field catalog c fields Hall Hc).
    split; [discriminate|].
    intros H. specialize (H c eq_refl). unfold dict_mem in H.
    rewrite Hc in H. discriminate.
  - intros [= <-]. split; [|reflexivity].
    intros _ c' [= <-]. unfold dict_mem. rewrite Hc. reflexivity.
Qed.

(** X28: the [error] key tells the two answers of the per-category tools
    apart: the dictionary returned has an [error] key if and only if the
    argument is not the name of a category (no field of a catalog is called
    [error]). *)
Theorem error_key_marks_unknown_category (category r : pyval) :
  (Catalog.get_dimensions_by_category category = Ret r ->
   (py_contains "error" r = Some true <->
    forall c, category = PStr c -> dict_mem c Catalog.load_dimensions = false)) /\
  (Catalog.get_metrics_by_category category = Ret r ->
   (py_contains "error" r = Some true <->
    forall c, category = PStr c -> dict_mem c Catalog.load_metrics = false)).
Proof.
  split; apply by_category_error_key; vm_compute; reflexivity.
Qed.

Lemma error_key_marks_unknown_category_witness :
  py_contains "error"
    (PDict [("error",
             PStr ("Category 'geo' not found. Available categories: "
                   +++ py_repr (PList (map (fun entry => PStr (fst entry))
                                           Catalog.load_metrics))))])
  = Some true <->
  forall c, PStr "geo" = PStr c -> dict_mem c Catalog.load_metrics = false.
Proof.
  apply (proj2 (error_key_marks_unknown_category (PStr "geo") _)).
  reflexivity.
Defined.

(** ** Property tools *)

(** X29: a property id shown by [list_ga4_properties] can be looked up with
    [get_ga4_property_info] afterwards: the answer comes from the cache (the
    manager is unchanged) and is a property dictionary with that id. *)
Theorem listed_property_can_be_looked_up (fuel : nat)
        (pm pm' : option PropertyManager.State) (infos : list pyval)
        (info : pyval) :
  manager_consistent pm ->
  list_ga4_properties fuel pm = Ret (PList infos, pm') ->
  In info infos ->
  exists d,
    get_ga4_property_info (PStr (info_text "id" info)) pm' = Ret (PDict d, pm') /\
    dict_lookup "id" d = Some (PStr (info_text "id" info)).
Proof.
  intros Hc. unfold list_ga4_properties, bind.
  destruct pm as [st|]; [|discriminate].
  destruct (PropertyManager.list_properties fuel st) as [[r st']| | |] eqn:Hl;
    try discriminate.
  simpl. intros [= -> <-] Hin.
  destruct (listed_in_cache fuel st st' infos info Hc Hl Hin)
    as (d0 & k & -> & Hid & Hm).
  assert (Hk : info_text "id" (PDict d0) = k).
  { unfold info_text. simpl. rewrite Hid. reflexivity. }
  rewrite Hk.
  unfold get_ga4_property_info, PropertyManager.get_property_info,
    PropertyManager.cached, bind. simpl.
  unfold dict_mem in Hm.
  destruct (dict_lookup k (PropertyManager.properties st')) as [d|] eqn:Hd;
    [|discriminate].
  exists d. split; [reflexivity|].
  apply (consistent_lookup k d (PropertyManager.properties st')); [|exact Hd].
  apply (list_properties_extends _ _ _ _ Hl). exact Hc.
Qed.

Lemma listed_property_can_be_looked_up_witness :
  exists d,
    get_ga4_property_info (PStr "222")
      (Some (PropertyManager.mkState
         [("111", PropertyManager.summary_info
                    (PropertyManager.mkAccountSummary "accounts/1" "Main" [])
                    (PropertyManager.mkPropertySummary "properties/111" "Shop"));
          ("222", PropertyManager.summary_info
                    (PropertyManager.mkAccountSummary "accounts/1" "Main" [])
                    (PropertyManager.mkPropertySummary "properties/222" "Blog"))]
         (Some demo_admin)))
    = Ret (PDict d,
           Some (PropertyManager.mkState
             [("111", PropertyManager.summary_info
                        (PropertyManager.mkAccountSummary "accounts/1" "Main" [])
                        (PropertyManager.mkPropertySummary "properties/111" "Shop"));
              ("222", PropertyManager.summary_info
                        (PropertyManager.mkAccountSummary "accounts/1" "Main" [])
                        (PropertyManager.mkPropertySummary "properties/222" "Blog"))]
             (Some demo_admin))) /\
    dict_lookup "id" d = Some (PStr "222").
Proof.
  apply (listed_property_can_be_looked_up 3
           (Some (fresh_manager (Some demo_admin))) _
           [PDict (PropertyManager.summary_info
                     (PropertyManager.mkAccountSummary "accounts/1" "Main" [])
                     (PropertyManager.mkPropertySummary "properties/111" "Shop"));
            PDict (PropertyManager.summary_info
                     (PropertyManager.mkAccountSummary "accounts/1" "Main" [])
                     (PropertyManager.mkPropertySummary "properties/222" "Blog"))]
           (PDict (PropertyManager.summary_info
                     (PropertyManager.mkAccountSummary "accounts/1" "Main" [])
                     (PropertyManager.mkPropertySummary "properties/222" "Blog")))).
  - constructor.
  - reflexivity.
  - right. left. reflexivity.
Defined.
